(** * TinyLink backend: a shallow embedding of the Express server

    The server keeps one PostgreSQL table, [links], and answers six routes.
    Every handler is an [async] function whose only suspension points are
    [await pool.query(...)]; between two of them JavaScript runs without
    interruption.  The embedding follows that shape:

    - [Js]    : the JavaScript values and library calls the handlers use;
    - [Pg]    : the table of [sql/init.sql] and the SQL statements sent to
                it, with the errors PostgreSQL answers them with;
    - [Async] : a handler as a tree of [Math.random()] draws, clock reads
                and awaited queries, with a sequential run and one-await
                turns;
    - the handlers and the routing table, in the order of the source,
      under the middleware and the router of Express;
    - the properties of the service. *)

From Stdlib Require Import ZArith List String Ascii Bool Lia DecimalString.
From Stdlib Require Import Permutation.
Import ListNotations.

Local Open Scope string_scope.
Local Open Scope list_scope.
Local Open Scope Z_scope.

(** ** JavaScript values *)

Module Js.

(** A value read from the JSON body: [undefined] when the key is missing,
    otherwise the string itself (bodies whose [longUrl] or [customCode] is
    a number, a boolean, an array or an object are left out). *)
Definition value := option string.

(** [if (v)]: [undefined] and the empty string are falsy. *)
Definition truthy (v : value) : bool :=
  match v with
  | None => false
  | Some s => negb (s =? "")%string
  end.

(** The string a value stands for once it is known to be truthy. *)
Definition str (v : value) : string :=
  match v with
  | None => "undefined"
  | Some s => s
  end.

(** [Math.random()] returns a double in [[0, 1)]; it is kept as the
    numerator of a fraction over 2^53. *)
Record unit_double := {
  mantissa : Z;
  mantissa_range : (0 <=? mantissa) && (mantissa <? 2 ^ 53) = true
}.

(** [Math.floor(r * n)], the product taken exactly.  JavaScript rounds
    the product to a double before taking its floor, which gives the next
    integer for the few r within one rounding step below a multiple of
    1/n; for n = 3 and n = 62, the values used here, the rounded product
    stays below n as the exact one does. *)
Definition floor_mul (r : unit_double) (n : Z) : Z :=
  (mantissa r * n) / 2 ^ 53.

(** [s[i]]: [undefined] outside the string. *)
Definition char_at (s : string) (i : Z) : option ascii :=
  if i <? 0 then None else String.get (Z.to_nat i) s.

(** [s += x] where [x] is a character or [undefined]. *)
Definition append_char (s : string) (x : option ascii) : string :=
  match x with
  | Some ch => (s ++ String ch "")%string
  | None => (s ++ "undefined")%string
  end.

(** A character class made of ranges, as in [[A-Za-z0-9]]. *)
Definition char_class := list (ascii * ascii).

Definition in_class (cls : char_class) (ch : ascii) : bool :=
  existsb (fun '(lo, hi) =>
             (nat_of_ascii lo <=? nat_of_ascii ch)%nat
             && (nat_of_ascii ch <=? nat_of_ascii hi)%nat) cls.

(** The regular expressions of the form [/^[cls]{lo,hi}$/]. *)
Record regex := { cls : char_class; lo : nat; hi : nat }.

Fixpoint all_chars (p : ascii -> bool) (s : string) : bool :=
  match s with
  | EmptyString => true
  | String ch rest => p ch && all_chars p rest
  end.

(** [s.includes(ch)] for a single character. *)
Definition includes (s : string) (ch : ascii) : bool :=
  negb (all_chars (fun x => negb (Ascii.eqb x ch)) s).

(** [re.test(s)]: the whole input is [lo] to [hi] characters of the class
    (without the [m] flag, [$] matches only at the very end). *)
Definition test (re : regex) (s : string) : bool :=
  (lo re <=? String.length s)%nat
  && (String.length s <=? hi re)%nat
  && all_chars (in_class (cls re)) s.

Definition lower_char (ch : ascii) : ascii :=
  let n := nat_of_ascii ch in
  if (65 <=? n)%nat && (n <=? 90)%nat then ascii_of_nat (n + 32) else ch.

Fixpoint toLowerCase (s : string) : string :=
  match s with
  | EmptyString => EmptyString
  | String ch rest => String (lower_char ch) (toLowerCase rest)
  end.

(** Decimal rendering of an integer inside a template literal. *)
Definition show (z : Z) : string := NilZero.string_of_int (Z.to_int z).

End Js.

(** ** The store: table [links] of sql/init.sql *)

Module Pg.

(** One row.  [short_code VARCHAR(8) NOT NULL UNIQUE], [target_url TEXT],
    [total_clicks INTEGER], [last_clicked_time TIMESTAMP NULL]. *)
Record Link := {
  short_code : string;
  target_url : string;
  total_clicks : Z;
  last_clicked_time : option Z
}.

(** The rows of the table.  The order of the list is the model's own: no
    statement returns it (see [scan_order]). *)
Definition Table := list Link.

(** The errors the statements below can raise, by SQLSTATE name. *)
Inductive Error :=
| unique_violation                 (* 23505 *)
| numeric_value_out_of_range       (* 22003 *)
| string_data_right_truncation     (* 22001 *)
| character_not_in_repertoire.     (* 22021 *)

Inductive result (A : Type) :=
| Ok (a : A)
| Err (e : Error).
Arguments Ok {A} a.
Arguments Err {A} e.

(** What [pool.query] resolves to. *)
Record QueryResult (R : Type) := { rows : list R; rowCount : nat }.
Arguments rows {R} q.
Arguments rowCount {R} q.

Definition selected {R} (rs : list R) : QueryResult R :=
  {| rows := rs; rowCount := List.length rs |}.

(** A statement reads the database clock and the table, and either fails
    leaving the table as it was or yields a result and the new table. *)
Definition Query (A : Type) := Z -> Table -> result (A * Table).

(** A text value cannot hold a NUL byte: PostgreSQL refuses the parameter
    (invalid byte sequence for encoding UTF8: 0x00). *)
Definition is_text (s : string) : bool :=
  Js.all_chars (fun ch => negb (Ascii.eqb ch Ascii.zero)) s.

(** A statement whose parameter [$1] is the string [s]: a parameter that
    is not a text value fails the statement before it reads the table. *)
Definition with_text {A} (s : string) (q : Query A) : Query A :=
  fun now t =>
    if is_text s then q now t else Err character_not_in_repertoire.

(** A sequential scan returns the rows of the table in an order of the
    store's choosing, which can differ from one time to another: without
    ORDER BY nothing is known of it but that it lists every row once. *)
Record scan_order := {
  scan : Z -> Table -> list Link;
  scan_lists_the_rows : forall now t, Permutation (scan now t) t
}.

(** [WHERE short_code = $1] *)
Definition has_code (c : string) (r : Link) : bool :=
  (short_code r =? c)%string.

(** INTEGER is a signed 32-bit type whose addition raises on overflow. *)
Definition INT4_MIN : Z := -2147483648.
Definition INT4_MAX : Z := 2147483647.

Definition int4pl (a b : Z) : result Z :=
  let s := a + b in
  if (s <? INT4_MIN) || (INT4_MAX <? s)
  then Err numeric_value_out_of_range
  else Ok s.

(** [SELECT COUNT( * ) as count FROM links] *)
Definition select_count : Query Z :=
  fun _ t => Ok (Z.of_nat (List.length t), t).

(** [SELECT 1 FROM links WHERE short_code = $1 LIMIT 1] *)
Definition select_one (c : string) : Query (QueryResult unit) :=
  with_text c (fun _ t =>
    Ok (selected (map (fun _ => tt) (firstn 1 (filter (has_code c) t))), t)).

(** [INSERT INTO links (short_code, target_url, total_clicks,
    last_clicked_time) VALUES ($1, $2, 0, NULL) RETURNING ...].
    [$2] is only ever the serialisation of a URL, in which the URL parser
    has percent-encoded or refused every NUL byte. *)
Definition insert_link (c u : string) : Query (QueryResult Link) :=
  with_text c (fun _ t =>
    if (8 <? String.length c)%nat then Err string_data_right_truncation
    else if existsb (has_code c) t then Err unique_violation
    else
      let row := {| short_code := c; target_url := u;
                    total_clicks := 0; last_clicked_time := None |} in
      Ok (selected [row], t ++ [row])).

(** [SELECT short_code, target_url, total_clicks, last_clicked_time
    FROM links]: no ORDER BY, the rows come in the order of the scan. *)
Definition select_all (heap : scan_order) : Query (QueryResult Link) :=
  fun now t => Ok (selected (scan heap now t), t).

(** [SELECT ... FROM links WHERE short_code = $1 LIMIT 1] *)
Definition select_link (c : string) : Query (QueryResult Link) :=
  with_text c (fun _ t =>
    Ok (selected (firstn 1 (filter (has_code c) t)), t)).

(** [SELECT target_url FROM links WHERE short_code = $1 LIMIT 1] *)
Definition select_target (c : string) : Query (QueryResult string) :=
  with_text c (fun _ t =>
    Ok (selected (map target_url (firstn 1 (filter (has_code c) t))), t)).

(** [DELETE FROM links WHERE short_code = $1 RETURNING short_code] *)
Definition delete_link (c : string) : Query (QueryResult string) :=
  with_text c (fun _ t =>
    Ok (selected (map short_code (filter (has_code c) t)),
        filter (fun r => negb (has_code c r)) t)).

(** [SET total_clicks = total_clicks + 1, last_clicked_time = now()]
    on one row. *)
Definition click (now : Z) (r : Link) : result Link :=
  match int4pl (total_clicks r) 1 with
  | Ok n => Ok {| short_code := short_code r; target_url := target_url r;
                  total_clicks := n; last_clicked_time := Some now |}
  | Err e => Err e
  end.

(** The rows of an UPDATE, in table order; one failing row fails the
    statement.  The second component counts the rows updated. *)
Fixpoint update_where (c : string) (now : Z) (t : Table)
  : result (Table * nat) :=
  match t with
  | [] => Ok ([], O)
  | r :: rest =>
      if has_code c r then
        match click now r with
        | Err e => Err e
        | Ok r' =>
            match update_where c now rest with
            | Err e => Err e
            | Ok (rest', n) => Ok (r' :: rest', S n)
            end
        end
      else
        match update_where c now rest with
        | Err e => Err e
        | Ok (rest', n) => Ok (r :: rest', n)
        end
  end.

(** [UPDATE links SET total_clicks = total_clicks + 1,
    last_clicked_time = now() WHERE short_code = $1] *)
Definition update_clicks (c : string) : Query (QueryResult unit) :=
  with_text c (fun now t =>
    match update_where c now t with
    | Err e => Err e
    | Ok (t', n) => Ok ({| rows := []; rowCount := n |}, t')
    end).

End Pg.

(** ** Asynchronous handlers *)

Module Async.

(** What can be thrown: a rejected query, a [TypeError] from reading a
    property of [undefined], or the [URIError] of [decodeURIComponent]. *)
Inductive Exn :=
| PgError (e : Pg.Error)
| TypeError
| URIError.

(** The body of an [async] function returning an [A]. *)
Inductive Task (A : Type) : Type :=
| Ret (a : A)
| Throw (e : Exn)
| Random (k : Js.unit_double -> Task A)            (* Math.random() *)
| Now (k : Z -> Task A)                            (* the process clock *)
| Await {B : Type} (q : Pg.Query B)
        (k : Pg.result B -> Task A)                (* pool.query(...) *)
| Hang.                                            (* a loop out of fuel *)
Arguments Ret {A} a.
Arguments Throw {A} e.
Arguments Random {A} k.
Arguments Now {A} k.
Arguments Await {A B} q k.
Arguments Hang {A}.

Fixpoint bind {A B} (t : Task A) (f : A -> Task B) : Task B :=
  match t with
  | Ret a => f a
  | Throw e => Throw e
  | Random k => Random (fun r => bind (k r) f)
  | Now k => Now (fun n => bind (k n) f)
  | Await q k => Await q (fun res => bind (k res) f)
  | Hang => Hang
  end.

(** [try { t } catch (err) { h err }] *)
Fixpoint try_catch {A} (t : Task A) (h : Exn -> Task A) : Task A :=
  match t with
  | Ret a => Ret a
  | Throw e => h e
  | Random k => Random (fun r => try_catch (k r) h)
  | Now k => Now (fun n => try_catch (k n) h)
  | Await q k => Await q (fun res => try_catch (k res) h)
  | Hang => Hang
  end.

(** [await pool.query(...)]: a rejected query throws at the [await]. *)
Definition await {B} (q : Pg.Query B) : Task B :=
  Await q (fun res =>
             match res with
             | Pg.Ok b => Ret b
             | Pg.Err e => Throw (PgError e)
             end).

(** [rows[0]] followed by a property access. *)
Definition first_row {R} (rs : list R) : Task R :=
  match rs with
  | r :: _ => Ret r
  | [] => Throw TypeError
  end.

(** The state handlers share: the table, the clock, how many numbers
    [Math.random] has handed out, and how many statements the pool has
    sent. *)
Record World := {
  links : Pg.Table;
  clock : Z;
  draws : nat;
  queries : nat
}.

Definition drew (w : World) : World :=
  {| links := links w; clock := clock w;
     draws := S (draws w); queries := queries w |}.

Definition queried (t : Pg.Table) (w : World) : World :=
  {| links := t; clock := clock w;
     draws := draws w; queries := S (queries w) |}.

(** The world with its two counters moved on to [d] and [q]. *)
Definition moved (d q : nat) (w : World) : World :=
  {| links := links w; clock := clock w; draws := d; queries := q |}.

Definition at_time (now : Z) (w : World) : World :=
  {| links := links w; clock := now;
     draws := draws w; queries := queries w |}.

Inductive Outcome (A : Type) :=
| Returned (a : A)
| Uncaught (e : Exn)
| OutOfFuel.
Arguments Returned {A} a.
Arguments Uncaught {A} e.
Arguments OutOfFuel {A}.

Section Run.

(** The numbers [Math.random] returns, in the order of the calls. *)
Variable Math_random : nat -> Js.unit_double.

(** A handler run from start to end with nothing else in between. *)
Fixpoint run {A} (t : Task A) (w : World) : Outcome A * World :=
  match t with
  | Ret a => (Returned a, w)
  | Throw e => (Uncaught e, w)
  | Random k => run (k (Math_random (draws w))) (drew w)
  | Now k => run (k (clock w)) w
  | Await q k =>
      match q (clock w) (links w) with
      | Pg.Ok (b, t') => run (k (Pg.Ok b)) (queried t' w)
      | Pg.Err e => run (k (Pg.Err e)) (queried (links w) w)
      end
  | Hang => (OutOfFuel, w)
  end.

(** One turn of the event loop for a handler: its synchronous code up
    to the next [await], and the awaited statement. *)
Fixpoint turn {A} (t : Task A) (w : World) : Task A * World :=
  match t with
  | Random k => turn (k (Math_random (draws w))) (drew w)
  | Now k => turn (k (clock w)) w
  | Await q k =>
      match q (clock w) (links w) with
      | Pg.Ok (b, t') => (k (Pg.Ok b), queried t' w)
      | Pg.Err e => (k (Pg.Err e), queried (links w) w)
      end
  | _ => (t, w)
  end.

Fixpoint update_nth {X} (i : nat) (x : X) (l : list X) : list X :=
  match l, i with
  | [], _ => []
  | _ :: rest, O => x :: rest
  | y :: rest, S j => y :: update_nth j x rest
  end.

(** Requests in flight, advanced one turn at a time in the order the
    schedule names them. *)
Fixpoint interleave {A} (schedule : list nat)
         (pool : list (Task A)) (w : World) : list (Task A) * World :=
  match schedule with
  | [] => (pool, w)
  | i :: rest =>
      match nth_error pool i with
      | None => interleave rest pool w
      | Some t =>
          let '(t', w') := turn t w in
          interleave rest (update_nth i t' pool) w'
      end
  end.

(** A handler given [n] turns in a row. *)
Fixpoint turns {A} (n : nat) (t : Task A) (w : World) : Task A * World :=
  match n with
  | O => (t, w)
  | S m => let '(t', w') := turn t w in turns m t' w'
  end.

End Run.

Definition finished {A} (o : Outcome A) : Task A :=
  match o with
  | Returned a => Ret a
  | Uncaught e => Throw e
  | OutOfFuel => Hang
  end.

End Async.

Import Async.

Notation "x <- t ;; k" := (bind t (fun x => k))
  (at level 61, t at next level, right associativity).

(** ** What the server answers *)

Record HealthReport := {
  status : string;
  version : string;
  uptime_seconds : Z;          (* kept in milliseconds *)
  uptime_formatted : string;
  total_links : Z;
  server_platform : string;
  server_pid : Z;
  timestamp : Z
}.

Inductive Json :=
| JError (error : string)                          (* { error } *)
| JCreated (row : Pg.Link) (shortUrl : string)     (* the row and shortUrl *)
| JLinks (rows : list Pg.Link)
| JLink (row : Pg.Link)
| JHealth (h : HealthReport)
| JUnhealthy.               (* { status: 'unhealthy', error: 'Database error' } *)

(** The request methods: the three the routes name, HEAD and OPTIONS,
    which Express and the cors middleware treat on their own, and PUT for
    the methods no route names. *)
Inductive Method := GET | HEAD | POST | DELETE | PUT | OPTIONS.

Inductive Response :=
| json (code : Z) (j : Json)                  (* res.status(code).json(j) *)
| send (code : Z) (text : option string)      (* res.status(code).send(text) *)
| redirect (code : Z) (url : string)          (* res.redirect(code, url) *)
| cannot (m : Method) (path : list string).   (* no route: Express's own 404 *)

Definition status_of (r : Response) : Z :=
  match r with
  | json code _ => code
  | send code _ => code
  | redirect code _ => code
  | cannot _ _ => 404
  end.

(** [req.body] once parsed: the two keys the handler reads. *)
Record Body := { longUrl : Js.value; customCode : Js.value }.

(** The body [{ longUrl: l, customCode: c }]. *)
Definition create_body (l c : Js.value) : option Body :=
  Some {| longUrl := l; customCode := c |}.

(** A request: the method; the path as received, split at its slashes
    (/a/b is [a; b], /a/ is [a; ""]), its percent-escapes not yet decoded;
    and the body as [bodyParser.json()] has parsed it (a request whose
    body it cannot parse is answered by the error handler and reaches no
    route). *)
Record Request := {
  method : Method;
  path : list string;
  body : option Body
}.

Definition method_eqb (a b : Method) : bool :=
  match a, b with
  | GET, GET | HEAD, HEAD | POST, POST | DELETE, DELETE | PUT, PUT
  | OPTIONS, OPTIONS => true
  | _, _ => false
  end.

(** Does a route registered for method [m] handle a request of method
    [requested]?  Express sends HEAD to the GET routes when no route
    names HEAD. *)
Definition handles_method (m requested : Method) : bool :=
  method_eqb requested m
  || (method_eqb requested HEAD && method_eqb m GET).

(** A route path: literal segments and [:name] parameters. *)
Inductive Segment :=
| lit (s : string)
| param.

(** Express matches literals without regard to case; a parameter takes one
    non-empty segment; one slash at the end of the path is optional.  The
    result lists the parameters as they stand in the path. *)
Fixpoint match_path (pattern : list Segment) (p : list string)
  : option (list string) :=
  match pattern, p with
  | [], [] => Some []
  | [], [seg] => if (seg =? "")%string then Some [] else None
  | lit s :: pattern', seg :: p' =>
      if (Js.toLowerCase seg =? Js.toLowerCase s)%string
      then match_path pattern' p'
      else None
  | param :: pattern', seg :: p' =>
      if (seg =? "")%string then None
      else option_map (cons seg) (match_path pattern' p')
  | _, _ => None
  end.

(** ** A concrete environment for the examples at the end *)

Module Demo.

(** A stand-in for the URL parser: it accepts what starts with a scheme
    the examples use and re-serialises it unchanged. *)
Definition new_URL (s : string) : option string :=
  if String.prefix "http://" s || String.prefix "https://" s
  then Some s else None.

Definition BASE_URL : string := "http://localhost:3001".

(** A stand-in for [decodeURIComponent] that knows the escapes of the
    ASCII characters: %41 is A, %00 is the NUL character; it throws on
    anything else after a percent sign. *)
Definition hex_digit (ch : ascii) : option nat :=
  let n := nat_of_ascii ch in
  if (48 <=? n)%nat && (n <=? 57)%nat then Some (n - 48)%nat
  else if (65 <=? n)%nat && (n <=? 70)%nat then Some (n - 55)%nat
  else if (97 <=? n)%nat && (n <=? 102)%nat then Some (n - 87)%nat
  else None.

Fixpoint decodeURIComponent (s : string) : option string :=
  match s with
  | EmptyString => Some EmptyString
  | String "%" (String a (String b rest)) =>
      match hex_digit a, hex_digit b with
      | Some x, Some y =>
          if (16 * x + y <? 128)%nat
          then option_map (String (ascii_of_nat (16 * x + y)))
                          (decodeURIComponent rest)
          else None
      | _, _ => None
      end
  | String "%" _ => None
  | String ch rest => option_map (String ch) (decodeURIComponent rest)
  end.

(** A store that lists the newest row first. *)
Definition newest_first : Pg.scan_order :=
  {| Pg.scan := fun _ t => rev t;
     Pg.scan_lists_the_rows :=
       fun _ t => Permutation_sym (Permutation_rev t) |}.

Definition zero : Js.unit_double :=
  {| Js.mantissa := 0; Js.mantissa_range := eq_refl |}.

Definition half : Js.unit_double :=
  {| Js.mantissa := 2 ^ 52; Js.mantissa_range := eq_refl |}.

(** [Math.random] returning 0 for ever: every generated code is AAAAAA. *)
Definition zeros : nat -> Js.unit_double := fun _ => zero.

(** 0 for the first seven calls, then 0.5 for ever: the first generated
    code is AAAAAA, the following ones are fffffff. *)
Definition zeros_then_halves : nat -> Js.unit_double :=
  fun i => if (i <? 7)%nat then zero else half.

Definition row (c u : string) (n : Z) (last : option Z) : Pg.Link :=
  {| Pg.short_code := c; Pg.target_url := u;
     Pg.total_clicks := n; Pg.last_clicked_time := last |}.

Definition world (t : Pg.Table) (now : Z) : World :=
  {| links := t; clock := now; draws := 0; queries := 0 |}.

End Demo.

(** ** index.js *)

Section Server.

(** [process.env.BASE_URL || 'http://localhost:' + PORT] *)
Variable BASE_URL : string.

(** [new URL(s).toString()]; [None] when the constructor throws. *)
Variable new_URL : string -> option string.

(** [Date.now()] when the process started, [process.platform],
    [process.pid]. *)
Variable process_start : Z.
Variable process_platform : string.
Variable process_pid : Z.

(** The order in which the store scans [links]. *)
Variable heap : Pg.scan_order.

(** [decodeURIComponent(s)]; [None] when it throws URIError. *)
Variable decodeURIComponent : string -> option string.

(** Helper function to format uptime; the argument is in milliseconds. *)
Definition formatUptime (ms : Z) : string :=
  let days := ms / 86400000 in
  let hours := Z.rem ms 86400000 / 3600000 in
  let minutes := Z.rem ms 3600000 / 60000 in
  let secs := Z.rem ms 60000 / 1000 in
  (Js.show days ++ "d " ++ Js.show hours ++ "h "
     ++ Js.show minutes ++ "m " ++ Js.show secs ++ "s")%string.

(** Basic error handler: [res.status(500).json({ error: ... })]. *)
Definition errorHandler (err : Exn) : Response :=
  json 500 (JError "Internal server error").

(** [next(err)] *)
Definition next (err : Exn) : Task Response := Ret (errorHandler err).

(** Health check with system details *)
Definition health : Task Response :=
  try_catch
    (totalLinks <- await Pg.select_count ;;
     Now (fun now =>
     let uptime := now - process_start in
     Ret (json 200 (JHealth {|
       status := "healthy";
       version := "1.0";
       uptime_seconds := uptime;
       uptime_formatted := formatUptime uptime;
       total_links := totalLinks;
       server_platform := process_platform;
       server_pid := process_pid;
       timestamp := now |}))))
    (fun _ => Ret (json 500 JUnhealthy)).

(** Helpers *)
Definition CODE_REGEX : Js.regex :=
  {| Js.cls := [("A", "Z"); ("a", "z"); ("0", "9")]%char;
     Js.lo := 6; Js.hi := 8 |}.

Definition CHARS : string :=
  "ABCDEFGHIJKLMNOPQRSTUVWXYZabcdefghijklmnopqrstuvwxyz0123456789".

Definition randInt (n : Z) : Task Z :=
  Random (fun r => Ret (Js.floor_mul r n)).

(** [for (let i = 0; i < length; i++) s += CHARS[randInt(CHARS.length)]],
    with [todo] iterations left. *)
Fixpoint genCode_loop (todo : nat) (s : string) : Task string :=
  match todo with
  | O => Ret s
  | S todo' =>
      i <- randInt (Z.of_nat (String.length CHARS)) ;;
      genCode_loop todo' (Js.append_char s (Js.char_at CHARS i))
  end.

Definition genCode : Task string :=
  Random (fun r =>
  let length := 6 + Js.floor_mul r 3 in   (* 6-8 *)
  genCode_loop (Z.to_nat length) "").

Definition codeExists (short_code : string) : Task bool :=
  r <- await (Pg.select_one short_code) ;;
  Ret (0 <? Pg.rowCount r)%nat.

(** The [do ... while] of the create handler: generate until unique, with
    safety limit.  [fuel] bounds the number of times the loop is
    re-entered. *)
Fixpoint generate (fuel : nat) (attempts : Z) : Task string :=
  short_code <- genCode ;;
  let attempts := attempts + 1 in
  if attempts >? 10 then Ret short_code
  else
    again <- codeExists short_code ;;
    if again
    then match fuel with
         | O => Hang
         | S fuel' => generate fuel' attempts
         end
    else Ret short_code.

(** The INSERT and the 201 answer that end the create handler. *)
Definition insertLink (short_code normalizedUrl : string) : Task Response :=
  insert <- await (Pg.insert_link short_code normalizedUrl) ;;
  row <- first_row (Pg.rows insert) ;;
  (* Add shortUrl property using BASE_URL *)
  let shortUrl := (BASE_URL ++ "/" ++ Pg.short_code row)%string in
  Ret (json 201 (JCreated row shortUrl)).

(** Create link *)
Definition createLink (req_body : option Body) : Task Response :=
  try_catch
    (let b := match req_body with
              | Some b => b
              | None => {| longUrl := None; customCode := None |}
              end in
     let longUrl := longUrl b in
     let customCode := customCode b in
     if negb (Js.truthy longUrl)
     then Ret (json 400 (JError "longUrl is required"))
     else
       (* Validate URL *)
       match new_URL (Js.str longUrl) with
       | None => Ret (json 400 (JError "Invalid URL provided"))
       | Some normalizedUrl =>
           let short_code := customCode in
           if Js.truthy short_code then
             let short_code := Js.str short_code in
             if negb (Js.test CODE_REGEX short_code)
             then Ret (json 400
                         (JError "customCode must match [A-Za-z0-9]{6,8}"))
             else
               taken <- codeExists short_code ;;
               if taken
               then Ret (json 409 (JError "Code already exists"))
               else insertLink short_code normalizedUrl
           else
             short_code <- generate 10 0 ;;
             taken <- codeExists short_code ;;
             if taken
             then Ret (json 500 (JError
                    "Failed to generate unique short_code, try again"))
             else insertLink short_code normalizedUrl
       end)
    next.

(** List all links *)
Definition listLinks : Task Response :=
  try_catch
    (r <- await (Pg.select_all heap) ;;
     Ret (json 200 (JLinks (Pg.rows r))))
    next.

(** Get single link stats *)
Definition getLink (short_code : string) : Task Response :=
  try_catch
    (r <- await (Pg.select_link short_code) ;;
     if (Pg.rowCount r =? 0)%nat
     then Ret (json 404 (JError "Not found"))
     else
       row <- first_row (Pg.rows r) ;;
       Ret (json 200 (JLink row)))
    next.

(** Delete link *)
Definition deleteLink (short_code : string) : Task Response :=
  try_catch
    (r <- await (Pg.delete_link short_code) ;;
     if (Pg.rowCount r =? 0)%nat
     then Ret (json 404 (JError "Not found"))
     else Ret (send 204 None))
    next.

(** Redirect *)
Definition redirectLink (short_code : string) : Task Response :=
  try_catch
    (r <- await (Pg.select_target short_code) ;;
     if (Pg.rowCount r =? 0)%nat
     then Ret (send 404 (Some "Not found"))
     else
       longUrl <- first_row (Pg.rows r) ;;
       _ <- await (Pg.update_clicks short_code) ;;
       Ret (redirect 302 longUrl))
    next.

(** The routes in the order [app.get] / [app.post] / [app.delete]
    register them. *)
Definition routes
  : list (Method * list Segment * (Request -> list string -> Task Response)) :=
  [ (GET, [lit "health"], fun _ _ => health);
    (POST, [lit "api"; lit "links"], fun req _ => createLink (body req));
    (GET, [lit "api"; lit "links"], fun _ _ => listLinks);
    (GET, [lit "api"; lit "links"; param],
      fun _ ps => getLink (nth 0 ps ""));
    (DELETE, [lit "api"; lit "links"; param],
      fun _ ps => deleteLink (nth 0 ps ""));
    (GET, [param], fun _ ps => redirectLink (nth 0 ps "")) ].

(** Express decodes a parameter with [decodeURIComponent], which returns
    a string without a percent sign as it is. *)
Definition decode_param (val : string) : option string :=
  if Js.includes val "%" then decodeURIComponent val else Some val.

Fixpoint decode_params (vals : list string) : option (list string) :=
  match vals with
  | [] => Some []
  | val :: rest =>
      match decode_param val, decode_params rest with
      | Some s, Some ss => Some (s :: ss)
      | _, _ => None
      end
  end.

(** The router of Express.  It tries the routes in order: the path first,
    decoding the parameters of a path that matches, then the method.  A
    parameter that does not decode is an error: no later route is tried
    and the error handler answers.  When no route is left, the answer is
    Express's own 404. *)
Fixpoint dispatch
  (rs : list (Method * list Segment * (Request -> list string -> Task Response)))
  (req : Request) : Task Response :=
  match rs with
  | [] => Ret (cannot (method req) (path req))
  | (m, pattern, handler) :: rest =>
      match match_path pattern (path req) with
      | Some vals =>
          match decode_params vals with
          | Some ps =>
              if handles_method m (method req) then handler req ps
              else dispatch rest req
          | None => next URIError
          end
      | None => dispatch rest req
      end
  end.

(** [app.use(cors())] answers every OPTIONS request itself, with 204 and
    no body; the other requests go on to the routes. *)
Definition app (req : Request) : Task Response :=
  if method_eqb (method req) OPTIONS then Ret (send 204 None)
  else dispatch routes req.

Variable Math_random : nat -> Js.unit_double.

(** One request served on its own. *)
Definition serve (req : Request) (w : World) : Outcome Response * World :=
  run Math_random (app req) w.

(** *** Notions the properties are stated with *)

(** The first row of a table with a given code, and whether there is
    one. *)
Definition stored (c : string) (t : Pg.Table) : option Pg.Link :=
  find (Pg.has_code c) t.

Definition taken (c : string) (t : Pg.Table) : bool :=
  existsb (Pg.has_code c) t.

(** The row a code resolves to: the row a SELECT of the code returns,
    none when the store refuses the code. *)
Definition lookup (c : string) (t : Pg.Table) : option Pg.Link :=
  if Pg.is_text c then stored c t else None.

(** The UNIQUE constraint of [short_code]. *)
Definition unique_codes (t : Pg.Table) : Prop :=
  NoDup (map Pg.short_code t).

(** What the column types of [links] allow in a row, and a table that
    satisfies its declaration. *)
Definition legal_row (r : Pg.Link) : Prop :=
  Pg.INT4_MIN <= Pg.total_clicks r <= Pg.INT4_MAX
  /\ (String.length (Pg.short_code r) <= 8)%nat.

Definition legal (t : Pg.Table) : Prop :=
  unique_codes t /\ Forall legal_row t.

(** No counter is negative. *)
Definition counted (t : Pg.Table) : Prop :=
  Forall (fun r => 0 <= Pg.total_clicks r) t.

(** A row after one more click at time [now]. *)
Definition clicked (now : Z) (r : Pg.Link) : Pg.Link :=
  {| Pg.short_code := Pg.short_code r; Pg.target_url := Pg.target_url r;
     Pg.total_clicks := Pg.total_clicks r + 1;
     Pg.last_clicked_time := Some now |}.

(** The UPDATE of a redirect of [c] seen from one row. *)
Definition click_if (c : string) (now : Z) (r : Pg.Link) : Pg.Link :=
  if Pg.has_code c r then clicked now r else r.

(** A row after [n] more clicks, the last one at time [now]. *)
Definition clicked_times (n : Z) (now : Z) (r : Pg.Link) : Pg.Link :=
  {| Pg.short_code := Pg.short_code r; Pg.target_url := Pg.target_url r;
     Pg.total_clicks := Pg.total_clicks r + n;
     Pg.last_clicked_time := Some now |}.

(** The row the INSERT of the create handler writes. *)
Definition fresh (c u : string) : Pg.Link :=
  {| Pg.short_code := c; Pg.target_url := u;
     Pg.total_clicks := 0; Pg.last_clicked_time := None |}.

(** [genCode] read off the random numbers from call number [pos] on:
    the length it draws, the characters, and the code. *)
Definition genCode_length (pos : nat) : nat :=
  Z.to_nat (6 + Js.floor_mul (Math_random pos) 3).

Fixpoint genCode_chars (todo pos : nat) (s : string) : string :=
  match todo with
  | O => s
  | S todo' =>
      genCode_chars todo' (S pos)
        (Js.append_char s
           (Js.char_at CHARS
              (Js.floor_mul (Math_random pos)
                 (Z.of_nat (String.length CHARS)))))
  end.

Definition genCode_at (pos : nat) : string :=
  genCode_chars (genCode_length pos) (S pos) "".

Definition genCode_next (pos : nat) : nat :=
  (S pos + genCode_length pos)%nat.

(** The first [n] codes [genCode] returns from call number [pos] on. *)
Fixpoint candidates (n pos : nat) : list string :=
  match n with
  | O => []
  | S m => genCode_at pos :: candidates m (genCode_next pos)
  end.

(** The code the [do ... while] loop leaves with when it may still check
    [n] candidates before its safety limit: the code, the position in the
    random numbers, and the number of existence checks made. *)
Fixpoint pick (n pos : nat) (t : Pg.Table) : string * nat * nat :=
  let c := genCode_at pos in
  match n with
  | O => (c, genCode_next pos, O)
  | S m =>
      if taken c t
      then let '(c', pos', checks) := pick m (genCode_next pos) t in
           (c', pos', S checks)
      else (c, genCode_next pos, 1%nat)
  end.

(** Requests served one after the other, each at its own time. *)
Fixpoint serve_all (reqs : list (Z * Request)) (w : World)
  : list (Outcome Response) * World :=
  match reqs with
  | [] => ([], w)
  | (now, req) :: rest =>
      let '(o, w') := serve req (at_time now w) in
      let '(os, w'') := serve_all rest w' in
      (o :: os, w'')
  end.

(** The redirect handler called once at each of the given times. *)
Fixpoint redirect_all (c : string) (times : list Z) (w : World)
  : list (Outcome Response) * World :=
  match times with
  | [] => ([], w)
  | now :: rest =>
      let '(o, w') := run Math_random (redirectLink c) (at_time now w) in
      let '(os, w'') := redirect_all c rest w' in
      (o :: os, w'')
  end.

(** Two create requests in flight together.  Both run up to their
    existence check; then both send their INSERT and answer, request 0
    first when [zero_first] holds. *)
Definition race_schedule (zero_first : bool) : list nat :=
  [0; 1]%nat ++ (if zero_first then [0; 1]%nat else [1; 0]%nat).

Definition race (zero_first : bool) (b0 b1 : option Body) (w : World)
  : list (Task Response) * World :=
  interleave Math_random (race_schedule zero_first)
    [createLink b0; createLink b1] w.

(** The response of a request in flight, once it has answered. *)
Definition answered (t : Task Response) : option Response :=
  match t with
  | Ret r => Some r
  | _ => None
  end.

(** The path of the request is [p], with or without a slash at its
    end. *)
Definition has_path (req : Request) (p : list string) : Prop :=
  path req = p \/ path req = p ++ [""].

(** Is this request a redirect of code [c] (GET or HEAD /seg, where seg
    decodes to [c]), a delete of code [c], a create? *)
Definition is_redirect_of (c : string) (req : Request) : Prop :=
  (method req = GET \/ method req = HEAD) /\
  exists seg, has_path req [seg] /\ decode_param seg = Some c.

Definition is_delete_of (c : string) (req : Request) : Prop :=
  method req = DELETE /\
  exists a b seg, has_path req [a; b; seg] /\
                  Js.toLowerCase a = "api" /\ Js.toLowerCase b = "links" /\
                  decode_param seg = Some c.

Definition is_create (req : Request) : Prop :=
  method req = POST /\
  exists a b, has_path req [a; b] /\
              Js.toLowerCase a = "api" /\ Js.toLowerCase b = "links".

(** What one request can do to the table: nothing, append the row of a
    create, remove the rows of a deleted code, or count a click on the
    rows of a redirected code. *)
Inductive Effect (req : Request) (w : World) (t' : Pg.Table) : Prop :=
| Unchanged :
    t' = links w -> Effect req w t'
| Inserted (c u : string) :
    is_create req ->
    taken c (links w) = false ->
    Js.test CODE_REGEX c = true ->
    t' = links w ++ [fresh c u] -> Effect req w t'
| Deleted (c : string) :
    is_delete_of c req ->
    t' = filter (fun r => negb (Pg.has_code c r)) (links w) ->
    Effect req w t'
| Clicked (c : string) :
    is_redirect_of c req ->
    (forall r, In r (links w) -> Pg.has_code c r = true ->
               Pg.INT4_MIN <= Pg.total_clicks r + 1 <= Pg.INT4_MAX) ->
    t' = map (click_if c (clock w)) (links w) ->
    Effect req w t'.

(** The handler [t] of request [req] answers, and has one of the effects. *)
Definition answers (req : Request) (w : World) (t : Task Response) : Prop :=
  (exists resp, fst (run Math_random t w) = Returned resp)
  /\ Effect req w (links (snd (run Math_random t w))).

(** *** Further notions: requests in flight, and the dashboard *)

(** The redirect handler once its SELECT has found the row: the UPDATE
    and the 302 are still to come. *)
Definition redirect_pending (short_code longUrl : string) : Task Response :=
  try_catch
    (_ <- await (Pg.update_clicks short_code) ;;
     Ret (redirect 302 longUrl))
    next.

(** The orders in which two requests of two turns each can take their
    turns. *)
Definition two_by_two : list (list nat) :=
  [ [0; 0; 1; 1]; [0; 1; 0; 1]; [0; 1; 1; 0];
    [1; 0; 0; 1]; [1; 0; 1; 0]; [1; 1; 0; 0] ]%nat.

(** Dashboard: [validUrl], and what [handleCreate] does with the two form
    fields before it waits for the server: it shows an error and sends
    nothing, or posts a body to /api/links. *)
Definition validUrl (u : string) : bool :=
  match new_URL u with
  | Some _ => true
  | None => false
  end.

Inductive Submission :=
| Refused (error : string)
| Posted (b : option Body).

Definition handleCreate (longUrl customCode : string) : Submission :=
  if negb (validUrl longUrl)
  then Refused "Please enter a valid URL (e.g., https://...)"
  else if Js.truthy (Some customCode)
          && negb (Js.test CODE_REGEX customCode)
  then Refused "Custom code must be 6-8 alphanumeric characters."
  else Posted (create_body (Some longUrl)
                 (if Js.truthy (Some customCode)
                  then Some customCode else None)).

(** axios resolves on a 2xx status and rejects otherwise. *)
Definition axios_resolves (r : Response) : bool :=
  (200 <=? status_of r) && (status_of r <? 300).

(** Dashboard: the list shown after [handleDelete], given the answer to
    its DELETE request: [l.filter(x => x.short_code !== short_code)] when
    axios resolved, the list as it was when it rejected. *)
Definition handleDelete (short_code : string) (shown : list Pg.Link)
           (answer : Response) : list Pg.Link :=
  if axios_resolves answer
  then filter (fun x => negb (Pg.short_code x =? short_code)%string) shown
  else shown.

(** Served alone, handler [t] leaves the table as it was when its answer
    is that of the error handler. *)
Definition fails_cleanly (w : World) (t : Task Response) : Prop :=
  fst (run Math_random t w)
  = Returned (json 500 (JError "Internal server error")) ->
  links (snd (run Math_random t w)) = links w.

(** A statement that leaves a table satisfying its declaration, with no
    negative counter, in such a state. *)
Definition keeps_table {B} (q : Pg.Query B) : Prop :=
  forall now t,
    legal t -> counted t ->
    match q now t with
    | Pg.Ok (_, t') => legal t' /\ counted t'
    | Pg.Err _ => True
    end.

(** A task all of whose statements, whatever the answers it gets, keep the
    table. *)
Inductive orderly {A} : Task A -> Prop :=
| orderly_Ret (a : A) : orderly (Ret a)
| orderly_Throw (e : Exn) : orderly (Throw e)
| orderly_Random (k : Js.unit_double -> Task A) :
    (forall r, orderly (k r)) -> orderly (Random k)
| orderly_Now (k : Z -> Task A) :
    (forall n, orderly (k n)) -> orderly (Now k)
| orderly_Await {B} (q : Pg.Query B) (k : Pg.result B -> Task A) :
    keeps_table q -> (forall res, orderly (k res)) -> orderly (Await q k)
| orderly_Hang : orderly Hang.

(** *** Running tasks *)

Lemma run_bind {A B} (t : Task A) (f : A -> Task B) (w : World) :
  run Math_random (bind t f) w =
  match run Math_random t w with
  | (Returned a, w') => run Math_random (f a) w'
  | (Uncaught e, w') => (Uncaught e, w')
  | (OutOfFuel, w') => (OutOfFuel, w')
  end.
Proof.
  revert w; induction t as [a|e|k IH|k IH|X q k IH|]; intros w; simpl;
    try reflexivity.
  - apply IH.
  - apply IH.
  - destruct (q (clock w) (links w)) as [[b t']|e]; apply IH.
Qed.

Lemma run_try_catch {A} (t : Task A) (h : Exn -> Task A) (w : World) :
  run Math_random (try_catch t h) w =
  match run Math_random t w with
  | (Uncaught e, w') => run Math_random (h e) w'
  | other => other
  end.
Proof.
  revert w; induction t as [a|e|k IH|k IH|X q k IH|]; intros w; simpl;
    try reflexivity.
  - apply IH.
  - apply IH.
  - destruct (q (clock w) (links w)) as [[b t']|e]; apply IH.
Qed.

Lemma turn_finished {A} (o : Outcome A) (w : World) :
  turn Math_random (finished o) w = (finished o, w).
Proof. destruct o; reflexivity. Qed.

Lemma turns_finished {A} (n : nat) (o : Outcome A) (w : World) :
  turns Math_random n (finished o) w = (finished o, w).
Proof.
  induction n as [|n IH]; [reflexivity|].
  simpl. rewrite turn_finished. exact IH.
Qed.

Lemma turns_one_more {A} (n : nat) :
  forall (t : Task A) (w : World) o w',
    turns Math_random n t w = (finished o, w') ->
    turns Math_random (S n) t w = (finished o, w').
Proof.
  induction n as [|n IH]; intros t w o w' H.
  - simpl in H. injection H as -> ->. simpl. rewrite turn_finished.
    reflexivity.
  - change (turns Math_random (S (S n)) t w)
      with (let '(t1, w1) := turn Math_random t w in
            turns Math_random (S n) t1 w1).
    simpl in H. destruct (turn Math_random t w) as [t1 w1].
    apply IH. exact H.
Qed.

(** Turn after turn, a handler left alone reaches the outcome of its
    run. *)
Lemma turns_reach_run {A} (t : Task A) (w : World) :
  exists n, turns Math_random n t w =
            (finished (fst (run Math_random t w)),
             snd (run Math_random t w)).
Proof.
  revert w; induction t as [a|e|k IH|k IH|X q k IH|]; intros w;
    try (exists O; reflexivity).
  - destruct (IH (Math_random (draws w)) (drew w)) as [n Hn].
    exists (S n). apply turns_one_more in Hn. exact Hn.
  - destruct (IH (clock w) w) as [n Hn].
    exists (S n). apply turns_one_more in Hn. exact Hn.
  - destruct (q (clock w) (links w)) as [[b t']|e] eqn:E.
    + destruct (IH (Pg.Ok b) (queried t' w)) as [n Hn].
      exists (S n). simpl. rewrite E. exact Hn.
    + destruct (IH (Pg.Err e) (queried (links w) w)) as [n Hn].
      exists (S n). simpl. rewrite E. exact Hn.
Qed.

(** *** The random code generator *)

Lemma run_genCode_loop (todo : nat) :
  forall (s : string) (w : World),
    run Math_random (genCode_loop todo s) w =
    (Returned (genCode_chars todo (draws w) s),
     moved (draws w + todo) (queries w) w).
Proof.
  induction todo as [|todo IH]; intros s w.
  - simpl. unfold moved. rewrite Nat.add_0_r. destruct w; reflexivity.
  - simpl. rewrite IH. simpl. unfold moved. simpl.
    rewrite Nat.add_succ_r. reflexivity.
Qed.

Lemma run_genCode (w : World) :
  run Math_random genCode w =
  (Returned (genCode_at (draws w)),
   moved (genCode_next (draws w)) (queries w) w).
Proof.
  unfold genCode. simpl. rewrite run_genCode_loop. reflexivity.
Qed.

(** A string of letters and digits is a text value, and has no escape to
    decode. *)
Lemma all_chars_impl (p q : ascii -> bool) (s : string) :
  (forall ch, p ch = true -> q ch = true) ->
  Js.all_chars p s = true -> Js.all_chars q s = true.
Proof.
  intros Hpq. induction s as [|ch s IH]; [reflexivity|].
  cbn [Js.all_chars]. intros H. apply andb_prop in H. destruct H as [H1 H2].
  now rewrite (Hpq ch H1), IH.
Qed.

Lemma class_excludes (x : ascii) (s : string) :
  Js.in_class (Js.cls CODE_REGEX) x = false ->
  Js.all_chars (Js.in_class (Js.cls CODE_REGEX)) s = true ->
  Js.all_chars (fun ch => negb (Ascii.eqb ch x)) s = true.
Proof.
  intros Hx. apply all_chars_impl. intros ch Hch.
  destruct (Ascii.eqb_spec ch x) as [->|_]; [congruence | reflexivity].
Qed.

Lemma test_is_text (c : string) :
  Js.test CODE_REGEX c = true -> Pg.is_text c = true.
Proof.
  unfold Js.test. intros H. apply andb_prop in H. destruct H as [_ H].
  now apply class_excludes.
Qed.

Lemma test_decode_param (c : string) :
  Js.test CODE_REGEX c = true -> decode_param c = Some c.
Proof.
  unfold Js.test. intros H. apply andb_prop in H. destruct H as [_ H].
  unfold decode_param, Js.includes.
  now rewrite (class_excludes "%"%char c eq_refl H).
Qed.

Lemma with_text_ok {B} (c : string) (q : Pg.Query B) :
  Pg.is_text c = true -> Pg.with_text c q = q.
Proof. intros H. unfold Pg.with_text. now rewrite H. Qed.

Lemma with_text_refused {B} (c : string) (q : Pg.Query B) :
  Pg.is_text c = false ->
  Pg.with_text c q = fun _ _ => Pg.Err Pg.character_not_in_repertoire.
Proof. intros H. unfold Pg.with_text. now rewrite H. Qed.

Lemma run_codeExists (c : string) (w : World) :
  Pg.is_text c = true ->
  run Math_random (codeExists c) w =
  (Returned (taken c (links w)), moved (draws w) (S (queries w)) w).
Proof.
  intros Hc. unfold codeExists, Pg.select_one. rewrite (with_text_ok c _ Hc).
  simpl. unfold queried, moved. f_equal. f_equal.
  unfold taken. induction (links w) as [|r t IH]; [reflexivity|].
  simpl. destruct (Pg.has_code c r); [reflexivity|]. exact IH.
Qed.

Lemma generate_eq (fuel : nat) (attempts : Z) :
  generate fuel attempts =
  (short_code <- genCode ;;
   if attempts + 1 >? 10 then Ret short_code
   else
     again <- codeExists short_code ;;
     if again
     then match fuel with
          | O => Hang
          | S fuel' => generate fuel' (attempts + 1)
          end
     else Ret short_code).
Proof. destruct fuel; reflexivity. Qed.

Lemma mantissa_bounds (r : Js.unit_double) :
  0 <= Js.mantissa r < 2 ^ 53.
Proof.
  pose proof (Js.mantissa_range r) as H.
  apply andb_prop in H. destruct H as [H1 H2].
  apply Z.leb_le in H1. apply Z.ltb_lt in H2. lia.
Qed.

(** [Math.floor(Math.random() * n)] lies in [[0, n)]. *)
Lemma floor_mul_range (r : Js.unit_double) (n : Z) :
  0 < n -> 0 <= Js.floor_mul r n < n.
Proof.
  intros Hn. pose proof (mantissa_bounds r) as Hr. unfold Js.floor_mul.
  split.
  - apply Z.div_pos; [nia | lia].
  - apply Z.div_lt_upper_bound; [lia | nia].
Qed.

(** The characters [floor_mul] sends to index [i] are an interval of
    width 1/n of the unit interval: each index has the same share. *)
Lemma floor_mul_share (r : Js.unit_double) (n i : Z) :
  Js.floor_mul r n = i <->
  i * 2 ^ 53 <= Js.mantissa r * n < (i + 1) * 2 ^ 53.
Proof.
  unfold Js.floor_mul.
  pose proof (Z.div_mod (Js.mantissa r * n) (2 ^ 53) ltac:(lia)) as Hd.
  pose proof (Z.mod_pos_bound (Js.mantissa r * n) (2 ^ 53) ltac:(lia)) as Hm.
  split; intros H; nia.
Qed.

Lemma genCode_length_range (pos : nat) :
  (6 <= genCode_length pos <= 8)%nat.
Proof.
  unfold genCode_length.
  pose proof (floor_mul_range (Math_random pos) 3 ltac:(lia)). lia.
Qed.

Lemma CHARS_alphanumeric :
  forallb (fun n => match String.get n CHARS with
                    | Some ch => Js.in_class (Js.cls CODE_REGEX) ch
                    | None => false
                    end) (seq 0 62) = true.
Proof. vm_compute. reflexivity. Qed.

(** Every draw of the generator is one of the 62 characters. *)
Lemma drawn_char (r : Js.unit_double) :
  exists ch,
    Js.char_at CHARS (Js.floor_mul r (Z.of_nat (String.length CHARS)))
    = Some ch
    /\ Js.in_class (Js.cls CODE_REGEX) ch = true.
Proof.
  change (Z.of_nat (String.length CHARS)) with 62.
  pose proof (floor_mul_range r 62 ltac:(lia)) as Hi.
  unfold Js.char_at.
  replace (Js.floor_mul r 62 <? 0) with false
    by (symmetry; apply Z.ltb_ge; lia).
  pose proof CHARS_alphanumeric as Hall.
  rewrite forallb_forall in Hall.
  specialize (Hall (Z.to_nat (Js.floor_mul r 62))).
  destruct (String.get (Z.to_nat (Js.floor_mul r 62)) CHARS) as [ch|].
  - exists ch. split; [reflexivity|]. apply Hall. apply in_seq. lia.
  - discriminate Hall. apply in_seq. lia.
Qed.

Lemma length_append_char (s : string) (ch : ascii) :
  String.length (s ++ String ch "") = S (String.length s).
Proof. induction s as [|c s IH]; simpl; [reflexivity | now rewrite IH]. Qed.

Lemma all_chars_append_char (p : ascii -> bool) (s : string) (ch : ascii) :
  Js.all_chars p (s ++ String ch "") = Js.all_chars p s && p ch.
Proof.
  induction s as [|c s IH]; simpl.
  - now rewrite andb_true_r.
  - rewrite IH. now rewrite andb_assoc.
Qed.

Lemma genCode_chars_spec (todo : nat) :
  forall (pos : nat) (s : string),
    Js.all_chars (Js.in_class (Js.cls CODE_REGEX)) s = true ->
    String.length (genCode_chars todo pos s) = (String.length s + todo)%nat
    /\ Js.all_chars (Js.in_class (Js.cls CODE_REGEX))
         (genCode_chars todo pos s) = true.
Proof.
  induction todo as [|todo IH]; intros pos s Hs; cbn [genCode_chars].
  - split; [lia | exact Hs].
  - destruct (drawn_char (Math_random pos)) as [ch [Hch Hin]].
    rewrite Hch. cbn [Js.append_char].
    destruct (IH (S pos) (s ++ String ch "")%string) as [Hlen Hall].
    + rewrite all_chars_append_char, Hs, Hin. reflexivity.
    + rewrite length_append_char in Hlen. split; [lia | exact Hall].
Qed.

(** What [genCode] returns matches [CODE_REGEX]. *)
Lemma genCode_at_valid (pos : nat) :
  Js.test CODE_REGEX (genCode_at pos) = true.
Proof.
  unfold genCode_at, Js.test.
  destruct (genCode_chars_spec (genCode_length pos) (S pos) "" eq_refl)
    as [Hlen Hall].
  pose proof (genCode_length_range pos) as Hr.
  rewrite Hlen, Hall. simpl String.length. simpl Js.lo. simpl Js.hi.
  rewrite andb_true_r. apply andb_true_intro. split.
  - apply Nat.leb_le. lia.
  - apply Nat.leb_le. lia.
Qed.

Lemma genCode_next_bound (pos : nat) :
  (pos < genCode_next pos <= pos + 9)%nat.
Proof.
  unfold genCode_next. pose proof (genCode_length_range pos). lia.
Qed.

Lemma candidates_valid (n : nat) :
  forall pos, Forall (fun c => Js.test CODE_REGEX c = true)
                (candidates n pos).
Proof.
  induction n as [|n IH]; intros pos; simpl; constructor.
  - apply genCode_at_valid.
  - apply IH.
Qed.

(** With enough fuel for the candidates that may still be checked, the
    loop returns what [pick] computes: the fuel never runs out. *)
Lemma run_generate (n : nat) :
  forall (fuel : nat) (attempts : Z) (w : World),
    (n <= fuel)%nat ->
    attempts = 10 - Z.of_nat n ->
    run Math_random (generate fuel attempts) w =
    let '(c, pos, checks) := pick n (draws w) (links w) in
    (Returned c, moved pos (queries w + checks) w).
Proof.
  induction n as [|n IH]; intros fuel attempts w Hfuel Hn;
    rewrite generate_eq, run_bind, run_genCode.
  - subst attempts. simpl. rewrite Nat.add_0_r. reflexivity.
  - replace (attempts + 1 >? 10) with false
      by (symmetry; rewrite Z.gtb_ltb; apply Z.ltb_ge; lia).
    rewrite run_bind, run_codeExists
      by (apply test_is_text, genCode_at_valid).
    simpl links. simpl pick.
    destruct (taken (genCode_at (draws w)) (links w)).
    + destruct fuel as [|fuel]; [lia|].
      rewrite (IH fuel (attempts + 1)) by lia.
      simpl. destruct (pick n (genCode_next (draws w)) (links w))
        as [[c pos] checks].
      unfold moved. simpl. rewrite Nat.add_succ_r. reflexivity.
    + simpl. unfold moved. simpl. rewrite Nat.add_1_r. reflexivity.
Qed.

Lemma pick_spec (n : nat) (t : Pg.Table) :
  forall pos,
    let '(c, pos', checks) := pick n pos t in
    In c (candidates (S n) pos)
    /\ (checks <= n)%nat
    /\ (pos < pos' <= pos + 9 * S n)%nat
    /\ (taken c t = true ->
        Forall (fun c' => taken c' t = true) (candidates (S n) pos)).
Proof.
  induction n as [|n IH]; intros pos.
  - simpl. pose proof (genCode_next_bound pos) as Hb.
    repeat split; try lia.
    + now left.
    + intros H. constructor; [exact H | constructor].
  - change (pick (S n) pos t) with
      (if taken (genCode_at pos) t
       then let '(c', pos', checks) := pick n (genCode_next pos) t in
            (c', pos', S checks)
       else (genCode_at pos, genCode_next pos, 1%nat)).
    change (candidates (S (S n)) pos) with
      (genCode_at pos :: candidates (S n) (genCode_next pos)).
    pose proof (genCode_next_bound pos) as Hb.
    destruct (taken (genCode_at pos) t) eqn:Ht.
    + specialize (IH (genCode_next pos)).
      destruct (pick n (genCode_next pos) t) as [[c pos'] checks].
      destruct IH as (Hin & Hc & Hp & Hall).
      repeat split; try lia.
      * right. exact Hin.
      * intros H. constructor; [exact Ht | apply Hall, H].
    + repeat split; try lia.
      * now left.
      * intros H. congruence.
Qed.

(** *** The statements *)

Lemma taken_stored (c : string) (t : Pg.Table) :
  taken c t = match stored c t with Some _ => true | None => false end.
Proof.
  unfold taken, stored. induction t as [|r t IH]; [reflexivity|].
  simpl. destruct (Pg.has_code c r); [reflexivity | exact IH].
Qed.

Lemma limit_one (c : string) (t : Pg.Table) :
  firstn 1 (filter (Pg.has_code c) t) =
  match stored c t with Some r => [r] | None => [] end.
Proof.
  unfold stored. induction t as [|r t IH]; [reflexivity|].
  simpl. destruct (Pg.has_code c r); [reflexivity | exact IH].
Qed.

Lemma stored_code (c : string) (t : Pg.Table) (r : Pg.Link) :
  stored c t = Some r -> In r t /\ Pg.short_code r = c.
Proof.
  intros H. apply find_some in H. destruct H as [Hin Hc].
  split; [exact Hin|]. now apply String.eqb_eq.
Qed.

(** A code that resolves is a text value whose row is stored; a text
    value resolves to the row stored for it. *)
Lemma lookup_stored (c : string) (t : Pg.Table) (r : Pg.Link) :
  lookup c t = Some r -> Pg.is_text c = true /\ stored c t = Some r.
Proof.
  unfold lookup. destruct (Pg.is_text c); [now split | discriminate].
Qed.

Lemma lookup_text (c : string) (t : Pg.Table) :
  Pg.is_text c = true -> lookup c t = stored c t.
Proof. intros H. unfold lookup. now rewrite H. Qed.

Lemma lookup_refused (c : string) (t : Pg.Table) :
  Pg.is_text c = false -> lookup c t = None.
Proof. intros H. unfold lookup. now rewrite H. Qed.

Lemma lookup_code (c : string) (t : Pg.Table) (r : Pg.Link) :
  lookup c t = Some r -> In r t /\ Pg.short_code r = c.
Proof. intros H. apply lookup_stored in H. now apply stored_code. Qed.

Lemma test_length (c : string) :
  Js.test CODE_REGEX c = true -> (6 <= String.length c <= 8)%nat.
Proof.
  unfold Js.test. simpl Js.lo. simpl Js.hi. intros H.
  apply andb_prop in H. destruct H as [H _].
  apply andb_prop in H. destruct H as [H1 H2].
  apply Nat.leb_le in H1. apply Nat.leb_le in H2. lia.
Qed.

Lemma run_insertLink (c u : string) (w : World) :
  Js.test CODE_REGEX c = true ->
  run Math_random (insertLink c u) w =
  if taken c (links w)
  then (Uncaught (PgError Pg.unique_violation), queried (links w) w)
  else (Returned (json 201 (JCreated (fresh c u)
                              (BASE_URL ++ "/" ++ c)%string)),
        queried (links w ++ [fresh c u]) w).
Proof.
  intros Ht. unfold insertLink, taken, Pg.insert_link.
  rewrite (with_text_ok c _ (test_is_text c Ht)). simpl.
  replace (8 <? String.length c)%nat with false
    by (symmetry; apply Nat.ltb_ge; apply test_length in Ht; lia).
  destruct (existsb (Pg.has_code c) (links w)); reflexivity.
Qed.

Lemma run_createLink_custom (l c : Js.value) (u : string) (w : World) :
  Js.truthy l = true -> new_URL (Js.str l) = Some u ->
  Js.truthy c = true ->
  run Math_random (createLink (create_body l c)) w =
  if negb (Js.test CODE_REGEX (Js.str c))
  then (Returned (json 400
          (JError "customCode must match [A-Za-z0-9]{6,8}")), w)
  else if taken (Js.str c) (links w)
  then (Returned (json 409 (JError "Code already exists")),
        moved (draws w) (S (queries w)) w)
  else (Returned (json 201 (JCreated (fresh (Js.str c) u)
                              (BASE_URL ++ "/" ++ Js.str c)%string)),
        queried (links w ++ [fresh (Js.str c) u])
          (moved (draws w) (S (queries w)) w)).
Proof.
  intros Hl Hu Hc. unfold createLink, create_body.
  cbn [longUrl customCode]. rewrite run_try_catch, Hl, Hu, Hc.
  cbn [negb].
  destruct (Js.test CODE_REGEX (Js.str c)) eqn:Ht; cbn [negb];
    [|reflexivity].
  rewrite run_bind, run_codeExists by (now apply test_is_text).
  destruct (taken (Js.str c) (links w)) eqn:Hk; [reflexivity|].
  rewrite run_insertLink by exact Ht.
  cbn [links moved]. rewrite Hk. reflexivity.
Qed.

Lemma run_createLink_random (l c : Js.value) (u : string) (w : World) :
  Js.truthy l = true -> new_URL (Js.str l) = Some u ->
  Js.truthy c = false ->
  run Math_random (createLink (create_body l c)) w =
  let '(code, pos, checks) := pick 10 (draws w) (links w) in
  if taken code (links w)
  then (Returned (json 500 (JError
          "Failed to generate unique short_code, try again")),
        moved pos (S (queries w + checks)) w)
  else (Returned (json 201 (JCreated (fresh code u)
                              (BASE_URL ++ "/" ++ code)%string)),
        queried (links w ++ [fresh code u])
          (moved pos (S (queries w + checks)) w)).
Proof.
  intros Hl Hu Hc. unfold createLink, create_body.
  cbn [longUrl customCode]. rewrite run_try_catch, Hl, Hu, Hc.
  cbn [negb].
  rewrite run_bind, (run_generate 10) by (reflexivity || lia).
  pose proof (pick_spec 10 (links w) (draws w)) as Hp.
  destruct (pick 10 (draws w) (links w)) as [[code pos] checks].
  destruct Hp as (Hin & _ & _ & _).
  pose proof (candidates_valid 11 (draws w)) as Hv.
  rewrite Forall_forall in Hv. apply Hv in Hin.
  rewrite run_bind, run_codeExists by (now apply test_is_text).
  cbn [links moved draws queries].
  destruct (taken code (links w)) eqn:Hk; [reflexivity|].
  rewrite run_insertLink by exact Hin.
  cbn [links moved]. rewrite Hk. reflexivity.
Qed.

Lemma click_ok (now : Z) (r : Pg.Link) :
  Pg.INT4_MIN <= Pg.total_clicks r + 1 <= Pg.INT4_MAX ->
  Pg.click now r = Pg.Ok (clicked now r).
Proof.
  intros H. unfold Pg.click, Pg.int4pl. cbv zeta.
  replace (Pg.total_clicks r + 1 <? Pg.INT4_MIN) with false
    by (symmetry; apply Z.ltb_ge; lia).
  replace (Pg.INT4_MAX <? Pg.total_clicks r + 1) with false
    by (symmetry; apply Z.ltb_ge; lia).
  reflexivity.
Qed.

Lemma click_overflow (now : Z) (r : Pg.Link) :
  Pg.INT4_MAX <= Pg.total_clicks r ->
  Pg.click now r = Pg.Err Pg.numeric_value_out_of_range.
Proof.
  intros H. unfold Pg.click, Pg.int4pl. cbv zeta.
  replace (Pg.INT4_MAX <? Pg.total_clicks r + 1) with true
    by (symmetry; apply Z.ltb_lt; lia).
  rewrite orb_true_r. reflexivity.
Qed.

Lemma update_where_ok (c : string) (now : Z) (t : Pg.Table) :
  (forall r, In r t -> Pg.has_code c r = true ->
             Pg.INT4_MIN <= Pg.total_clicks r + 1 <= Pg.INT4_MAX) ->
  Pg.update_where c now t =
  Pg.Ok (map (click_if c now) t,
         List.length (filter (Pg.has_code c) t)).
Proof.
  induction t as [|r t IH]; intros H; [reflexivity|].
  cbn [Pg.update_where map filter]. unfold click_if at 1.
  rewrite IH by (intros r' Hin; apply H; now right).
  destruct (Pg.has_code c r) eqn:Hc; [|reflexivity].
  rewrite click_ok by (apply H; [now left | exact Hc]).
  reflexivity.
Qed.

Lemma update_where_overflow (c : string) (now : Z) (t : Pg.Table)
      (r : Pg.Link) :
  stored c t = Some r -> Pg.INT4_MAX <= Pg.total_clicks r ->
  Pg.update_where c now t = Pg.Err Pg.numeric_value_out_of_range.
Proof.
  unfold stored. induction t as [|r0 t IH]; intros Hl Hmax;
    [discriminate|].
  cbn [Pg.update_where find] in *.
  destruct (Pg.has_code c r0).
  - injection Hl as ->. now rewrite click_overflow.
  - now rewrite IH.
Qed.

Lemma unique_match (c : string) (t : Pg.Table) (r r' : Pg.Link) :
  unique_codes t -> stored c t = Some r ->
  In r' t -> Pg.has_code c r' = true -> r' = r.
Proof.
  unfold unique_codes, stored.
  induction t as [|r0 t IH]; intros Hu Hl Hin Hc; [contradiction|].
  cbn [map find] in *. inversion Hu as [|? ? Hnot Hu']; subst.
  destruct (Pg.has_code c r0) eqn:H0.
  - injection Hl as <-. destruct Hin as [->|Hin]; [reflexivity|].
    exfalso. apply Hnot. apply String.eqb_eq in H0, Hc.
    rewrite H0, <- Hc. now apply in_map.
  - destruct Hin as [<-|Hin]; [congruence|]. now apply IH.
Qed.

Lemma click_if_code (c : string) (now : Z) (r : Pg.Link) :
  Pg.short_code (click_if c now r) = Pg.short_code r
  /\ Pg.target_url (click_if c now r) = Pg.target_url r.
Proof. unfold click_if. destruct (Pg.has_code c r); split; reflexivity. Qed.

Lemma lookup_map_click (c d : string) (now : Z) (t : Pg.Table) :
  lookup c (map (click_if d now) t) =
  option_map (click_if d now) (lookup c t).
Proof.
  unfold lookup. destruct (Pg.is_text c); [|reflexivity].
  unfold stored. induction t as [|r t IH]; [reflexivity|].
  cbn [map find]. unfold Pg.has_code at 1.
  rewrite (proj1 (click_if_code d now r)).
  fold (Pg.has_code c r). destruct (Pg.has_code c r); [reflexivity|].
  exact IH.
Qed.

(** The redirect handler, by what its SELECT finds. *)
Lemma run_redirectLink_refused (c : string) (w : World) :
  Pg.is_text c = false ->
  run Math_random (redirectLink c) w =
  (Returned (json 500 (JError "Internal server error")),
   queried (links w) w).
Proof.
  intros H. unfold redirectLink. rewrite run_try_catch, run_bind.
  unfold Pg.select_target. rewrite (with_text_refused c _ H). reflexivity.
Qed.

Lemma run_redirectLink_absent (c : string) (w : World) :
  Pg.is_text c = true -> stored c (links w) = None ->
  run Math_random (redirectLink c) w =
  (Returned (send 404 (Some "Not found")), queried (links w) w).
Proof.
  intros Hc H. unfold redirectLink. rewrite run_try_catch, run_bind.
  unfold Pg.select_target. rewrite (with_text_ok c _ Hc).
  unfold await. cbn [run]. rewrite limit_one, H. reflexivity.
Qed.

Lemma run_redirectLink_found (c : string) (w : World) (r : Pg.Link) :
  lookup c (links w) = Some r ->
  run Math_random (redirectLink c) w =
  match Pg.update_where c (clock w) (links w) with
  | Pg.Ok (t', _) =>
      (Returned (redirect 302 (Pg.target_url r)),
       queried t' (queried (links w) w))
  | Pg.Err _ =>
      (Returned (json 500 (JError "Internal server error")),
       queried (links w) (queried (links w) w))
  end.
Proof.
  intros H. apply lookup_stored in H. destruct H as [Hc H].
  unfold redirectLink. rewrite run_try_catch, run_bind.
  unfold Pg.select_target, Pg.update_clicks.
  rewrite !(with_text_ok c _ Hc).
  unfold await. cbn [run].
  rewrite limit_one, H. cbn.
  destruct (Pg.update_where c (clock w) (links w)) as [[t' n]|e];
    reflexivity.
Qed.

Lemma codes_map_click (c : string) (now : Z) (t : Pg.Table) :
  map Pg.short_code (map (click_if c now) t) = map Pg.short_code t.
Proof.
  induction t as [|r t IH]; [reflexivity|].
  cbn [map]. rewrite IH, (proj1 (click_if_code c now r)). reflexivity.
Qed.

Lemma legal_click (c : string) (now : Z) (t : Pg.Table) :
  legal t ->
  (forall r, In r t -> Pg.has_code c r = true ->
             Pg.total_clicks r < Pg.INT4_MAX) ->
  legal (map (click_if c now) t).
Proof.
  intros [Hu Hl] Hmax. split.
  - unfold unique_codes. rewrite codes_map_click. exact Hu.
  - rewrite Forall_forall in *. intros r' Hin.
    apply in_map_iff in Hin. destruct Hin as [r [<- Hin]].
    specialize (Hl r Hin). specialize (Hmax r Hin).
    unfold click_if. destruct (Pg.has_code c r); [|exact Hl].
    unfold legal_row in *. cbn. specialize (Hmax eq_refl).
    unfold Pg.INT4_MIN, Pg.INT4_MAX in *. lia.
Qed.

(** One redirect of a code whose counter is below the INTEGER maximum. *)
Lemma redirect_once (c : string) (w : World) (r : Pg.Link) :
  legal (links w) ->
  lookup c (links w) = Some r ->
  Pg.total_clicks r < Pg.INT4_MAX ->
  run Math_random (redirectLink c) w =
  (Returned (redirect 302 (Pg.target_url r)),
   queried (map (click_if c (clock w)) (links w)) (queried (links w) w)).
Proof.
  intros [Hu Hl] Hr Hmax. rewrite (run_redirectLink_found c w r Hr).
  apply lookup_stored in Hr. destruct Hr as [_ Hr].
  rewrite update_where_ok; [reflexivity|].
  intros r' Hin Hc. rewrite (unique_match c (links w) r r' Hu Hr Hin Hc).
  rewrite Forall_forall in Hl. apply stored_code in Hr.
  destruct (Hl r (proj1 Hr)) as [Hrange _].
  unfold Pg.INT4_MIN, Pg.INT4_MAX in *. lia.
Qed.

Lemma legal_redirect_once (c : string) (w : World) (r : Pg.Link) :
  legal (links w) ->
  lookup c (links w) = Some r ->
  Pg.total_clicks r < Pg.INT4_MAX ->
  legal (map (click_if c (clock w)) (links w))
  /\ lookup c (map (click_if c (clock w)) (links w))
     = Some (clicked (clock w) r).
Proof.
  intros Hleg Hr Hmax. split.
  - apply lookup_stored in Hr. destruct Hr as [_ Hr].
    apply legal_click; [exact Hleg|]. intros r' Hin Hc.
    now rewrite (unique_match c (links w) r r' (proj1 Hleg) Hr Hin Hc).
  - rewrite lookup_map_click, Hr. cbn [option_map]. unfold click_if.
    apply lookup_stored in Hr. destruct Hr as [_ Hr].
    apply find_some in Hr. now rewrite (proj2 Hr).
Qed.

Lemma redirect_many (c : string) (times : list Z) :
  forall (w : World) (r : Pg.Link),
    legal (links w) ->
    lookup c (links w) = Some r ->
    Pg.total_clicks r + Z.of_nat (List.length times) <= Pg.INT4_MAX ->
    exists w',
      redirect_all c times w =
      (map (fun _ => Returned (redirect 302 (Pg.target_url r))) times, w')
      /\ legal (links w')
      /\ lookup c (links w') =
         Some (match times with
               | [] => r
               | _ => clicked_times (Z.of_nat (List.length times))
                        (last times 0) r
               end).
Proof.
  induction times as [|now rest IH]; intros w r Hleg Hr Hmax.
  - exists w. repeat split; try assumption; apply Hleg.
  - cbn [redirect_all]. cbn [List.length] in Hmax.
    assert (Hlt : Pg.total_clicks r < Pg.INT4_MAX) by lia.
    rewrite (redirect_once c (at_time now w) r Hleg Hr Hlt).
    destruct (legal_redirect_once c (at_time now w) r Hleg Hr Hlt)
      as [Hleg1 Hr1].
    cbn [clock at_time links] in *.
    set (w1 := queried _ _).
    destruct (IH w1 (clicked now r)) as (w' & Hrun & Hleg' & Hr').
    + exact Hleg1.
    + exact Hr1.
    + cbn [clicked Pg.total_clicks]. lia.
    + rewrite Hrun. exists w'. split; [reflexivity|].
      split; [exact Hleg'|]. rewrite Hr'. f_equal.
      destruct rest as [|t rest']; [reflexivity|].
      unfold clicked_times, clicked. cbn [Pg.short_code Pg.target_url
        Pg.total_clicks]. f_equal; try reflexivity.
      cbn [List.length]. lia.
Qed.

(** The maximum is reached by redirects alone, and the redirect after it
    is answered 500. *)
Lemma redirect_past_integer_max (c : string) (times : list Z) (now : Z)
      (w : World) (r : Pg.Link) :
  legal (links w) ->
  lookup c (links w) = Some r ->
  Pg.total_clicks r + Z.of_nat (List.length times) = Pg.INT4_MAX ->
  exists w',
    redirect_all c times w =
      (map (fun _ => Returned (redirect 302 (Pg.target_url r))) times, w')
    /\ fst (run Math_random (redirectLink c) (at_time now w'))
       = Returned (json 500 (JError "Internal server error")).
Proof.
  intros Hleg Hr Hmax.
  destruct (redirect_many c times w r Hleg Hr ltac:(lia))
    as (w' & Hrun & _ & Hr').
  exists w'. split; [exact Hrun|].
  rewrite (run_redirectLink_found c (at_time now w') _ Hr').
  cbn [clock links at_time].
  rewrite (update_where_overflow c now (links w') _
             (proj2 (lookup_stored c _ _ Hr'))); [reflexivity|].
  destruct times; cbn [List.length] in *; cbn; lia.
Qed.

(** C2 (as amended).  A redirect of a code present in the store whose
    counter is below 2147483647, the maximum of the INTEGER column,
    answers 302 to the stored target_url; the UPDATE adds exactly 1 to
    total_clicks of that row and sets last_clicked_time to the time of the
    redirect, so that N redirects in a row add N (N on a new link) as
    long as the sum stays within INTEGER.  A redirect of an absent code
    answers 404 in plain text, or 500 Internal server error when the code
    holds a NUL byte, which the store refuses; either way the table is
    left as it is. *)
Theorem redirect_accounting :
  forall (c : string) (w : World),
    legal (links w) ->
    (forall r, lookup c (links w) = Some r ->
               Pg.total_clicks r < Pg.INT4_MAX ->
       exists w',
         run Math_random (redirectLink c) w =
           (Returned (redirect 302 (Pg.target_url r)), w')
         /\ links w' = map (click_if c (clock w)) (links w)
         /\ lookup c (links w') = Some (clicked (clock w) r)
         /\ queries w' = (queries w + 2)%nat)
    /\ (forall r times, lookup c (links w) = Some r ->
          times <> [] ->
          Pg.total_clicks r + Z.of_nat (List.length times) <= Pg.INT4_MAX ->
          exists w',
            redirect_all c times w =
              (map (fun _ => Returned (redirect 302 (Pg.target_url r)))
                   times, w')
            /\ lookup c (links w') =
               Some (clicked_times (Z.of_nat (List.length times))
                       (last times 0) r))
    /\ (lookup c (links w) = None ->
        exists w',
          run Math_random (redirectLink c) w =
            (Returned (if Pg.is_text c
                       then send 404 (Some "Not found")
                       else json 500 (JError "Internal server error")), w')
          /\ links w' = links w).
Proof.
  intros c w Hleg. split; [|split].
  - intros r Hr Hmax. eexists. split; [|split; [|split]].
    + apply (redirect_once c w r Hleg Hr Hmax).
    + reflexivity.
    + apply (legal_redirect_once c w r Hleg Hr Hmax).
    + cbn. lia.
  - intros r times Hr Hne Hmax.
    destruct (redirect_many c times w r Hleg Hr Hmax)
      as (w' & Hrun & _ & Hr').
    exists w'. split; [exact Hrun|]. rewrite Hr'.
    destruct times; [contradiction | reflexivity].
  - intros Hr. destruct (Pg.is_text c) eqn:Hc; eexists; split.
    + rewrite (lookup_text c _ Hc) in Hr.
      apply (run_redirectLink_absent c w Hc Hr).
    + reflexivity.
    + apply (run_redirectLink_refused c w Hc).
    + reflexivity.
Qed.

(** *** Delete and get *)

Lemma stored_filter_other (c d : string) (t : Pg.Table) :
  c <> d ->
  stored c (filter (fun r => negb (Pg.has_code d r)) t) = stored c t.
Proof.
  intros Hne. unfold stored. induction t as [|r t IH]; [reflexivity|].
  cbn [filter find]. destruct (Pg.has_code d r) eqn:Hd; cbn [negb].
  - destruct (Pg.has_code c r) eqn:Hc; [|exact IH].
    apply String.eqb_eq in Hd, Hc. congruence.
  - cbn [find]. destruct (Pg.has_code c r); [reflexivity | exact IH].
Qed.

Lemma lookup_filter_other (c d : string) (t : Pg.Table) :
  c <> d ->
  lookup c (filter (fun r => negb (Pg.has_code d r)) t) = lookup c t.
Proof.
  intros Hne. unfold lookup. now rewrite stored_filter_other.
Qed.

Lemma stored_filter_same (c : string) (t : Pg.Table) :
  stored c (filter (fun r => negb (Pg.has_code c r)) t) = None.
Proof.
  unfold stored. induction t as [|r t IH]; [reflexivity|].
  cbn [filter]. destruct (Pg.has_code c r) eqn:Hc; cbn [negb];
    [exact IH|]. cbn [find]. now rewrite Hc.
Qed.

Lemma taken_filter_same (c : string) (t : Pg.Table) :
  taken c (filter (fun r => negb (Pg.has_code c r)) t) = false.
Proof. now rewrite taken_stored, stored_filter_same. Qed.

Lemma filter_matches (c : string) (t : Pg.Table) :
  (List.length (map Pg.short_code (filter (Pg.has_code c) t)) =? 0)%nat
  = negb (taken c t).
Proof.
  unfold taken. induction t as [|r t IH]; [reflexivity|].
  cbn [filter existsb]. destruct (Pg.has_code c r); [reflexivity|].
  exact IH.
Qed.

(** The delete and get handlers, for a code the store accepts and for one
    it refuses. *)
Lemma run_deleteLink (c : string) (w : World) :
  Pg.is_text c = true ->
  run Math_random (deleteLink c) w =
  (Returned (if taken c (links w)
             then send 204 None
             else json 404 (JError "Not found")),
   queried (filter (fun r => negb (Pg.has_code c r)) (links w)) w).
Proof.
  intros Hc. unfold deleteLink. rewrite run_try_catch, run_bind.
  unfold Pg.delete_link. rewrite (with_text_ok c _ Hc).
  unfold await. cbn [run].
  unfold Pg.selected. cbn [Pg.rowCount]. rewrite filter_matches.
  destruct (taken c (links w)); reflexivity.
Qed.

Lemma run_deleteLink_refused (c : string) (w : World) :
  Pg.is_text c = false ->
  run Math_random (deleteLink c) w =
  (Returned (json 500 (JError "Internal server error")),
   queried (links w) w).
Proof.
  intros Hc. unfold deleteLink. rewrite run_try_catch, run_bind.
  unfold Pg.delete_link. rewrite (with_text_refused c _ Hc). reflexivity.
Qed.

Lemma run_getLink (c : string) (w : World) :
  Pg.is_text c = true ->
  run Math_random (getLink c) w =
  (Returned (match stored c (links w) with
             | Some row => json 200 (JLink row)
             | None => json 404 (JError "Not found")
             end),
   queried (links w) w).
Proof.
  intros Hc. unfold getLink. rewrite run_try_catch, run_bind.
  unfold Pg.select_link. rewrite (with_text_ok c _ Hc).
  unfold await. cbn [run].
  rewrite limit_one. destruct (stored c (links w)); reflexivity.
Qed.

Lemma run_getLink_refused (c : string) (w : World) :
  Pg.is_text c = false ->
  run Math_random (getLink c) w =
  (Returned (json 500 (JError "Internal server error")),
   queried (links w) w).
Proof.
  intros Hc. unfold getLink. rewrite run_try_catch, run_bind.
  unfold Pg.select_link. rewrite (with_text_refused c _ Hc). reflexivity.
Qed.

Lemma filter_absent (c : string) (t : Pg.Table) :
  taken c t = false -> filter (fun r => negb (Pg.has_code c r)) t = t.
Proof.
  unfold taken. induction t as [|r t IH]; intros H; [reflexivity|].
  cbn [existsb filter] in *. apply orb_false_elim in H.
  destruct H as [H1 H2]. rewrite H1. cbn [negb]. now rewrite IH.
Qed.

(** C7 (as amended).  For a code without a NUL byte, Delete removes the
    link with the given code and answers 204 with no content; it answers
    404 when the code is absent, leaving the table as it is; after a
    successful delete, Get of the same code answers 404 and every other
    code resolves as before.  A code that holds a NUL byte is refused by
    the store: Delete answers 500 Internal server error, not 404, the
    table is left as it is, and Get of the code answers 500 as well. *)
Theorem delete_then_get :
  forall (c : string) (w : World),
    (Pg.is_text c = true -> taken c (links w) = true ->
     exists w',
       run Math_random (deleteLink c) w = (Returned (send 204 None), w')
       /\ links w' = filter (fun r => negb (Pg.has_code c r)) (links w)
       /\ taken c (links w') = false
       /\ (forall d, d <> c -> lookup d (links w') = lookup d (links w))
       /\ fst (run Math_random (getLink c) w')
          = Returned (json 404 (JError "Not found")))
    /\ (Pg.is_text c = true -> taken c (links w) = false ->
        exists w',
          run Math_random (deleteLink c) w
            = (Returned (json 404 (JError "Not found")), w')
          /\ links w' = links w)
    /\ (Pg.is_text c = false ->
        exists w',
          run Math_random (deleteLink c) w
            = (Returned (json 500 (JError "Internal server error")), w')
          /\ links w' = links w
          /\ fst (run Math_random (getLink c) w')
             = Returned (json 500 (JError "Internal server error"))).
Proof.
  intros c w. split; [|split].
  - intros Hc Hk. rewrite (run_deleteLink c w Hc), Hk. eexists.
    split; [reflexivity|]. cbn [links queried].
    split; [reflexivity|]. split; [|split].
    + apply taken_filter_same.
    + intros d Hd. now apply lookup_filter_other.
    + rewrite (run_getLink c _ Hc). cbn [fst links queried].
      now rewrite stored_filter_same.
  - intros Hc Hk. rewrite (run_deleteLink c w Hc), Hk. eexists.
    split; [reflexivity|]. cbn [links queried]. now apply filter_absent.
  - intros Hc. rewrite (run_deleteLink_refused c w Hc). eexists.
    split; [reflexivity|]. split; [reflexivity|].
    now rewrite (run_getLink_refused c _ Hc).
Qed.

(** *** Create *)

Lemma run_createLink_no_body (w : World) :
  run Math_random (createLink None) w =
  (Returned (json 400 (JError "longUrl is required")), w).
Proof. reflexivity. Qed.

Lemma run_createLink_no_url (l c : Js.value) (w : World) :
  Js.truthy l = false ->
  run Math_random (createLink (create_body l c)) w =
  (Returned (json 400 (JError "longUrl is required")), w).
Proof.
  intros H. unfold createLink, create_body. cbn [longUrl customCode].
  rewrite H. reflexivity.
Qed.

Lemma run_createLink_bad_url (l c : Js.value) (w : World) :
  Js.truthy l = true -> new_URL (Js.str l) = None ->
  run Math_random (createLink (create_body l c)) w =
  (Returned (json 400 (JError "Invalid URL provided")), w).
Proof.
  intros H Hu. unfold createLink, create_body. cbn [longUrl customCode].
  rewrite H, Hu. reflexivity.
Qed.

(** C10.  An empty customCode is handled as a missing one: the two
    requests run alike, so the pattern check is never reached, and with a
    well-formed longUrl the code comes from the random generator. *)
Theorem empty_custom_code_is_none :
  forall (l : Js.value) (w : World),
    run Math_random (createLink (create_body l (Some ""))) w
    = run Math_random (createLink (create_body l None)) w
    /\ fst (run Math_random (createLink (create_body l (Some ""))) w)
       <> Returned (json 400
                      (JError "customCode must match [A-Za-z0-9]{6,8}"))
    /\ (forall u, Js.truthy l = true -> new_URL (Js.str l) = Some u ->
          let '(code, pos, _) := pick 10 (draws w) (links w) in
          In code (candidates 11 (draws w))
          /\ (draws w < pos)%nat
          /\ draws (snd (run Math_random
                           (createLink (create_body l (Some ""))) w)) = pos
          /\ (taken code (links w) = false ->
              fst (run Math_random
                     (createLink (create_body l (Some ""))) w)
              = Returned (json 201 (JCreated (fresh code u)
                                      (BASE_URL ++ "/" ++ code)%string)))).
Proof.
  intros l w. split; [reflexivity|]. split.
  - destruct (Js.truthy l) eqn:Hl.
    + destruct (new_URL (Js.str l)) as [u|] eqn:Hu.
      * rewrite (run_createLink_random l (Some "") u w Hl Hu eq_refl).
        destruct (pick 10 (draws w) (links w)) as [[code pos] checks].
        destruct (taken code (links w)); cbn [fst]; discriminate.
      * rewrite (run_createLink_bad_url l (Some "") w Hl Hu).
        cbn [fst]. discriminate.
    + rewrite (run_createLink_no_url l (Some "") w Hl).
      cbn [fst]. discriminate.
  - intros u Hl Hu.
    rewrite (run_createLink_random l (Some "") u w Hl Hu eq_refl).
    pose proof (pick_spec 10 (links w) (draws w)) as Hp.
    destruct (pick 10 (draws w) (links w)) as [[code pos] checks].
    destruct Hp as (Hin & _ & Hpos & _).
    split; [exact Hin|]. split; [lia|].
    destruct (taken code (links w)); split; try reflexivity;
      intros; congruence.
Qed.

(** C3 (as amended).  With a longUrl that parses and either a custom code
    that matches the pattern and is unused, or no custom code, Create
    answers 201: the row written holds the normalized URL, a code that
    matches [A-Za-z0-9]{6,8} (the custom one when given), total_clicks 0
    and last_clicked_time null, and shortUrl is the base address, a slash
    and the code.  The one exception: without a custom code, when every
    candidate the generator draws within its bound is already stored, the
    answer is 500 and nothing is written.  A longUrl that is missing,
    empty or does not parse answers 400 and nothing is written. *)
Theorem create_valid_url :
  (forall (l c : Js.value) (u : string) (w : World),
      Js.truthy l = true -> new_URL (Js.str l) = Some u ->
      Js.truthy c = false
      \/ (Js.truthy c = true /\ Js.test CODE_REGEX (Js.str c) = true
          /\ taken (Js.str c) (links w) = false) ->
      exists resp w',
        run Math_random (createLink (create_body l c)) w
          = (Returned resp, w')
        /\ ((exists code,
                resp = json 201 (JCreated (fresh code u)
                                   (BASE_URL ++ "/" ++ code)%string)
                /\ Js.test CODE_REGEX code = true
                /\ taken code (links w) = false
                /\ links w' = links w ++ [fresh code u]
                /\ (Js.truthy c = true -> code = Js.str c))
            \/ (Js.truthy c = false
                /\ resp = json 500 (JError
                     "Failed to generate unique short_code, try again")
                /\ links w' = links w
                /\ Forall (fun c' => taken c' (links w) = true)
                     (candidates 11 (draws w)))))
  /\ (forall (l c : Js.value) (w : World),
         Js.truthy l = false
         \/ (Js.truthy l = true /\ new_URL (Js.str l) = None) ->
         exists msg,
           run Math_random (createLink (create_body l c)) w
           = (Returned (json 400 (JError msg)), w)).
Proof.
  split.
  - intros l c u w Hl Hu [Hc | (Hc & Ht & Hk)].
    + rewrite (run_createLink_random l c u w Hl Hu Hc).
      pose proof (pick_spec 10 (links w) (draws w)) as Hp.
      pose proof (candidates_valid 11 (draws w)) as Hv.
      rewrite Forall_forall in Hv.
      destruct (pick 10 (draws w) (links w)) as [[code pos] checks].
      destruct Hp as (Hin & _ & _ & Hall).
      destruct (taken code (links w)) eqn:Hk; do 2 eexists;
        (split; [reflexivity|]).
      * right. repeat split; try assumption. now apply Hall.
      * left. exists code. repeat split; try assumption.
        -- now apply Hv.
        -- congruence.
    + rewrite (run_createLink_custom l c u w Hl Hu Hc), Ht, Hk.
      cbn [negb]. do 2 eexists. split; [reflexivity|].
      left. exists (Js.str c). repeat split; assumption.
  - intros l c w [Hl | [Hl Hu]].
    + eexists. apply (run_createLink_no_url l c w Hl).
    + eexists. apply (run_createLink_bad_url l c w Hl Hu).
Qed.

(** C4 (as amended).  A custom code that is not empty and does not match
    [A-Za-z0-9]{6,8} makes Create answer 400 without touching the store;
    a custom code that matches and is already stored makes Create, given
    a longUrl that parses, answer 409 and write nothing. *)
Theorem custom_code_rejected :
  (forall (l c : Js.value) (w : World),
      Js.truthy c = true -> Js.test CODE_REGEX (Js.str c) = false ->
      exists msg,
        run Math_random (createLink (create_body l c)) w
        = (Returned (json 400 (JError msg)), w)
        /\ (Js.truthy l = true -> new_URL (Js.str l) <> None ->
            msg = "customCode must match [A-Za-z0-9]{6,8}"))
  /\ (forall (l c : Js.value) (u : string) (w : World),
         Js.truthy l = true -> new_URL (Js.str l) = Some u ->
         Js.truthy c = true -> Js.test CODE_REGEX (Js.str c) = true ->
         taken (Js.str c) (links w) = true ->
         exists w',
           run Math_random (createLink (create_body l c)) w
           = (Returned (json 409 (JError "Code already exists")), w')
           /\ links w' = links w).
Proof.
  split.
  - intros l c w Hc Ht. destruct (Js.truthy l) eqn:Hl.
    + destruct (new_URL (Js.str l)) as [u|] eqn:Hu.
      * rewrite (run_createLink_custom l c u w Hl Hu Hc), Ht. cbn [negb].
        eexists. split; reflexivity.
      * rewrite (run_createLink_bad_url l c w Hl Hu).
        eexists. split; [reflexivity|]. intros _ H. now contradiction H.
    + rewrite (run_createLink_no_url l c w Hl).
      eexists. split; [reflexivity|]. intros H. discriminate H.
  - intros l c u w Hl Hu Hc Ht Hk.
    rewrite (run_createLink_custom l c u w Hl Hu Hc), Ht, Hk. cbn [negb].
    eexists. split; reflexivity.
Qed.

(** C5.  Without a custom code the handler always answers: the loop
    draws at most 11 candidates (99 calls of [Math.random]), each of 6 to
    8 of the 62 characters of CHARS, sends the store at most 12 statements
    (11 existence checks and the INSERT), and never runs out of fuel
    however much it is given; when all the
    candidates drawn are stored already, and only then, the answer is 500
    and nothing is written.  An index below n is drawn from an interval of
    width 1/n of the range of [Math.random], the same for every index. *)
Theorem generation_is_bounded :
  forall (l c : Js.value) (u : string) (w : World),
    Js.truthy l = true -> new_URL (Js.str l) = Some u ->
    Js.truthy c = false ->
    exists resp w',
      run Math_random (createLink (create_body l c)) w = (Returned resp, w')
      /\ (draws w' <= draws w + 99)%nat
      /\ (queries w' <= queries w + 12)%nat
      /\ Forall (fun c' => Js.test CODE_REGEX c' = true)
           (candidates 11 (draws w))
      /\ (Forall (fun c' => taken c' (links w) = true)
            (candidates 11 (draws w))
          <-> resp = json 500 (JError
                "Failed to generate unique short_code, try again"))
      /\ (status_of resp = 500 -> links w' = links w)
      /\ (forall fuel, (10 <= fuel)%nat ->
            run Math_random (generate fuel 0) w
            = run Math_random (generate 10 0) w)
      /\ (forall r n i, Js.floor_mul r n = i <->
            i * 2 ^ 53 <= Js.mantissa r * n < (i + 1) * 2 ^ 53).
Proof.
  intros l c u w Hl Hu Hc.
  rewrite (run_createLink_random l c u w Hl Hu Hc).
  assert (Hfuel : forall fuel, (10 <= fuel)%nat ->
            run Math_random (generate fuel 0) w
            = run Math_random (generate 10 0) w).
  { intros fuel Hf.
    now rewrite (run_generate 10 fuel 0 w Hf eq_refl),
                (run_generate 10 10 0 w (le_n _) eq_refl). }
  pose proof (pick_spec 10 (links w) (draws w)) as Hp.
  pose proof (candidates_valid 11 (draws w)) as Hv.
  destruct (pick 10 (draws w) (links w)) as [[code pos] checks].
  destruct Hp as (Hin & Hchecks & Hpos & Hall).
  destruct (taken code (links w)) eqn:Hk; do 2 eexists;
    (split; [reflexivity|]); cbn [draws queries links moved queried];
    (split; [lia|]); (split; [lia|]); (split; [exact Hv|]);
    (split; [|split; [|split; [exact Hfuel | exact floor_mul_share]]]).
  - split; [reflexivity|]. intros _. now apply Hall.
  - reflexivity.
  - split; intros H; [|discriminate H].
    rewrite Forall_forall in H. specialize (H code Hin). congruence.
  - cbn [status_of]. intros H. discriminate H.
Qed.

(** *** What a request does to the table *)

Lemma update_where_inv (c : string) (now : Z) (t : Pg.Table) :
  forall t' n,
    Pg.update_where c now t = Pg.Ok (t', n) ->
    t' = map (click_if c now) t
    /\ (forall r, In r t -> Pg.has_code c r = true ->
                  Pg.INT4_MIN <= Pg.total_clicks r + 1 <= Pg.INT4_MAX).
Proof.
  induction t as [|r t IH]; intros t' n H.
  - injection H as <- <-. split; [reflexivity | contradiction].
  - cbn [Pg.update_where] in H. cbn [map]. unfold click_if at 1.
    destruct (Pg.has_code c r) eqn:Hc.
    + unfold Pg.click, Pg.int4pl in H. cbv zeta in H.
      destruct ((Pg.total_clicks r + 1 <? Pg.INT4_MIN)
                || (Pg.INT4_MAX <? Pg.total_clicks r + 1)) eqn:Hb;
        [discriminate|].
      apply orb_false_elim in Hb. destruct Hb as [Hlo Hhi].
      apply Z.ltb_ge in Hlo, Hhi.
      destruct (Pg.update_where c now t) as [[t1 n1]|e]; [|discriminate].
      injection H as <- <-. destruct (IH t1 n1 eq_refl) as [-> Hall].
      split; [reflexivity|].
      intros r' [<-|Hin] Hc'; [lia | now apply Hall].
    + destruct (Pg.update_where c now t) as [[t1 n1]|e]; [|discriminate].
      injection H as <- <-. destruct (IH t1 n1 eq_refl) as [-> Hall].
      split; [reflexivity|].
      intros r' [<-|Hin] Hc'; [congruence | now apply Hall].
Qed.

(** *** The router *)

Lemma match_path_end (p vals : list string) :
  match_path [] p = Some vals -> vals = [] /\ (p = [] \/ p = [""]).
Proof.
  destruct p as [|seg [|seg' p]]; cbn [match_path]; intros H.
  - injection H as <-. split; [reflexivity | now left].
  - destruct (String.eqb_spec seg ""); [|discriminate].
    injection H as <-. subst. split; [reflexivity | now right].
  - discriminate.
Qed.

Lemma match_path_lit (s : string) (pattern : list Segment)
      (p vals : list string) :
  match_path (lit s :: pattern) p = Some vals ->
  exists seg p',
    p = seg :: p' /\ Js.toLowerCase seg = Js.toLowerCase s
    /\ match_path pattern p' = Some vals.
Proof.
  destruct p as [|seg p']; cbn [match_path]; [discriminate|].
  destruct (String.eqb_spec (Js.toLowerCase seg) (Js.toLowerCase s));
    [|discriminate].
  intros H. now exists seg, p'.
Qed.

Lemma match_path_param (pattern : list Segment) (p vals : list string) :
  match_path (param :: pattern) p = Some vals ->
  exists seg p' vals',
    p = seg :: p' /\ seg <> "" /\ vals = seg :: vals'
    /\ match_path pattern p' = Some vals'.
Proof.
  destruct p as [|seg p']; cbn [match_path]; [discriminate|].
  destruct (String.eqb_spec seg ""); [discriminate|].
  destruct (match_path pattern p') as [vals'|] eqn:Hp; [|discriminate].
  cbn [option_map]. intros H. injection H as <-.
  exists seg, p', vals'. repeat split; auto.
Qed.

Lemma decode_one (seg : string) (ps : list string) :
  decode_params [seg] = Some ps ->
  exists c, ps = [c] /\ decode_param seg = Some c.
Proof.
  cbn [decode_params]. destruct (decode_param seg) as [c|]; [|discriminate].
  intros H. injection H as <-. now exists c.
Qed.

Lemma handles_method_inv (m requested : Method) :
  handles_method m requested = true ->
  requested = m \/ (requested = HEAD /\ m = GET).
Proof. destruct m, requested; cbn; intros H; auto; discriminate H. Qed.

(** The handler the router runs is one of the routes, met with a path of
    its shape and a method it handles. *)
Lemma dispatch_cases (P : Task Response -> Prop) (req : Request)
      (rs : list (Method * list Segment
                  * (Request -> list string -> Task Response))) :
  P (Ret (cannot (method req) (path req))) ->
  P (next URIError) ->
  (forall m pattern handler vals ps,
      In (m, pattern, handler) rs ->
      match_path pattern (path req) = Some vals ->
      decode_params vals = Some ps ->
      handles_method m (method req) = true ->
      P (handler req ps)) ->
  P (dispatch rs req).
Proof.
  intros Hcannot Hnext. induction rs as [|[[m pattern] handler] rest IH];
    intros Hroute; cbn [dispatch]; [exact Hcannot|].
  assert (Hrest : P (dispatch rest req)).
  { apply IH. intros m' pattern' handler' vals ps Hin.
    apply Hroute. now right. }
  destruct (match_path pattern (path req)) as [vals|] eqn:Hp;
    [|exact Hrest].
  destruct (decode_params vals) as [ps|] eqn:Hd; [|exact Hnext].
  destruct (handles_method m (method req)) eqn:Hm; [|exact Hrest].
  apply (Hroute m pattern handler vals ps); auto. now left.
Qed.

(** What [app] runs for a request: the answer of cors, Express's 404, the
    error handler, or one of the six handlers, the three that write being
    run only for requests of their kind. *)
Lemma app_cases (P : Task Response -> Prop) (req : Request) :
  P (Ret (send 204 None)) ->
  P (Ret (cannot (method req) (path req))) ->
  P (next URIError) ->
  P health ->
  P listLinks ->
  (forall c, P (getLink c)) ->
  (is_create req -> P (createLink (body req))) ->
  (forall c, is_delete_of c req -> P (deleteLink c)) ->
  (forall c, is_redirect_of c req -> P (redirectLink c)) ->
  P (app req).
Proof.
  intros Hcors Hcannot Hnext Hhealth Hlist Hget Hcreate Hdelete Hredirect.
  unfold app. destruct (method_eqb (method req) OPTIONS); [exact Hcors|].
  apply dispatch_cases; [exact Hcannot | exact Hnext|].
  intros m pattern handler vals ps Hin Hp Hd Hm.
  apply handles_method_inv in Hm.
  cbn [routes In] in Hin.
  destruct Hin as [E|[E|[E|[E|[E|[E|[]]]]]]]; injection E as <- <- <-.
  - exact Hhealth.
  - apply Hcreate.
    apply match_path_lit in Hp. destruct Hp as (a & p1 & Hp0 & Ha & Hp).
    apply match_path_lit in Hp. destruct Hp as (b & p2 & Hp1 & Hb & Hp).
    apply match_path_end in Hp. destruct Hp as [_ Hend].
    split; [destruct Hm as [Hm|[_ Hm]]; [exact Hm | discriminate Hm]|].
    exists a, b. split; [|now split].
    unfold has_path. rewrite Hp0, Hp1.
    destruct Hend as [->| ->]; [now left | now right].
  - exact Hlist.
  - apply Hget.
  - apply match_path_lit in Hp. destruct Hp as (a & p1 & Hp0 & Ha & Hp).
    apply match_path_lit in Hp. destruct Hp as (b & p2 & Hp1 & Hb & Hp).
    apply match_path_param in Hp.
    destruct Hp as (seg & p3 & vals' & Hp2 & _ & -> & Hp).
    apply match_path_end in Hp. destruct Hp as [-> Hend].
    apply decode_one in Hd. destruct Hd as (c & -> & Hc). cbn [nth].
    apply Hdelete.
    split; [destruct Hm as [Hm|[_ Hm]]; [exact Hm | discriminate Hm]|].
    exists a, b, seg. split; [|now repeat split].
    unfold has_path. rewrite Hp0, Hp1, Hp2.
    destruct Hend as [->| ->]; [now left | now right].
  - apply match_path_param in Hp.
    destruct Hp as (seg & p1 & vals' & Hp0 & _ & -> & Hp).
    apply match_path_end in Hp. destruct Hp as [-> Hend].
    apply decode_one in Hd. destruct Hd as (c & -> & Hc). cbn [nth].
    apply Hredirect. split.
    + destruct Hm as [Hm|[Hm _]]; [now left | now right].
    + exists seg. split; [|exact Hc].
      unfold has_path. rewrite Hp0.
      destruct Hend as [->| ->]; [now left | now right].
Qed.

Section Handlers.

Variable req : Request.
Variable w : World.

Lemma Ret_answers (resp : Response) : answers req w (Ret resp).
Proof. split; [eexists; reflexivity | now apply Unchanged]. Qed.

Lemma health_answers : answers req w health.
Proof. split; [eexists; reflexivity | now apply Unchanged]. Qed.

Lemma listLinks_answers : answers req w listLinks.
Proof. split; [eexists; reflexivity | now apply Unchanged]. Qed.

Lemma getLink_answers (c : string) : answers req w (getLink c).
Proof.
  unfold answers. destruct (Pg.is_text c) eqn:Hc;
    [rewrite (run_getLink c w Hc) | rewrite (run_getLink_refused c w Hc)];
    (split; [eexists; reflexivity | now apply Unchanged]).
Qed.

Lemma deleteLink_answers (c : string) :
  is_delete_of c req -> answers req w (deleteLink c).
Proof.
  intros H. unfold answers. destruct (Pg.is_text c) eqn:Hc.
  - rewrite (run_deleteLink c w Hc).
    split; [eexists; reflexivity | now apply (Deleted req w _ c)].
  - rewrite (run_deleteLink_refused c w Hc).
    split; [eexists; reflexivity | now apply Unchanged].
Qed.

Lemma redirectLink_answers (c : string) :
  is_redirect_of c req -> answers req w (redirectLink c).
Proof.
  intros H. unfold answers.
  destruct (Pg.is_text c) eqn:Hc.
  2:{ rewrite (run_redirectLink_refused c w Hc).
      split; [eexists; reflexivity | now apply Unchanged]. }
  destruct (stored c (links w)) as [r|] eqn:Hr.
  - rewrite <- (lookup_text c _ Hc) in Hr.
    rewrite (run_redirectLink_found c w r Hr).
    destruct (Pg.update_where c (clock w) (links w)) as [[t' n]|e] eqn:Hu.
    + split; [eexists; reflexivity|].
      destruct (update_where_inv c (clock w) (links w) t' n Hu)
        as [-> Hall].
      now apply (Clicked req w _ c).
    + split; [eexists; reflexivity | now apply Unchanged].
  - rewrite (run_redirectLink_absent c w Hc Hr).
    split; [eexists; reflexivity | now apply Unchanged].
Qed.

Lemma createLink_answers (b : option Body) :
  is_create req -> answers req w (createLink b).
Proof.
  intros H. unfold answers.
  destruct b as [[l c]|];
    [|split; [eexists; reflexivity | now apply Unchanged]].
  change (Some {| longUrl := l; customCode := c |})
    with (create_body l c).
  destruct (Js.truthy l) eqn:Hl.
  2:{ rewrite (run_createLink_no_url l c w Hl).
      split; [eexists; reflexivity | now apply Unchanged]. }
  destruct (new_URL (Js.str l)) as [u|] eqn:Hu.
  2:{ rewrite (run_createLink_bad_url l c w Hl Hu).
      split; [eexists; reflexivity | now apply Unchanged]. }
  destruct (Js.truthy c) eqn:Hc.
  - rewrite (run_createLink_custom l c u w Hl Hu Hc).
    destruct (Js.test CODE_REGEX (Js.str c)) eqn:Ht; cbn [negb].
    + destruct (taken (Js.str c) (links w)) eqn:Hk.
      * split; [eexists; reflexivity | now apply Unchanged].
      * split; [eexists; reflexivity|].
        now apply (Inserted req w _ (Js.str c) u).
    + split; [eexists; reflexivity | now apply Unchanged].
  - rewrite (run_createLink_random l c u w Hl Hu Hc).
    pose proof (pick_spec 10 (links w) (draws w)) as Hp.
    pose proof (candidates_valid 11 (draws w)) as Hv.
    rewrite Forall_forall in Hv.
    destruct (pick 10 (draws w) (links w)) as [[code pos] checks].
    destruct Hp as (Hin & _ & _ & _).
    destruct (taken code (links w)) eqn:Hk.
    + split; [eexists; reflexivity | now apply Unchanged].
    + split; [eexists; reflexivity|].
      apply (Inserted req w _ code u); auto.
Qed.

End Handlers.

(** Every request is answered, and changes the table in one of the four
    ways of [Effect]. *)
Lemma serve_effect (req : Request) (w : World) :
  (exists resp, fst (serve req w) = Returned resp)
  /\ Effect req w (links (snd (serve req w))).
Proof.
  change (answers req w (app req)).
  apply app_cases.
  - apply Ret_answers.
  - apply Ret_answers.
  - apply Ret_answers.
  - apply health_answers.
  - apply listLinks_answers.
  - apply getLink_answers.
  - apply createLink_answers.
  - apply deleteLink_answers.
  - apply redirectLink_answers.
Qed.

(** *** Invariants of the table *)

Lemma In_taken (r : Pg.Link) (t : Pg.Table) :
  In r t -> taken (Pg.short_code r) t = true.
Proof.
  intros H. unfold taken. apply existsb_exists. exists r.
  split; [exact H|]. apply String.eqb_refl.
Qed.

Lemma taken_codes (c : string) (t : Pg.Table) :
  taken c t = false -> ~ In c (map Pg.short_code t).
Proof.
  intros H Hin. apply in_map_iff in Hin. destruct Hin as [r [<- Hin]].
  apply In_taken in Hin. congruence.
Qed.

Lemma same_code_unique (t : Pg.Table) (r r' : Pg.Link) :
  unique_codes t -> In r t -> In r' t ->
  Pg.short_code r' = Pg.short_code r -> r' = r.
Proof.
  unfold unique_codes. induction t as [|r0 t IH]; intros Hu Hr Hr' Hc;
    [contradiction|].
  cbn [map] in Hu. inversion Hu as [|? ? Hnot Hu']; subst.
  destruct Hr as [<-|Hr], Hr' as [<-|Hr'].
  - reflexivity.
  - exfalso. apply Hnot. rewrite <- Hc. now apply in_map.
  - exfalso. apply Hnot. rewrite Hc. now apply in_map.
  - now apply IH.
Qed.

Lemma unique_filter (p : Pg.Link -> bool) (t : Pg.Table) :
  unique_codes t -> unique_codes (filter p t).
Proof.
  unfold unique_codes. induction t as [|r t IH]; intros Hu; [constructor|].
  cbn [map filter] in *. inversion Hu as [|? ? Hnot Hu']; subst.
  destruct (p r); [|now apply IH].
  cbn [map]. constructor; [|now apply IH].
  intros Hin. apply Hnot. apply in_map_iff in Hin.
  destruct Hin as [r' [Hc Hin]]. apply filter_In in Hin.
  rewrite <- Hc. apply in_map. apply Hin.
Qed.

Lemma legal_effect (req : Request) (w : World) (t' : Pg.Table) :
  legal (links w) -> Effect req w t' -> legal t'.
Proof.
  intros [Hu Hl] [->|c u _ Hk Ht ->|c _ ->|c _ Hrange ->].
  - now split.
  - split.
    + unfold unique_codes. rewrite map_app. cbn [map fresh Pg.short_code].
      apply NoDup_app; [exact Hu | repeat constructor; intros [] |].
      intros a Ha [<-|[]]. revert Ha. now apply taken_codes.
    + apply Forall_app. split; [exact Hl|]. constructor; [|constructor].
      apply test_length in Ht. unfold legal_row, Pg.INT4_MIN, Pg.INT4_MAX.
      cbn. lia.
  - split; [now apply unique_filter|].
    rewrite Forall_forall in *. intros r Hin. apply filter_In in Hin.
    apply Hl, Hin.
  - apply legal_click; [now split|]. intros r Hin Hc.
    specialize (Hrange r Hin Hc). lia.
Qed.

Lemma counted_effect (req : Request) (w : World) (t' : Pg.Table) :
  counted (links w) -> Effect req w t' -> counted t'.
Proof.
  unfold counted. intros Hn [->|c u _ _ _ ->|c _ ->|c _ _ ->].
  - exact Hn.
  - apply Forall_app. split; [exact Hn|]. repeat constructor. cbn. lia.
  - rewrite Forall_forall in *. intros r Hin. apply filter_In in Hin.
    apply Hn, Hin.
  - rewrite Forall_forall in *. intros r' Hin. apply in_map_iff in Hin.
    destruct Hin as [r [<- Hin]]. specialize (Hn r Hin).
    unfold click_if. destruct (Pg.has_code c r); cbn; lia.
Qed.

(** A row and the row of the same code after the request: the same row, or
    the row clicked once by a redirect of its code. *)
Lemma effect_rows (req : Request) (w : World) (t' : Pg.Table) :
  legal (links w) -> Effect req w t' ->
  forall r r', In r (links w) -> In r' t' ->
    Pg.short_code r' = Pg.short_code r ->
    r' = r
    \/ (is_redirect_of (Pg.short_code r) req /\ r' = clicked (clock w) r).
Proof.
  intros [Hu _] [->|c u _ Hk _ ->|c _ ->|c Hreq _ ->] r r' Hr Hr' Hc.
  - left. now apply (same_code_unique (links w)).
  - apply in_app_or in Hr'. destruct Hr' as [Hr'|[<-|[]]].
    + left. now apply (same_code_unique (links w)).
    + cbn in Hc. apply In_taken in Hr. congruence.
  - apply filter_In in Hr'. left.
    now apply (same_code_unique (links w)).
  - apply in_map_iff in Hr'. destruct Hr' as [r0 [<- Hr0]].
    rewrite (proj1 (click_if_code c (clock w) r0)) in Hc.
    rewrite (same_code_unique (links w) r r0 Hu Hr Hr0 Hc).
    unfold click_if. destruct (Pg.has_code c r) eqn:Hcr; [|now left].
    right. apply String.eqb_eq in Hcr. rewrite Hcr. now split.
Qed.

(** A code that was not stored and is after the request was created by
    it, with no click yet. *)
Lemma effect_new_rows (req : Request) (w : World) (t' : Pg.Table) :
  Effect req w t' ->
  forall r', In r' t' ->
    (forall r, In r (links w) -> Pg.short_code r <> Pg.short_code r') ->
    is_create req /\ exists u, r' = fresh (Pg.short_code r') u.
Proof.
  intros [->|c u Hreq _ _ ->|c _ ->|c _ _ ->] r' Hr' Hnew.
  - now contradiction (Hnew r' Hr').
  - apply in_app_or in Hr'. destruct Hr' as [Hr'|[<-|[]]].
    + now contradiction (Hnew r' Hr').
    + split; [exact Hreq|]. now exists u.
  - apply filter_In in Hr'. now contradiction (Hnew r' (proj1 Hr')).
  - apply in_map_iff in Hr'. destruct Hr' as [r0 [<- Hr0]].
    contradiction (Hnew r0 Hr0).
    now rewrite (proj1 (click_if_code c (clock w) r0)).
Qed.

(** A code is no longer stored after the request only when the request
    deleted it. *)
Lemma effect_removed (req : Request) (w : World) (t' : Pg.Table) :
  Effect req w t' ->
  forall r, In r (links w) ->
    (exists r', In r' t' /\ Pg.short_code r' = Pg.short_code r)
    \/ is_delete_of (Pg.short_code r) req.
Proof.
  intros [->|c u _ _ _ ->|c Hreq ->|c _ _ ->] r Hr.
  - left. now exists r.
  - left. exists r. split; [|reflexivity]. apply in_or_app. now left.
  - destruct (Pg.has_code c r) eqn:Hc.
    + right. apply String.eqb_eq in Hc. now rewrite Hc.
    + left. exists r. split; [|reflexivity]. apply filter_In.
      split; [exact Hr|]. now rewrite Hc.
  - left. exists (click_if c (clock w) r). split.
    + now apply in_map.
    + apply click_if_code.
Qed.

(** Served one after the other from any legal table without negative
    counters, requests leave such a table: the hypotheses of the
    properties above hold in every state the service reaches. *)
Lemma serve_all_invariant (reqs : list (Z * Request)) :
  forall w, legal (links w) -> counted (links w) ->
            legal (links (snd (serve_all reqs w)))
            /\ counted (links (snd (serve_all reqs w))).
Proof.
  induction reqs as [|[now req] rest IH]; intros w Hleg Hn; [now split|].
  cbn [serve_all].
  pose proof (serve_effect req (at_time now w)) as [_ He].
  destruct (serve req (at_time now w)) as [o w1]. cbn [snd] in He.
  specialize (IH w1 (legal_effect req (at_time now w) _ Hleg He)
                 (counted_effect req (at_time now w) _ Hn He)).
  destruct (serve_all rest w1) as [os w2]. exact IH.
Qed.

Lemma empty_table_legal : legal [] /\ counted [].
Proof. repeat split; constructor. Qed.

(** C8.  From an empty table, however many requests are served, no
    stored counter is negative.  Whatever the request, a table that
    satisfies its declaration and holds no negative counter is left in such
    a state; the row of a stored code keeps its total_clicks or, under a
    redirect of that code, gains exactly 1; and a code stored by the
    request starts at 0. *)
Theorem clicks_never_decrease :
  (forall (reqs : list (Z * Request)) (w : World),
      links w = [] ->
      legal (links (snd (serve_all reqs w)))
      /\ counted (links (snd (serve_all reqs w))))
  /\ (forall (req : Request) (w : World),
         legal (links w) -> counted (links w) ->
         legal (links (snd (serve req w)))
         /\ counted (links (snd (serve req w)))
         /\ (forall r r',
                In r (links w) -> In r' (links (snd (serve req w))) ->
                Pg.short_code r' = Pg.short_code r ->
                Pg.total_clicks r <= Pg.total_clicks r'
                /\ (Pg.total_clicks r' <> Pg.total_clicks r ->
                    is_redirect_of (Pg.short_code r) req
                    /\ Pg.total_clicks r' = Pg.total_clicks r + 1))
         /\ (forall r',
                In r' (links (snd (serve req w))) ->
                (forall r, In r (links w) ->
                           Pg.short_code r <> Pg.short_code r') ->
                is_create req /\ Pg.total_clicks r' = 0)).
Proof.
  split.
  - intros reqs w Hw. apply serve_all_invariant; rewrite Hw;
      apply empty_table_legal.
  - intros req w Hleg Hn.
    destruct (serve_effect req w) as [_ He].
    split; [now apply (legal_effect req w)|].
    split; [now apply (counted_effect req w)|]. split.
    + intros r r' Hr Hr' Hc.
      destruct (effect_rows req w _ Hleg He r r' Hr Hr' Hc)
        as [->|[Hreq ->]].
      * split; [lia|]. intros H. now contradiction H.
      * cbn [clicked Pg.total_clicks]. split; [lia|]. intros _. now split.
    + intros r' Hr' Hnew.
      destruct (effect_new_rows req w _ He r' Hr' Hnew) as [Hreq [u ->]].
      now split.
Qed.

(** A request is a redirect of one code at most. *)
Lemma redirect_of_one_code (c c' : string) (req : Request) :
  is_redirect_of c req -> is_redirect_of c' req -> c = c'.
Proof.
  intros [_ (seg & Hp & Hc)] [_ (seg' & Hp' & Hc')].
  assert (seg = seg') as <-.
  { destruct Hp as [Hp|Hp], Hp' as [Hp'|Hp']; rewrite Hp in Hp';
      cbn in Hp'; congruence. }
  congruence.
Qed.

(** C9.  Whatever the request, the row of a stored code is afterwards the
    same row, or, under a redirect of that code, the row with total_clicks
    one higher and last_clicked_time set, its code and target_url as they
    were; a code stops being stored only under a delete of that code; and
    a redirect keeps every row of another code as it is. *)
Theorem only_redirect_mutates :
  forall (req : Request) (w : World),
    legal (links w) ->
    (forall r r',
        In r (links w) -> In r' (links (snd (serve req w))) ->
        Pg.short_code r' = Pg.short_code r ->
        Pg.target_url r' = Pg.target_url r
        /\ (r' = r
            \/ (is_redirect_of (Pg.short_code r) req
                /\ r' = clicked (clock w) r)))
    /\ (forall r,
           In r (links w) ->
           (exists r', In r' (links (snd (serve req w)))
                       /\ Pg.short_code r' = Pg.short_code r)
           \/ is_delete_of (Pg.short_code r) req)
    /\ (forall c r,
           is_redirect_of c req -> In r (links w) ->
           Pg.short_code r <> c ->
           In r (links (snd (serve req w)))).
Proof.
  intros req w Hleg.
  destruct (serve_effect req w) as [_ He]. split; [|split].
  - intros r r' Hr Hr' Hc.
    destruct (effect_rows req w _ Hleg He r r' Hr Hr' Hc) as [->|[Hreq ->]].
    + split; [reflexivity | now left].
    + split; [reflexivity | right; now split].
  - now apply effect_removed.
  - intros c r Hreq Hr Hc.
    destruct He as [->|c0 u _ _ _ ->|c0 [Hm0 _] _|c0 Hreq0 _ ->].
    + exact Hr.
    + apply in_or_app. now left.
    + destruct Hreq as [[Hm|Hm] _]; congruence.
    + apply in_map_iff. exists r. split; [|exact Hr].
      unfold click_if. destruct (Pg.has_code c0 r) eqn:H0; [|reflexivity].
      apply String.eqb_eq in H0.
      pose proof (redirect_of_one_code c c0 req Hreq Hreq0). congruence.
Qed.

(** *** Two creates in flight *)

Lemma createLink_custom_task (l c : Js.value) (u : string) :
  Js.truthy l = true -> new_URL (Js.str l) = Some u ->
  Js.truthy c = true -> Js.test CODE_REGEX (Js.str c) = true ->
  createLink (create_body l c) =
  try_catch
    (taken <- codeExists (Js.str c) ;;
     if taken
     then Ret (json 409 (JError "Code already exists"))
     else insertLink (Js.str c) u)
    next.
Proof.
  intros Hl Hu Hc Ht. unfold createLink, create_body.
  cbn [longUrl customCode]. now rewrite Hl, Hu, Hc, Ht.
Qed.

(** The first turn of a create with a custom code: the existence check. *)
Lemma turn_create_check (l c : Js.value) (u : string) (w : World) :
  Js.truthy l = true -> new_URL (Js.str l) = Some u ->
  Js.truthy c = true -> Js.test CODE_REGEX (Js.str c) = true ->
  turn Math_random (createLink (create_body l c)) w =
  (try_catch
     (if taken (Js.str c) (links w)
      then Ret (json 409 (JError "Code already exists"))
      else insertLink (Js.str c) u)
     next,
   queried (links w) w).
Proof.
  intros Hl Hu Hc Ht. rewrite (createLink_custom_task l c u Hl Hu Hc Ht).
  unfold codeExists, Pg.select_one.
  rewrite (with_text_ok _ _ (test_is_text _ Ht)).
  unfold await. cbn [bind try_catch turn].
  rewrite limit_one, taken_stored.
  destruct (stored (Js.str c) (links w)); reflexivity.
Qed.

(** The second turn, when the check found nothing: the INSERT, and the
    error handler when the store refuses it. *)
Lemma turn_create_insert (c u : string) (w : World) :
  Js.test CODE_REGEX c = true ->
  turn Math_random (try_catch (insertLink c u) next) w =
  if taken c (links w)
  then (Ret (json 500 (JError "Internal server error")),
        queried (links w) w)
  else (Ret (json 201 (JCreated (fresh c u) (BASE_URL ++ "/" ++ c)%string)),
        queried (links w ++ [fresh c u]) w).
Proof.
  intros Ht. unfold insertLink, taken, Pg.insert_link.
  rewrite (with_text_ok c _ (test_is_text c Ht)).
  unfold await. cbn [bind try_catch turn].
  replace (8 <? String.length c)%nat with false
    by (symmetry; apply Nat.ltb_ge; apply test_length in Ht; lia).
  destruct (existsb (Pg.has_code c) (links w)); reflexivity.
Qed.

Lemma taken_after_insert (c u : string) (t : Pg.Table) :
  taken c (t ++ [fresh c u]) = true.
Proof.
  unfold taken. rewrite existsb_app. cbn. unfold Pg.has_code. cbn.
  rewrite String.eqb_refl. apply orb_true_r.
Qed.

(** C1 (as amended).  Two creates of the same unused custom code that both
    pass the existence check before either inserts: the first INSERT
    answers 201 and stores the row; the store refuses the second with its
    unique violation, which the handler passes to the error handler, and
    the answer is 500 Internal server error; one row is stored. *)
Theorem race_on_custom_code :
  forall (zero_first : bool) (l0 l1 c : Js.value) (u0 u1 : string)
         (w : World),
    Js.truthy l0 = true -> new_URL (Js.str l0) = Some u0 ->
    Js.truthy l1 = true -> new_URL (Js.str l1) = Some u1 ->
    Js.truthy c = true -> Js.test CODE_REGEX (Js.str c) = true ->
    taken (Js.str c) (links w) = false ->
    let created u :=
      Some (json 201 (JCreated (fresh (Js.str c) u)
                        (BASE_URL ++ "/" ++ Js.str c)%string)) in
    let refused := Some (json 500 (JError "Internal server error")) in
    map answered
        (fst (race zero_first (create_body l0 c) (create_body l1 c) w))
    = (if zero_first then [created u0; refused] else [refused; created u1])
    /\ links (snd (race zero_first (create_body l0 c) (create_body l1 c) w))
       = links w ++ [fresh (Js.str c) (if zero_first then u0 else u1)].
Proof.
  intros zero_first l0 l1 c u0 u1 w Hl0 Hu0 Hl1 Hu1 Hc Ht Hk created refused.
  unfold race, race_schedule.
  cbn [List.app interleave nth_error].
  rewrite (turn_create_check l0 c u0 w Hl0 Hu0 Hc Ht), Hk.
  cbn [update_nth nth_error].
  rewrite (turn_create_check l1 c u1 _ Hl1 Hu1 Hc Ht).
  cbn [links queried]. rewrite Hk. cbn [update_nth].
  destruct zero_first; cbn [interleave nth_error update_nth];
    rewrite turn_create_insert by exact Ht; cbn [links queried];
    rewrite Hk; cbn [update_nth nth_error];
    rewrite turn_create_insert by exact Ht; cbn [links queried];
    rewrite taken_after_insert; cbn [update_nth]; split; reflexivity.
Qed.

(** *** The routes *)

(** The requests that reach each handler of the link service: the path
    may end with a slash, HEAD is served as GET, and the parameter is
    decoded.  A code that reads health in any case is answered by the
    health route, not by the redirect. *)
Lemma create_route (a b : string) (slash : bool) (bd : option Body) :
  Js.toLowerCase a = "api" -> Js.toLowerCase b = "links" ->
  app {| method := POST; path := a :: b :: (if slash then [""] else []);
         body := bd |}
  = createLink bd.
Proof.
  intros Ha Hb. unfold app, routes.
  cbn [dispatch method path body method_eqb match_path].
  rewrite Ha, Hb. destruct slash; reflexivity.
Qed.

Lemma get_route (m : Method) (seg c : string) (slash : bool)
      (bd : option Body) :
  m = GET \/ m = HEAD -> seg <> "" -> decode_param seg = Some c ->
  app {| method := m; path := "api" :: "links" :: seg
                              :: (if slash then [""] else []);
         body := bd |}
  = getLink c.
Proof.
  intros Hm Hseg Hc. apply String.eqb_neq in Hseg. unfold app, routes.
  cbn [dispatch method path body match_path].
  change (Js.toLowerCase "api" =? Js.toLowerCase "health")%string
    with false.
  change (Js.toLowerCase "api" =? Js.toLowerCase "api")%string with true.
  change (Js.toLowerCase "links" =? Js.toLowerCase "links")%string
    with true.
  cbn iota. rewrite Hseg.
  destruct Hm as [-> | ->], slash; cbn; rewrite Hc; reflexivity.
Qed.

Lemma delete_route (seg c : string) (slash : bool) (bd : option Body) :
  seg <> "" -> decode_param seg = Some c ->
  app {| method := DELETE; path := "api" :: "links" :: seg
                                   :: (if slash then [""] else []);
         body := bd |}
  = deleteLink c.
Proof.
  intros Hseg Hc. apply String.eqb_neq in Hseg. unfold app, routes.
  cbn [dispatch method path body match_path].
  change (Js.toLowerCase "api" =? Js.toLowerCase "health")%string
    with false.
  change (Js.toLowerCase "api" =? Js.toLowerCase "api")%string with true.
  change (Js.toLowerCase "links" =? Js.toLowerCase "links")%string
    with true.
  cbn iota. rewrite Hseg.
  destruct slash; cbn; rewrite Hc; reflexivity.
Qed.

Lemma redirect_route (m : Method) (seg c : string) (slash : bool)
      (bd : option Body) :
  m = GET \/ m = HEAD ->
  seg <> "" -> Js.toLowerCase seg <> "health" ->
  decode_param seg = Some c ->
  app {| method := m; path := seg :: (if slash then [""] else []);
         body := bd |}
  = redirectLink c.
Proof.
  intros Hm Hseg Hh Hc. apply String.eqb_neq in Hseg, Hh.
  unfold app, routes.
  cbn [dispatch method path body match_path].
  change (Js.toLowerCase "health") with "health". rewrite Hh, Hseg.
  destruct (Js.toLowerCase seg =? Js.toLowerCase "api")%string;
    destruct Hm as [-> | ->], slash; cbn; rewrite Hc; reflexivity.
Qed.

(** *** The health route *)

Lemma redirectLink_response (c : string) (w : World) :
  exists w',
    run Math_random (redirectLink c) w = (Returned (send 404 (Some "Not found")), w')
    \/ (exists url, run Math_random (redirectLink c) w
                    = (Returned (redirect 302 url), w'))
    \/ run Math_random (redirectLink c) w
       = (Returned (json 500 (JError "Internal server error")), w').
Proof.
  destruct (Pg.is_text c) eqn:Hc.
  2:{ rewrite (run_redirectLink_refused c w Hc). eexists.
      right; right; reflexivity. }
  destruct (stored c (links w)) as [r|] eqn:Hr.
  - rewrite <- (lookup_text c _ Hc) in Hr.
    rewrite (run_redirectLink_found c w r Hr).
    destruct (Pg.update_where c (clock w) (links w)) as [[t' n]|e];
      eexists; [right; left; eexists; reflexivity | right; right; reflexivity].
  - rewrite (run_redirectLink_absent c w Hc Hr). eexists. left. reflexivity.
Qed.

(** C6, at the code.  GET /health is the route that answers 200 with the
    summary; GET /healthz is not registered: it falls through to the
    redirect route with the code healthz, so its answer is never the
    summary, and it is 404 Not found when no link has that code. *)
Theorem healthz_is_a_redirect :
  forall (b : option Body) (w : World),
    let healthz := {| method := GET; path := ["healthz"]; body := b |} in
    let health_req := {| method := GET; path := ["health"]; body := b |} in
    app healthz = redirectLink "healthz"
    /\ (forall h, fst (serve healthz w) <> Returned (json 200 (JHealth h)))
    /\ (taken "healthz" (links w) = false ->
        fst (serve healthz w) = Returned (send 404 (Some "Not found")))
    /\ app health_req = health
    /\ exists h, fst (serve health_req w) = Returned (json 200 (JHealth h))
                 /\ status h = "healthy" /\ version h = "1.0"
                 /\ uptime_seconds h = clock w - process_start
                 /\ total_links h = Z.of_nat (List.length (links w)).
Proof.
  intros b w healthz health_req. split; [reflexivity|]. split; [|split].
  - intros h. unfold serve. change (app healthz) with (redirectLink "healthz").
    destruct (redirectLink_response "healthz" w) as [w' [H|[[url H]|H]]];
      rewrite H; cbn [fst]; discriminate.
  - intros Hk. unfold serve.
    change (app healthz) with (redirectLink "healthz").
    rewrite run_redirectLink_absent; [reflexivity | reflexivity |].
    rewrite taken_stored in Hk.
    destruct (stored "healthz" (links w)); [discriminate | reflexivity].
  - split; [reflexivity|]. eexists. split; [reflexivity|].
    cbn. repeat split.
Qed.

(** ** Further properties of the handlers *)

(** *** formatUptime *)

(** An uptime that is not negative is shown as whole days, hours below
    24, minutes below 60 and seconds below 60, which add up to the uptime
    in whole seconds. *)
Theorem formatUptime_parts :
  forall ms : Z,
    0 <= ms ->
    exists d h m s,
      formatUptime ms
      = (Js.show d ++ "d " ++ Js.show h ++ "h "
           ++ Js.show m ++ "m " ++ Js.show s ++ "s")%string
      /\ 0 <= d /\ 0 <= h < 24 /\ 0 <= m < 60 /\ 0 <= s < 60
      /\ ((d * 24 + h) * 60 + m) * 60 + s = ms / 1000.
Proof.
  clear. intros ms Hms. unfold formatUptime.
  exists (ms / 86400000), (Z.rem ms 86400000 / 3600000),
         (Z.rem ms 3600000 / 60000), (Z.rem ms 60000 / 1000).
  split; [reflexivity|].
  rewrite !Z.rem_mod_nonneg by lia.
  Z.div_mod_to_equations. lia.
Qed.

(** *** Create, and what follows a create *)

(** The four ways a create request ends when it is served alone. *)
Lemma createLink_cases (b : option Body) (w : World) :
  (exists msg,
      run Math_random (createLink b) w
      = (Returned (json 400 (JError msg)), w))
  \/ (exists w',
         run Math_random (createLink b) w
         = (Returned (json 409 (JError "Code already exists")), w')
         /\ links w' = links w /\ draws w' = draws w
         /\ queries w' = S (queries w))
  \/ (exists w',
         run Math_random (createLink b) w
         = (Returned (json 500 (JError
              "Failed to generate unique short_code, try again")), w')
         /\ links w' = links w)
  \/ (exists c u w',
         run Math_random (createLink b) w
         = (Returned (json 201 (JCreated (fresh c u)
                                  (BASE_URL ++ "/" ++ c)%string)), w')
         /\ taken c (links w) = false
         /\ Js.test CODE_REGEX c = true
         /\ new_URL (Js.str (match b with
                             | Some b' => longUrl b'
                             | None => None
                             end)) = Some u
         /\ links w' = links w ++ [fresh c u]
         /\ clock w' = clock w).
Proof.
  destruct b as [[l c]|]; [|left; eexists; reflexivity].
  change (Some {| longUrl := l; customCode := c |}) with (create_body l c).
  destruct (Js.truthy l) eqn:Hl.
  2:{ left. eexists. apply (run_createLink_no_url l c w Hl). }
  destruct (new_URL (Js.str l)) as [u|] eqn:Hu.
  2:{ left. eexists. apply (run_createLink_bad_url l c w Hl Hu). }
  destruct (Js.truthy c) eqn:Hc.
  - rewrite (run_createLink_custom l c u w Hl Hu Hc).
    destruct (Js.test CODE_REGEX (Js.str c)) eqn:Ht; cbn [negb].
    + destruct (taken (Js.str c) (links w)) eqn:Hk.
      * right. left. eexists. split; [reflexivity|]. now repeat split.
      * right. right. right. exists (Js.str c), u. eexists.
        split; [reflexivity|]. now repeat split.
    + left. eexists. reflexivity.
  - rewrite (run_createLink_random l c u w Hl Hu Hc).
    pose proof (pick_spec 10 (links w) (draws w)) as Hp.
    pose proof (candidates_valid 11 (draws w)) as Hv.
    rewrite Forall_forall in Hv.
    destruct (pick 10 (draws w) (links w)) as [[code pos] checks].
    destruct Hp as (Hin & _ & _ & _).
    destruct (taken code (links w)) eqn:Hk.
    + right. right. left. eexists. split; reflexivity.
    + right. right. right. exists code, u. eexists.
      split; [reflexivity|]. repeat split; auto.
Qed.

(** Create answers 201, 400, 409 or 500 and nothing else; a 400 is decided
    before any statement is sent or any random number drawn, a 409 after
    the one existence check; only a 201 changes the table. *)
Theorem create_rejects_before_the_store :
  forall (b : option Body) (w : World),
    exists resp,
      fst (run Math_random (createLink b) w) = Returned resp
      /\ (status_of resp = 201 \/ status_of resp = 400
          \/ status_of resp = 409 \/ status_of resp = 500)
      /\ (status_of resp = 400 ->
          snd (run Math_random (createLink b) w) = w)
      /\ (status_of resp = 409 ->
          draws (snd (run Math_random (createLink b) w)) = draws w
          /\ queries (snd (run Math_random (createLink b) w))
             = S (queries w))
      /\ (status_of resp <> 201 ->
          links (snd (run Math_random (createLink b) w)) = links w).
Proof.
  intros b w.
  destruct (createLink_cases b w)
    as [[msg H]|[(w' & H & Hl & Hd & Hq)|[(w' & H & Hl)
        |(c & u & w' & H & _)]]];
    rewrite H; cbn [fst snd status_of]; eexists;
    (split; [reflexivity|]); cbn [status_of];
    repeat split; auto; try discriminate; try lia;
    intros Hs; try discriminate; try assumption; try now contradiction Hs.
Qed.

Lemma stored_app_fresh (c u : string) (t : Pg.Table) :
  taken c t = false -> stored c (t ++ [fresh c u]) = Some (fresh c u).
Proof.
  unfold taken, stored. induction t as [|r t IH]; intros H.
  - cbn. unfold Pg.has_code. cbn. now rewrite String.eqb_refl.
  - cbn [existsb] in H. apply orb_false_elim in H. destruct H as [H1 H2].
    cbn [List.app find]. rewrite H1. now apply IH.
Qed.

Lemma lookup_app_fresh (c u : string) (t : Pg.Table) :
  Js.test CODE_REGEX c = true -> taken c t = false ->
  lookup c (t ++ [fresh c u]) = Some (fresh c u).
Proof.
  intros Ht Hk. rewrite (lookup_text c _ (test_is_text c Ht)).
  now apply stored_app_fresh.
Qed.

(** A link that Create answered with 201 is what Get of its code returns
    next and is one of the rows the list returns next, which are the new
    row and the rows stored before, in the order the store scans them; it
    has no click and no click time, and the shortUrl of the answer is the
    base address, a slash and its code. *)
Theorem create_then_get_and_list :
  forall (b : option Body) (w w1 : World) (row : Pg.Link) (s : string),
    run Math_random (createLink b) w
    = (Returned (json 201 (JCreated row s)), w1) ->
    fst (run Math_random (getLink (Pg.short_code row)) w1)
    = Returned (json 200 (JLink row))
    /\ (exists rows,
           fst (run Math_random listLinks w1)
           = Returned (json 200 (JLinks rows))
           /\ Permutation rows (row :: links w))
    /\ s = (BASE_URL ++ "/" ++ Pg.short_code row)%string
    /\ Pg.total_clicks row = 0
    /\ Pg.last_clicked_time row = None
    /\ Js.test CODE_REGEX (Pg.short_code row) = true.
Proof.
  intros b w w1 row s Hrun.
  destruct (createLink_cases b w)
    as [[msg H]|[(w' & H & _)|[(w' & H & _)
        |(c & u & w' & H & Hk & Ht & _ & Hl & _)]]];
    rewrite H in Hrun; try discriminate.
  injection Hrun as <- <- <-.
  rewrite run_getLink by (now apply test_is_text).
  cbn [fst fresh Pg.short_code].
  rewrite Hl, (stored_app_fresh c u _ Hk).
  split; [reflexivity|]. split; [|repeat split; assumption].
  eexists. split; [reflexivity|]. cbn [Pg.rows Pg.selected].
  rewrite (Pg.scan_lists_the_rows heap), Hl.
  symmetry. apply Permutation_cons_append.
Qed.

Lemma test_not_empty (c : string) :
  Js.test CODE_REGEX c = true -> c <> "".
Proof.
  intros H. apply test_length in H. intros ->. cbn in H. lia.
Qed.

(** The short URL works: the code of a link that Create answered with 201,
    unless it reads health, is redirected by GET /code to the normalized
    URL, and Get then reports one click at the time of the redirect. *)
Theorem created_link_redirects :
  forall (b bd : option Body) (w w1 : World) (row : Pg.Link) (s : string)
         (now : Z),
    legal (links w) ->
    run Math_random (createLink b) w
    = (Returned (json 201 (JCreated row s)), w1) ->
    Js.toLowerCase (Pg.short_code row) <> "health" ->
    exists w2,
      serve {| method := GET; path := [Pg.short_code row]; body := bd |}
            (at_time now w1)
      = (Returned (redirect 302 (Pg.target_url row)), w2)
      /\ fst (run Math_random (getLink (Pg.short_code row)) w2)
         = Returned (json 200 (JLink (clicked now row)))
      /\ Pg.total_clicks (clicked now row) = 1.
Proof.
  intros b bd w w1 row s now Hleg Hrun Hh.
  destruct (createLink_cases b w)
    as [[msg H]|[(w' & H & _)|[(w' & H & _)
        |(c & u & w' & H & Hk & Ht & _ & Hl & _)]]];
    rewrite H in Hrun; try discriminate.
  injection Hrun as <- <- <-. cbn [fresh Pg.short_code] in *.
  fold (fresh c u) in *.
  assert (Hleg1 : legal (links (at_time now w'))).
  { cbn [links at_time]. rewrite Hl.
    apply (legal_effect {| method := POST; path := ["api"; "links"];
                           body := None |} w); [exact Hleg|].
    apply (Inserted _ w _ c u); auto.
    split; [reflexivity|]. exists "api", "links".
    split; [now left | now split]. }
  assert (Hr1 : lookup c (links (at_time now w')) = Some (fresh c u)).
  { cbn [links at_time]. rewrite Hl. now apply lookup_app_fresh. }
  unfold serve.
  rewrite (redirect_route GET c c false bd (or_introl eq_refl)
             (test_not_empty c Ht) Hh (test_decode_param c Ht)).
  rewrite (redirect_once c (at_time now w') (fresh c u) Hleg1 Hr1)
    by (cbn; unfold Pg.INT4_MAX; lia).
  eexists. split; [reflexivity|]. split; [|reflexivity].
  rewrite run_getLink by (now apply test_is_text).
  cbn [fst links queried clock at_time].
  destruct (legal_redirect_once c (at_time now w') (fresh c u) Hleg1 Hr1)
    as [_ Hr2]; [cbn; unfold Pg.INT4_MAX; lia|].
  cbn [links clock at_time] in Hr2.
  apply lookup_stored in Hr2. now rewrite (proj2 Hr2).
Qed.

(** Creating twice with the same custom code: the second request is
    answered 409 and the table keeps the row of the first. *)
Theorem create_twice_conflicts :
  forall (l l' c : Js.value) (u u' : string) (w : World),
    Js.truthy l = true -> new_URL (Js.str l) = Some u ->
    Js.truthy l' = true -> new_URL (Js.str l') = Some u' ->
    Js.truthy c = true -> Js.test CODE_REGEX (Js.str c) = true ->
    taken (Js.str c) (links w) = false ->
    exists w1 w2,
      run Math_random (createLink (create_body l c)) w
      = (Returned (json 201 (JCreated (fresh (Js.str c) u)
                               (BASE_URL ++ "/" ++ Js.str c)%string)), w1)
      /\ run Math_random (createLink (create_body l' c)) w1
         = (Returned (json 409 (JError "Code already exists")), w2)
      /\ links w2 = links w ++ [fresh (Js.str c) u].
Proof.
  intros l l' c u u' w Hl Hu Hl' Hu' Hc Ht Hk.
  rewrite (run_createLink_custom l c u w Hl Hu Hc), Ht, Hk. cbn [negb].
  do 2 eexists. split; [reflexivity|].
  rewrite (run_createLink_custom l' c u' _ Hl' Hu' Hc), Ht. cbn [negb].
  cbn [links queried moved]. rewrite taken_after_insert.
  split; reflexivity.
Qed.

(** After Delete of a code, whether or not it was stored, a second Delete
    of it is answered 404, and a Create with that code as its custom code
    is answered 201: the code is free again and its link starts at no
    click, whatever the deleted link had counted. *)
Theorem delete_frees_the_code :
  forall (c : string) (l : Js.value) (u : string) (w : World),
    Js.truthy l = true -> new_URL (Js.str l) = Some u ->
    Js.test CODE_REGEX c = true ->
    let w1 := snd (run Math_random (deleteLink c) w) in
    fst (run Math_random (deleteLink c) w1)
    = Returned (json 404 (JError "Not found"))
    /\ exists w2,
        run Math_random (createLink (create_body l (Some c))) w1
        = (Returned (json 201 (JCreated (fresh c u)
                                 (BASE_URL ++ "/" ++ c)%string)), w2)
        /\ lookup c (links w2) = Some (fresh c u).
Proof.
  intros c l u w Hl Hu Ht w1.
  pose proof (test_is_text c Ht) as Htext.
  assert (Hk : taken c (links w1) = false).
  { subst w1. rewrite (run_deleteLink c w Htext). cbn [snd links queried].
    apply taken_filter_same. }
  clearbody w1.
  split.
  - rewrite (run_deleteLink c w1 Htext), Hk. reflexivity.
  - assert (Hc : Js.truthy (Some c) = true).
    { cbn. apply test_not_empty in Ht. apply String.eqb_neq in Ht.
      now rewrite Ht. }
    rewrite (run_createLink_custom l (Some c) u w1 Hl Hu Hc).
    cbn [Js.str]. rewrite Ht, Hk. cbn [negb].
    eexists. split; [reflexivity|].
    cbn [links queried moved]. now apply lookup_app_fresh.
Qed.

(** *** What no request does *)


(** *** The code health *)





(** *** The generic error answer *)

Lemma createLink_fails_cleanly (w : World) (b : option Body) :
  fails_cleanly w (createLink b).
Proof.
  intros H.
  destruct (createLink_cases b w)
    as [[msg E]|[(w' & E & Hl & _)|[(w' & E & Hl)|(c & u & w' & E & _)]]];
    rewrite E in *; cbn [fst snd] in *;
    first [reflexivity | exact Hl | discriminate H].
Qed.

Lemma getLink_fails_cleanly (w : World) (c : string) :
  fails_cleanly w (getLink c).
Proof.
  intros _. destruct (Pg.is_text c) eqn:Hc;
    [rewrite (run_getLink c w Hc) | rewrite (run_getLink_refused c w Hc)];
    reflexivity.
Qed.

Lemma deleteLink_fails_cleanly (w : World) (c : string) :
  fails_cleanly w (deleteLink c).
Proof.
  intros H. destruct (Pg.is_text c) eqn:Hc.
  - rewrite (run_deleteLink c w Hc) in H.
    destruct (taken c (links w)); discriminate H.
  - rewrite (run_deleteLink_refused c w Hc). reflexivity.
Qed.

Lemma redirectLink_fails_cleanly (w : World) (c : string) :
  fails_cleanly w (redirectLink c).
Proof.
  intros H. destruct (Pg.is_text c) eqn:Hc.
  2:{ rewrite (run_redirectLink_refused c w Hc). reflexivity. }
  destruct (stored c (links w)) as [r|] eqn:Hr.
  - rewrite <- (lookup_text c _ Hc) in Hr.
    rewrite (run_redirectLink_found c w r Hr) in *.
    destruct (Pg.update_where c (clock w) (links w)) as [[t' n]|e];
      [discriminate H | reflexivity].
  - rewrite (run_redirectLink_absent c w Hc Hr). reflexivity.
Qed.

(** Served alone, every request is answered: no exception leaves a
    handler and no loop runs for ever.  When the answer is the 500
    Internal server error of the error handler, the table is as it was
    before the request. *)
Theorem internal_error_leaves_the_table :
  forall (req : Request) (w : World),
    (exists resp, fst (serve req w) = Returned resp)
    /\ (fst (serve req w)
        = Returned (json 500 (JError "Internal server error")) ->
        links (snd (serve req w)) = links w).
Proof.
  intros req w. split; [apply serve_effect|].
  change (fails_cleanly w (app req)). apply app_cases.
  - intros _. reflexivity.
  - intros _. reflexivity.
  - intros _. reflexivity.
  - intros _. reflexivity.
  - intros _. reflexivity.
  - apply getLink_fails_cleanly.
  - intros _. apply createLink_fails_cleanly.
  - intros c _. apply deleteLink_fails_cleanly.
  - intros c _. apply redirectLink_fails_cleanly.
Qed.

(** *** Redirects in flight *)

Lemma turn_redirect_select (c : string) (w : World) (r : Pg.Link) :
  lookup c (links w) = Some r ->
  turn Math_random (redirectLink c) w
  = (redirect_pending c (Pg.target_url r), queried (links w) w).
Proof.
  intros H. apply lookup_stored in H. destruct H as [Hc H].
  unfold redirectLink, Pg.select_target. rewrite (with_text_ok c _ Hc).
  unfold await. cbn [bind try_catch turn].
  rewrite limit_one, H. reflexivity.
Qed.

Lemma turn_redirect_update (c url : string) (w : World) :
  Pg.is_text c = true ->
  turn Math_random (redirect_pending c url) w
  = match Pg.update_where c (clock w) (links w) with
    | Pg.Ok (t', _) => (Ret (redirect 302 url), queried t' w)
    | Pg.Err _ => (Ret (json 500 (JError "Internal server error")),
                   queried (links w) w)
    end.
Proof.
  intros Hc. unfold redirect_pending, Pg.update_clicks.
  rewrite (with_text_ok c _ Hc).
  unfold await. cbn [bind try_catch turn].
  destruct (Pg.update_where c (clock w) (links w)) as [[t' n]|e];
    reflexivity.
Qed.

Lemma turn_deleteLink (c : string) (w : World) :
  Pg.is_text c = true ->
  turn Math_random (deleteLink c) w
  = (Ret (if taken c (links w)
          then send 204 None
          else json 404 (JError "Not found")),
     queried (filter (fun r => negb (Pg.has_code c r)) (links w)) w).
Proof.
  intros Hc. unfold deleteLink, Pg.delete_link.
  rewrite (with_text_ok c _ Hc).
  unfold await. cbn [bind try_catch turn].
  unfold Pg.selected. cbn [Pg.rowCount].
  rewrite filter_matches. destruct (taken c (links w)); reflexivity.
Qed.

Lemma update_where_none (c : string) (now : Z) (t : Pg.Table) :
  taken c t = false -> Pg.update_where c now t = Pg.Ok (t, O).
Proof.
  unfold taken. induction t as [|r t IH]; intros H; [reflexivity|].
  cbn [existsb Pg.update_where] in *. apply orb_false_elim in H.
  destruct H as [H1 H2]. now rewrite H1, IH.
Qed.

(** Two redirects of the same code in flight together, in any of the six
    orders their SELECTs and UPDATEs can take: both are answered 302 and
    the counter gains 2; no click is lost. *)
Theorem concurrent_redirects_both_count :
  forall (schedule : list nat) (c : string) (w : World) (r : Pg.Link),
    In schedule two_by_two ->
    legal (links w) ->
    lookup c (links w) = Some r ->
    Pg.total_clicks r + 2 <= Pg.INT4_MAX ->
    map answered
        (fst (interleave Math_random schedule
                [redirectLink c; redirectLink c] w))
    = [Some (redirect 302 (Pg.target_url r));
       Some (redirect 302 (Pg.target_url r))]
    /\ lookup c (links (snd (interleave Math_random schedule
                               [redirectLink c; redirectLink c] w)))
       = Some (clicked_times 2 (clock w) r).
Proof.
  intros schedule c w r Hin Hleg Hr Hmax.
  assert (Hlt : Pg.total_clicks r < Pg.INT4_MAX) by lia.
  destruct (legal_redirect_once c w r Hleg Hr Hlt) as [Hleg1 Hr1].
  assert (Hlt1 : Pg.total_clicks (clicked (clock w) r) < Pg.INT4_MAX)
    by (cbn; lia).
  destruct (lookup_stored c _ _ Hr) as [Htext Hs].
  destruct (lookup_stored c _ _ Hr1) as [_ Hs1].
  assert (Hu0 : exists n, Pg.update_where c (clock w) (links w)
                          = Pg.Ok (map (click_if c (clock w)) (links w), n)).
  { eexists. apply update_where_ok. intros r' Hin' Hc'.
    rewrite (unique_match c _ r r' (proj1 Hleg) Hs Hin' Hc').
    destruct Hleg as [_ Hl]. rewrite Forall_forall in Hl.
    destruct (Hl r (proj1 (lookup_code c _ r Hr))) as [Hrange _].
    unfold Pg.INT4_MIN, Pg.INT4_MAX in *. lia. }
  assert (Hu1 : exists n,
             Pg.update_where c (clock w)
               (map (click_if c (clock w)) (links w))
             = Pg.Ok (map (click_if c (clock w))
                        (map (click_if c (clock w)) (links w)), n)).
  { eexists. apply update_where_ok. intros r' Hin' Hc'.
    rewrite (unique_match c _ _ r' (proj1 Hleg1) Hs1 Hin' Hc').
    destruct Hleg1 as [_ Hl]. rewrite Forall_forall in Hl.
    destruct (Hl _ (proj1 (lookup_code c _ _ Hr1))) as [Hrange _].
    unfold Pg.INT4_MIN, Pg.INT4_MAX in *. cbn in *. lia. }
  destruct Hu0 as [n0 Hu0]. destruct Hu1 as [n1 Hu1].
  assert (Hr2 : lookup c (map (click_if c (clock w))
                            (map (click_if c (clock w)) (links w)))
                = Some (clicked_times 2 (clock w) r)).
  { rewrite lookup_map_click, Hr1. cbn [option_map]. unfold click_if.
    unfold Pg.has_code. cbn [clicked Pg.short_code].
    apply find_some in Hs. destruct Hs as [_ Hc]. unfold Pg.has_code in Hc.
    rewrite Hc. unfold clicked_times, clicked. cbn. f_equal. f_equal. lia. }
  cbn [two_by_two In] in Hin.
  destruct Hin as [<-|[<-|[<-|[<-|[<-|[<-|[]]]]]]];
    repeat (cbn [interleave nth_error update_nth links clock queried];
            first [ rewrite (turn_redirect_select c _ r)
                      by (cbn [links queried]; exact Hr)
                  | rewrite (turn_redirect_select c _ (clicked (clock w) r))
                      by (cbn [links queried]; exact Hr1)
                  | rewrite turn_redirect_update by exact Htext;
                    cbn [links clock queried];
                    first [rewrite Hu0 | rewrite Hu1] ]);
    cbn [interleave map answered fst snd links queried clicked
         Pg.target_url]; split; first [reflexivity | exact Hr2].
Qed.

(** A redirect whose SELECT ran before a Delete of its code: the Delete
    is answered 204, the redirect is still answered 302 to the target it
    read, its UPDATE finds no row, and the code stays deleted. *)
Theorem redirect_of_a_link_deleted_meanwhile :
  forall (c : string) (w : World) (r : Pg.Link),
    lookup c (links w) = Some r ->
    map answered
        (fst (interleave Math_random [0; 1; 0]%nat
                [redirectLink c; deleteLink c] w))
    = [Some (redirect 302 (Pg.target_url r)); Some (send 204 None)]
    /\ links (snd (interleave Math_random [0; 1; 0]%nat
                     [redirectLink c; deleteLink c] w))
       = filter (fun x => negb (Pg.has_code c x)) (links w)
    /\ taken c (links (snd (interleave Math_random [0; 1; 0]%nat
                              [redirectLink c; deleteLink c] w))) = false.
Proof.
  intros c w r Hr.
  destruct (lookup_stored c _ _ Hr) as [Htext Hs].
  assert (Hk : taken c (links w) = true)
    by (rewrite taken_stored, Hs; reflexivity).
  assert (Hgone : taken c (filter (fun x => negb (Pg.has_code c x))
                             (links w)) = false)
    by apply taken_filter_same.
  cbn [interleave nth_error update_nth].
  rewrite (turn_redirect_select c w r Hr).
  cbn [interleave nth_error update_nth].
  rewrite turn_deleteLink by exact Htext. cbn [links queried]. rewrite Hk.
  cbn [interleave nth_error update_nth].
  rewrite turn_redirect_update by exact Htext. cbn [links clock queried].
  rewrite (update_where_none c _ _ Hgone).
  cbn [interleave map answered fst snd links queried update_nth].
  repeat split. exact Hgone.
Qed.

(** *** The dashboard and the server *)

(** Given that the parser refuses the empty string, the dashboard and the
    server agree on what is a valid form: what [handleCreate] posts is
    never answered 400 (it is answered 201, 409 or 500), and what it
    refuses would have been answered 400. *)
Theorem dashboard_and_server_agree :
  new_URL "" = None ->
  forall (l c : string) (w : World),
    exists resp,
      fst (run Math_random
             (createLink (create_body (Some l)
                            (if Js.truthy (Some c) then Some c else None)))
             w)
      = Returned resp
      /\ match handleCreate l c with
         | Posted b =>
             b = create_body (Some l)
                   (if Js.truthy (Some c) then Some c else None)
             /\ (status_of resp = 201 \/ status_of resp = 409
                 \/ status_of resp = 500)
         | Refused _ => status_of resp = 400
         end.
Proof.
  intros Hempty l c w. unfold handleCreate, validUrl.
  destruct (new_URL l) as [u|] eqn:Hu; cbn [negb].
  - assert (Hl : Js.truthy (Some l) = true).
    { cbn. destruct (String.eqb_spec l ""); [subst; congruence|reflexivity]. }
    destruct (Js.truthy (Some c)) eqn:Hc; cbn [andb].
    + rewrite (run_createLink_custom (Some l) (Some c) u w Hl Hu Hc).
      cbn [Js.str].
      destruct (Js.test CODE_REGEX c); cbn [negb].
      * destruct (taken c (links w)); eexists;
          (split; [reflexivity|]); cbn; auto.
      * eexists. split; reflexivity.
    + rewrite (run_createLink_random (Some l) None u w Hl Hu eq_refl).
      destruct (pick 10 (draws w) (links w)) as [[code pos] checks].
      destruct (taken code (links w)); eexists;
        (split; [reflexivity|]); cbn; auto.
  - destruct (Js.truthy (Some l)) eqn:Hl.
    + rewrite (run_createLink_bad_url (Some l) _ w Hl Hu).
      eexists. split; reflexivity.
    + rewrite (run_createLink_no_url (Some l) _ w Hl).
      eexists. split; reflexivity.
Qed.

(** After [handleDelete] the dashboard shows what the server stores,
    without asking again: if the list shown was the server's table when
    the DELETE was served, the list shown next is the server's table
    after it, whether the answer was 204, 404 or 500. *)
Theorem dashboard_delete_stays_in_step :
  forall (c : string) (w w' : World) (answer : Response),
    run Math_random (deleteLink c) w = (Returned answer, w') ->
    handleDelete c (links w) answer = links w'.
Proof.
  intros c w w' answer H. destruct (Pg.is_text c) eqn:Hc.
  - rewrite (run_deleteLink c w Hc) in H.
    injection H as <- <-. cbn [links queried]. unfold handleDelete.
    destruct (taken c (links w)) eqn:Hk; cbn [axios_resolves status_of].
    + reflexivity.
    + cbn. symmetry. now apply filter_absent.
  - rewrite (run_deleteLink_refused c w Hc) in H.
    injection H as <- <-. reflexivity.
Qed.

(** *** The candidate a create stores *)

Lemma pick_first_free (n : nat) (t : Pg.Table) :
  forall pos,
    taken (fst (fst (pick n pos t))) t = false ->
    exists k,
      (k <= n)%nat
      /\ nth_error (candidates (S n) pos) k = Some (fst (fst (pick n pos t)))
      /\ Forall (fun c' => taken c' t = true)
           (firstn k (candidates (S n) pos)).
Proof.
  induction n as [|n IH]; intros pos Hfree.
  - exists O. repeat split; [lia | constructor].
  - change (candidates (S (S n)) pos) with
      (genCode_at pos :: candidates (S n) (genCode_next pos)).
    change (pick (S n) pos t) with
      (if taken (genCode_at pos) t
       then let '(c', pos', checks) := pick n (genCode_next pos) t in
            (c', pos', S checks)
       else (genCode_at pos, genCode_next pos, 1%nat)) in *.
    destruct (taken (genCode_at pos) t) eqn:Ht.
    + specialize (IH (genCode_next pos)).
      destruct (pick n (genCode_next pos) t) as [[c pos'] checks].
      cbn [fst] in *. destruct (IH Hfree) as (k & Hk & Hnth & Hall).
      exists (S k). repeat split; [lia | exact Hnth |].
      cbn [firstn]. constructor; assumption.
    + exists O. repeat split; [lia | constructor].
Qed.

(** Without a custom code, the code of the link created is the first of
    the candidates drawn that is not stored yet: the candidates before it
    are all stored, and it is one of the first 11. *)
Theorem create_stores_the_first_free_candidate :
  forall (l c : Js.value) (u : string) (w w' : World) (row : Pg.Link)
         (s : string),
    Js.truthy l = true -> new_URL (Js.str l) = Some u ->
    Js.truthy c = false ->
    run Math_random (createLink (create_body l c)) w
    = (Returned (json 201 (JCreated row s)), w') ->
    exists k,
      (k < 11)%nat
      /\ nth_error (candidates 11 (draws w)) k = Some (Pg.short_code row)
      /\ Forall (fun c' => taken c' (links w) = true)
           (firstn k (candidates 11 (draws w)))
      /\ taken (Pg.short_code row) (links w) = false.
Proof.
  intros l c u w w' row s Hl Hu Hc Hrun.
  rewrite (run_createLink_random l c u w Hl Hu Hc) in Hrun.
  pose proof (pick_first_free 10 (links w) (draws w)) as Hp.
  destruct (pick 10 (draws w) (links w)) as [[code pos] checks].
  cbn [fst] in Hp.
  destruct (taken code (links w)) eqn:Hk; [discriminate Hrun|].
  injection Hrun as <- _ _. cbn [fresh Pg.short_code].
  destruct (Hp eq_refl) as (k & Hk' & Hnth & Hall).
  exists k. repeat split; [lia | exact Hnth | exact Hall | exact Hk].
Qed.

(** *** The table under requests in flight *)

Lemma orderly_bind {A B} (t : Task A) (f : A -> Task B) :
  orderly t -> (forall a, orderly (f a)) -> orderly (bind t f).
Proof.
  intros Ht Hf. induction Ht; cbn [bind]; try constructor; auto.
Qed.

Lemma orderly_try_catch {A} (t : Task A) (h : Exn -> Task A) :
  orderly t -> (forall e, orderly (h e)) -> orderly (try_catch t h).
Proof.
  intros Ht Hh. induction Ht; cbn [try_catch]; try constructor; auto.
Qed.

Lemma orderly_await {B} (q : Pg.Query B) :
  keeps_table q -> orderly (await q).
Proof.
  intros Hq. apply orderly_Await; [exact Hq|].
  intros [b|e]; constructor.
Qed.

Lemma orderly_first_row {R} (rs : list R) : orderly (first_row rs).
Proof. destruct rs; constructor. Qed.

Lemma with_text_keeps_table {B} (c : string) (q : Pg.Query B) :
  keeps_table q -> keeps_table (Pg.with_text c q).
Proof.
  intros Hq now t Hleg Hn. unfold Pg.with_text.
  destruct (Pg.is_text c); [now apply Hq | exact I].
Qed.

Lemma reads_keep_table :
  keeps_table Pg.select_count
  /\ keeps_table (Pg.select_all heap)
  /\ (forall c, keeps_table (Pg.select_one c))
  /\ (forall c, keeps_table (Pg.select_link c))
  /\ (forall c, keeps_table (Pg.select_target c)).
Proof.
  repeat match goal with |- _ /\ _ => split end;
    intros; try apply with_text_keeps_table;
    intros now t Hleg Hn; cbn; split; assumption.
Qed.

Lemma insert_keeps_table (c u : string) : keeps_table (Pg.insert_link c u).
Proof.
  apply with_text_keeps_table.
  intros now t [Hu Hl] Hn.
  destruct (8 <? String.length c)%nat eqn:Hlen; [exact I|].
  destruct (existsb (Pg.has_code c) t) eqn:Hk; [exact I|].
  apply Nat.ltb_ge in Hlen. repeat split.
  - unfold unique_codes. rewrite map_app. cbn [map Pg.short_code].
    apply NoDup_app; [exact Hu | repeat constructor; intros [] |].
    intros a Ha [<-|[]]. revert Ha. now apply taken_codes.
  - apply Forall_app. split; [exact Hl|]. constructor; [|constructor].
    unfold legal_row, Pg.INT4_MIN, Pg.INT4_MAX. cbn. lia.
  - apply Forall_app. split; [exact Hn|]. repeat constructor. cbn. lia.
Qed.

Lemma delete_keeps_table (c : string) : keeps_table (Pg.delete_link c).
Proof.
  apply with_text_keeps_table.
  intros now t [Hu Hl] Hn. repeat split.
  - now apply unique_filter.
  - rewrite Forall_forall in *. intros r Hin. apply filter_In in Hin.
    apply Hl, Hin.
  - unfold counted in *. rewrite Forall_forall in *. intros r Hin.
    apply filter_In in Hin. apply Hn, Hin.
Qed.

Lemma update_keeps_table (c : string) : keeps_table (Pg.update_clicks c).
Proof.
  apply with_text_keeps_table.
  intros now t Hleg Hn.
  destruct (Pg.update_where c now t) as [[t' n]|e] eqn:Hu; [|exact I].
  destruct (update_where_inv c now t t' n Hu) as [-> Hrange]. split.
  - apply legal_click; [exact Hleg|]. intros r Hin Hc.
    specialize (Hrange r Hin Hc). lia.
  - unfold counted in *. rewrite Forall_forall in *. intros r' Hin.
    apply in_map_iff in Hin. destruct Hin as [r [<- Hin]].
    specialize (Hn r Hin). unfold click_if.
    destruct (Pg.has_code c r); cbn; lia.
Qed.

Lemma orderly_codeExists (c : string) : orderly (codeExists c).
Proof.
  unfold codeExists. apply orderly_bind; [|constructor].
  apply orderly_await, reads_keep_table.
Qed.

Lemma orderly_genCode : orderly genCode.
Proof.
  unfold genCode. constructor. intros r.
  generalize (Z.to_nat (6 + Js.floor_mul r 3)) "".
  induction n as [|n IH]; intros s; cbn [genCode_loop]; [constructor|].
  unfold randInt. cbn [bind]. constructor. intros r'. apply IH.
Qed.

Lemma orderly_generate (fuel : nat) :
  forall attempts, orderly (generate fuel attempts).
Proof.
  induction fuel as [|fuel IH]; intros attempts; rewrite generate_eq;
    (apply orderly_bind; [apply orderly_genCode|]); intros code;
    (destruct (attempts + 1 >? 10); [constructor|]);
    (apply orderly_bind; [apply orderly_codeExists|]);
    intros []; try constructor; apply IH.
Qed.

Lemma orderly_insertLink (c u : string) : orderly (insertLink c u).
Proof.
  unfold insertLink.
  apply orderly_bind; [apply orderly_await, insert_keeps_table|].
  intros r. apply orderly_bind; [apply orderly_first_row | constructor].
Qed.

Lemma orderly_app (req : Request) : orderly (app req).
Proof.
  assert (Hnext : forall e, orderly (next e)) by (intros e; constructor).
  assert (Hhealth : orderly health).
  { unfold health. apply orderly_try_catch; [|intros e; constructor].
    apply orderly_bind; [apply orderly_await, reads_keep_table|].
    intros n. repeat constructor. }
  assert (Hlist : orderly listLinks).
  { unfold listLinks. apply orderly_try_catch; [|exact Hnext].
    apply orderly_bind; [apply orderly_await, reads_keep_table|].
    intros r. constructor. }
  assert (Hget : forall c, orderly (getLink c)).
  { intros c. unfold getLink. apply orderly_try_catch; [|exact Hnext].
    apply orderly_bind; [apply orderly_await, reads_keep_table|].
    intros r. destruct (Pg.rowCount r =? 0)%nat; [constructor|].
    apply orderly_bind; [apply orderly_first_row | constructor]. }
  assert (Hdelete : forall c, orderly (deleteLink c)).
  { intros c. unfold deleteLink. apply orderly_try_catch; [|exact Hnext].
    apply orderly_bind; [apply orderly_await, delete_keeps_table|].
    intros r. destruct (Pg.rowCount r =? 0)%nat; constructor. }
  assert (Hredirect : forall c, orderly (redirectLink c)).
  { intros c. unfold redirectLink. apply orderly_try_catch; [|exact Hnext].
    apply orderly_bind; [apply orderly_await, reads_keep_table|].
    intros r. destruct (Pg.rowCount r =? 0)%nat; [constructor|].
    apply orderly_bind; [apply orderly_first_row|]. intros url.
    apply orderly_bind; [apply orderly_await, update_keeps_table|].
    constructor. }
  assert (Hcreate : forall b, orderly (createLink b)).
  { intros b. unfold createLink. apply orderly_try_catch; [|exact Hnext].
    cbv zeta.
    destruct (negb (Js.truthy _)); [constructor|].
    destruct (new_URL _) as [u|]; [|constructor].
    destruct (Js.truthy _).
    - destruct (negb (Js.test _ _)); [constructor|].
      apply orderly_bind; [apply orderly_codeExists|].
      intros []; [constructor | apply orderly_insertLink].
    - apply orderly_bind; [apply orderly_generate|]. intros code.
      apply orderly_bind; [apply orderly_codeExists|].
      intros []; [constructor | apply orderly_insertLink]. }
  apply app_cases; auto; constructor.
Qed.

Lemma turn_keeps_table {A} (t : Task A) :
  orderly t ->
  forall w, legal (links w) -> counted (links w) ->
            orderly (fst (turn Math_random t w))
            /\ legal (links (snd (turn Math_random t w)))
            /\ counted (links (snd (turn Math_random t w))).
Proof.
  intros Ht. induction Ht as [a|e|k Hk IH|k Hk IH|B q k Hq Hk IH|];
    intros w Hleg Hn; cbn [turn];
    try (split; [constructor | split; assumption]).
  - now apply IH.
  - now apply IH.
  - specialize (Hq (clock w) (links w) Hleg Hn).
    destruct (q (clock w) (links w)) as [[b t']|e]; cbn [fst snd links queried];
      (split; [apply Hk|]); [exact Hq | split; assumption].
Qed.

Lemma update_nth_Forall {X} (P : X -> Prop) (i : nat) (x : X) (l : list X) :
  P x -> Forall P l -> Forall P (update_nth i x l).
Proof.
  intros Hx Hl. revert i. induction Hl as [|y l Hy Hl IH]; intros i.
  - destruct i; cbn [update_nth]; constructor.
  - destruct i; cbn [update_nth]; constructor; auto.
Qed.

Lemma interleave_keeps_table {A} (schedule : list nat) :
  forall (pool : list (Task A)) (w : World),
    Forall orderly pool -> legal (links w) -> counted (links w) ->
    legal (links (snd (interleave Math_random schedule pool w)))
    /\ counted (links (snd (interleave Math_random schedule pool w))).
Proof.
  induction schedule as [|i rest IH]; intros pool w Hp Hleg Hn;
    [now split|].
  cbn [interleave]. destruct (nth_error pool i) as [t|] eqn:Hi;
    [|now apply IH].
  assert (Ht : orderly t).
  { rewrite Forall_forall in Hp. apply Hp. eapply nth_error_In, Hi. }
  destruct (turn_keeps_table t Ht w Hleg Hn) as (Ht' & Hleg' & Hn').
  destruct (turn Math_random t w) as [t' w']. cbn [fst snd] in *.
  apply IH; try assumption. now apply update_nth_Forall.
Qed.

(** However the turns of any requests in flight are ordered, a table that
    satisfies its declaration and holds no negative counter stays so:
    codes stay unique and counters stay within INTEGER and non-negative
    under every interleaving, not only when requests are served one after
    the other. *)
Theorem table_kept_under_any_interleaving :
  forall (reqs : list Request) (schedule : list nat) (w : World),
    legal (links w) -> counted (links w) ->
    legal (links (snd (interleave Math_random schedule (map app reqs) w)))
    /\ counted
         (links (snd (interleave Math_random schedule (map app reqs) w))).
Proof.
  intros reqs schedule w Hleg Hn.
  apply interleave_keeps_table; try assumption.
  apply Forall_forall. intros t Hin. apply in_map_iff in Hin.
  destruct Hin as [req [<- _]]. apply orderly_app.
Qed.

End Server.

(** ** The properties at concrete requests *)

(** Decides [legal] and [counted] for a table written out. *)
Ltac concrete_table :=
  unfold legal, unique_codes, counted, legal_row, Pg.INT4_MIN, Pg.INT4_MAX;
  cbn;
  repeat match goal with
         | |- _ /\ _ => split
         | |- NoDup _ => constructor
         | |- Forall _ _ => constructor
         | |- ~ _ => cbn; intuition discriminate
         | |- (_ <= _)%Z => cbn; lia
         | |- (_ <= _)%nat => cbn; lia
         end.

(** C1, refuted as stated: both requests pass the existence check on an
    empty table; the second INSERT is refused by the store and its request
    is answered 500 Internal server error, not 409. *)
Lemma race_answers_500 :
  map answered
    (fst (race Demo.BASE_URL Demo.new_URL Demo.zeros true
            (create_body (Some "https://a.example/") (Some "abc123"))
            (create_body (Some "https://b.example/") (Some "abc123"))
            (Demo.world [] 5000)))
  = [ Some (json 201 (JCreated (Demo.row "abc123" "https://a.example/" 0 None)
                        "http://localhost:3001/abc123"));
      Some (json 500 (JError "Internal server error")) ]
  /\ Js.test CODE_REGEX "abc123" = true.
Proof. split; vm_compute; reflexivity. Qed.

Lemma race_on_custom_code_witness :
  map answered
    (fst (race Demo.BASE_URL Demo.new_URL Demo.zeros false
            (create_body (Some "https://a.example/") (Some "abc123"))
            (create_body (Some "https://b.example/") (Some "abc123"))
            (Demo.world [] 5000)))
  = [ Some (json 500 (JError "Internal server error"));
      Some (json 201 (JCreated (Demo.row "abc123" "https://b.example/" 0 None)
                        "http://localhost:3001/abc123")) ]
  /\ links (snd (race Demo.BASE_URL Demo.new_URL Demo.zeros false
                   (create_body (Some "https://a.example/") (Some "abc123"))
                   (create_body (Some "https://b.example/") (Some "abc123"))
                   (Demo.world [] 5000)))
     = [Demo.row "abc123" "https://b.example/" 0 None].
Proof.
  exact (race_on_custom_code Demo.BASE_URL Demo.new_URL Demo.zeros false
           (Some "https://a.example/") (Some "https://b.example/")
           (Some "abc123") "https://a.example/" "https://b.example/"
           (Demo.world [] 5000)
           eq_refl eq_refl eq_refl eq_refl eq_refl eq_refl eq_refl).
Defined.

(** C2, refuted as stated: the code is present, its counter is at
    2147483647, and the redirect is answered 500 with the row as it was. *)
Lemma redirect_at_integer_max :
  run Demo.zeros (redirectLink "abc123")
    (Demo.world [Demo.row "abc123" "https://example.com/page"
                   2147483647 (Some 4000)] 5000)
  = (Returned (json 500 (JError "Internal server error")),
     {| links := [Demo.row "abc123" "https://example.com/page"
                    2147483647 (Some 4000)];
        clock := 5000; draws := 0; queries := 2 |}).
Proof. vm_compute. reflexivity. Qed.

Lemma redirect_accounting_witness :
  (exists w',
      run Demo.zeros (redirectLink "abc123")
        (Demo.world [Demo.row "abc123" "https://example.com/page" 0 None]
           5000)
      = (Returned (redirect 302 "https://example.com/page"), w')
      /\ lookup "abc123" (links w')
         = Some (Demo.row "abc123" "https://example.com/page" 1 (Some 5000)))
  /\ (exists w',
         redirect_all Demo.zeros "abc123" [5000; 6000; 7000]
           (Demo.world [Demo.row "abc123" "https://example.com/page" 0 None]
              4000)
         = ([Returned (redirect 302 "https://example.com/page");
             Returned (redirect 302 "https://example.com/page");
             Returned (redirect 302 "https://example.com/page")], w')
         /\ lookup "abc123" (links w')
            = Some (Demo.row "abc123" "https://example.com/page" 3
                      (Some 7000)))
  /\ (exists w',
         run Demo.zeros (redirectLink "nosuch1")
           (Demo.world [Demo.row "abc123" "https://example.com/page" 0 None]
              5000)
         = (Returned (send 404 (Some "Not found")), w')
         /\ links w' = [Demo.row "abc123" "https://example.com/page" 0 None]).
Proof.
  assert (Hleg : forall now,
             legal (links (Demo.world
                 [Demo.row "abc123" "https://example.com/page" 0 None] now)))
    by (intros now; concrete_table).
  split; [|split].
  - destruct (redirect_accounting Demo.zeros "abc123" _ (Hleg 5000))
      as (H & _ & _).
    destruct (H (Demo.row "abc123" "https://example.com/page" 0 None)
                eq_refl ltac:(vm_compute; reflexivity))
      as (w' & Hrun & _ & Hl & _).
    exists w'. split; assumption.
  - destruct (redirect_accounting Demo.zeros "abc123" _ (Hleg 4000))
      as (_ & H & _).
    destruct (H (Demo.row "abc123" "https://example.com/page" 0 None)
                [5000; 6000; 7000] eq_refl ltac:(discriminate)
                ltac:(vm_compute; discriminate))
      as (w' & Hrun & Hl).
    exists w'. split; assumption.
  - destruct (redirect_accounting Demo.zeros "nosuch1" _ (Hleg 5000))
      as (_ & _ & H).
    exact (H eq_refl).
Defined.

(** C3, refuted as stated: the URL parses and no custom code is supplied,
    yet every code the generator draws is stored already and the answer
    is 500. *)
Lemma create_exhausted :
  run Demo.zeros
    (createLink Demo.BASE_URL Demo.new_URL
       (create_body (Some "https://example.com/page") None))
    (Demo.world [Demo.row "AAAAAA" "https://example.com/" 0 None] 5000)
  = (Returned (json 500
       (JError "Failed to generate unique short_code, try again")),
     {| links := [Demo.row "AAAAAA" "https://example.com/" 0 None];
        clock := 5000; draws := 77; queries := 11 |}).
Proof. vm_compute. reflexivity. Qed.

Lemma create_valid_url_witness :
  (exists resp w',
      run Demo.zeros_then_halves
        (createLink Demo.BASE_URL Demo.new_URL
           (create_body (Some "https://example.com/page") None))
        (Demo.world [Demo.row "AAAAAA" "https://example.com/" 0 None] 5000)
      = (Returned resp, w')
      /\ (status_of resp = 201 \/ status_of resp = 500))
  /\ (exists msg,
         run Demo.zeros
           (createLink Demo.BASE_URL Demo.new_URL
              (create_body (Some "not-a-url") None))
           (Demo.world [] 5000)
         = (Returned (json 400 (JError msg)), Demo.world [] 5000)).
Proof.
  split.
  - destruct (proj1 (create_valid_url Demo.BASE_URL Demo.new_URL
                       Demo.zeros_then_halves)
                (Some "https://example.com/page") None
                "https://example.com/page"
                (Demo.world [Demo.row "AAAAAA" "https://example.com/" 0 None]
                   5000)
                eq_refl eq_refl (or_introl eq_refl))
      as (resp & w' & Hrun & [(code & -> & _)|(_ & -> & _)]);
      do 2 eexists; (split; [exact Hrun|]); [left | right]; reflexivity.
  - exact (proj2 (create_valid_url Demo.BASE_URL Demo.new_URL Demo.zeros)
             (Some "not-a-url") None (Demo.world [] 5000)
             (or_intror (conj eq_refl eq_refl))).
Defined.

(** C4, refuted as stated: the custom code supplied is the empty string,
    which does not match the pattern, yet the answer is 201 and a row is
    written. *)
Lemma create_empty_custom_code :
  run Demo.zeros
    (createLink Demo.BASE_URL Demo.new_URL
       (create_body (Some "https://example.com/page") (Some "")))
    (Demo.world [] 5000)
  = (Returned (json 201
       (JCreated (Demo.row "AAAAAA" "https://example.com/page" 0 None)
          "http://localhost:3001/AAAAAA")),
     {| links := [Demo.row "AAAAAA" "https://example.com/page" 0 None];
        clock := 5000; draws := 7; queries := 3 |})
  /\ Js.test CODE_REGEX "" = false.
Proof. split; vm_compute; reflexivity. Qed.

Lemma custom_code_rejected_witness :
  (exists msg,
      run Demo.zeros
        (createLink Demo.BASE_URL Demo.new_URL
           (create_body (Some "https://example.com/page") (Some "ab-12")))
        (Demo.world [] 5000)
      = (Returned (json 400 (JError msg)), Demo.world [] 5000))
  /\ (exists w',
         run Demo.zeros
           (createLink Demo.BASE_URL Demo.new_URL
              (create_body (Some "https://example.com/page")
                 (Some "abc123")))
           (Demo.world [Demo.row "abc123" "https://example.com/" 0 None]
              5000)
         = (Returned (json 409 (JError "Code already exists")), w')
         /\ links w' = [Demo.row "abc123" "https://example.com/" 0 None]).
Proof.
  split.
  - destruct (proj1 (custom_code_rejected Demo.BASE_URL Demo.new_URL
                       Demo.zeros)
                (Some "https://example.com/page") (Some "ab-12")
                (Demo.world [] 5000) eq_refl eq_refl)
      as (msg & Hrun & _).
    exists msg. exact Hrun.
  - exact (proj2 (custom_code_rejected Demo.BASE_URL Demo.new_URL Demo.zeros)
             (Some "https://example.com/page") (Some "abc123")
             "https://example.com/page"
             (Demo.world [Demo.row "abc123" "https://example.com/" 0 None]
                5000)
             eq_refl eq_refl eq_refl eq_refl eq_refl).
Defined.

Lemma generation_is_bounded_witness :
  exists resp w',
    run Demo.zeros
      (createLink Demo.BASE_URL Demo.new_URL
         (create_body (Some "https://example.com/page") None))
      (Demo.world [Demo.row "AAAAAA" "https://example.com/" 0 None] 5000)
    = (Returned resp, w')
    /\ (draws w' <= 99)%nat /\ (queries w' <= 12)%nat.
Proof.
  destruct (generation_is_bounded Demo.BASE_URL Demo.new_URL Demo.zeros
              (Some "https://example.com/page") None
              "https://example.com/page"
              (Demo.world [Demo.row "AAAAAA" "https://example.com/" 0 None]
                 5000)
              eq_refl eq_refl eq_refl)
    as (resp & w' & Hrun & Hd & Hq & _).
  exists resp, w'. repeat split; assumption.
Defined.

(** The redirect at concrete requests.  GET /abc123/, HEAD /abc123 and
    GET /%61bc123 are redirects of abc123 like GET /abc123: each is
    answered 302 and counts a click.  GET /%00 asks for the code made of
    one NUL character, which the store refuses: the answer is 500, and so
    is the answer to a parameter that does not decode.  OPTIONS is
    answered by cors, and a method or a path no route names by Express's
    own 404. *)
Lemma redirect_requests :
  let abc := Demo.row "abc123" "https://example.com/page" 0 None in
  let answer m p :=
    serve Demo.BASE_URL Demo.new_URL 1000 "linux" 42
      Demo.newest_first Demo.decodeURIComponent Demo.zeros
      {| method := m; path := p; body := None |} (Demo.world [abc] 5000) in
  let clicked :=
    (Returned (redirect 302 "https://example.com/page"),
     {| links := [Demo.row "abc123" "https://example.com/page" 1
                    (Some 5000)];
        clock := 5000; draws := 0; queries := 2 |}) in
  let refused :=
    (Returned (json 500 (JError "Internal server error")),
     {| links := [abc]; clock := 5000; draws := 0; queries := 1 |}) in
  answer GET ["abc123"] = clicked
  /\ answer GET ["abc123"; ""] = clicked
  /\ answer HEAD ["abc123"] = clicked
  /\ answer GET ["%61bc123"] = clicked
  /\ answer GET ["%00"] = refused
  /\ answer GET ["api"; "links"; "%00"] = refused
  /\ fst (answer GET ["%zz"])
     = Returned (json 500 (JError "Internal server error"))
  /\ fst (answer DELETE ["%zz"])
     = Returned (json 500 (JError "Internal server error"))
  /\ fst (answer OPTIONS ["api"; "links"]) = Returned (send 204 None)
  /\ fst (answer PUT ["abc123"]) = Returned (cannot PUT ["abc123"])
  /\ fst (answer GET ["abc123"; ""; ""])
     = Returned (cannot GET ["abc123"; ""; ""])
  /\ fst (answer GET [""]) = Returned (cannot GET [""]).
Proof. cbv zeta. repeat split; vm_compute; reflexivity. Qed.

(** C6 at the failing request: GET /healthz on an empty table. *)
Lemma healthz_not_found :
  fst (serve Demo.BASE_URL Demo.new_URL 1000 "linux" 42
         Demo.newest_first Demo.decodeURIComponent Demo.zeros
         {| method := GET; path := ["healthz"]; body := None |}
         (Demo.world [] 5000))
  = Returned (send 404 (Some "Not found")).
Proof.
  destruct (healthz_is_a_redirect Demo.BASE_URL Demo.new_URL 1000 "linux" 42
              Demo.newest_first Demo.decodeURIComponent Demo.zeros None
              (Demo.world [] 5000))
    as (_ & _ & H & _).
  exact (H eq_refl).
Defined.

(** C7, refuted as stated: no link has the code made of one NUL
    character, yet Delete of it is answered 500 Internal server error,
    not 404; so is the request DELETE /api/links/%00 that carries it. *)
Lemma delete_of_a_refused_code :
  run Demo.zeros (deleteLink (String Ascii.zero "")) (Demo.world [] 5000)
  = (Returned (json 500 (JError "Internal server error")),
     {| links := []; clock := 5000; draws := 0; queries := 1 |})
  /\ taken (String Ascii.zero "") [] = false
  /\ fst (serve Demo.BASE_URL Demo.new_URL 1000 "linux" 42
            Demo.newest_first Demo.decodeURIComponent Demo.zeros
            {| method := DELETE; path := ["api"; "links"; "%00"];
               body := None |}
            (Demo.world [] 5000))
     = Returned (json 500 (JError "Internal server error")).
Proof. repeat split; vm_compute; reflexivity. Qed.

Lemma delete_then_get_witness :
  (exists w',
      run Demo.zeros (deleteLink "abc123")
        (Demo.world [Demo.row "abc123" "https://example.com/page" 2
                       (Some 4000)] 5000)
      = (Returned (send 204 None), w')
      /\ links w' = []
      /\ fst (run Demo.zeros (getLink "abc123") w')
         = Returned (json 404 (JError "Not found")))
  /\ (exists w',
         run Demo.zeros (deleteLink "abc123") (Demo.world [] 5000)
         = (Returned (json 404 (JError "Not found")), w')
         /\ links w' = [])
  /\ (exists w',
         run Demo.zeros (deleteLink (String Ascii.zero ""))
           (Demo.world [] 5000)
         = (Returned (json 500 (JError "Internal server error")), w')
         /\ links w' = []).
Proof.
  split; [|split].
  - destruct (proj1 (delete_then_get Demo.zeros "abc123"
                       (Demo.world [Demo.row "abc123"
                          "https://example.com/page" 2 (Some 4000)] 5000))
                eq_refl eq_refl)
      as (w' & Hrun & Hl & _ & _ & Hget).
    exists w'. repeat split; assumption.
  - exact (proj1 (proj2 (delete_then_get Demo.zeros "abc123"
                           (Demo.world [] 5000)))
             eq_refl eq_refl).
  - destruct (proj2 (proj2 (delete_then_get Demo.zeros
                              (String Ascii.zero "")
                              (Demo.world [] 5000)))
                eq_refl)
      as (w' & Hrun & Hl & _).
    exists w'. split; assumption.
Defined.

Lemma clicks_never_decrease_witness :
  counted (links (snd (serve_all Demo.BASE_URL Demo.new_URL 1000 "linux" 42
                         Demo.newest_first Demo.decodeURIComponent Demo.zeros
                         [(5000, {| method := POST; path := ["api"; "links"];
                                    body := create_body
                                              (Some "https://example.com/page")
                                              (Some "abc123") |});
                          (6000, {| method := GET; path := ["abc123"];
                                    body := None |})]
                         (Demo.world [] 4000))))
  /\ counted (links (snd (serve Demo.BASE_URL Demo.new_URL 1000 "linux" 42
                            Demo.newest_first Demo.decodeURIComponent Demo.zeros
                            {| method := GET; path := ["abc123"];
                               body := None |}
                            (Demo.world [Demo.row "abc123"
                               "https://example.com/page" 2 (Some 4000)]
                               5000))))
  /\ Pg.total_clicks
       (Demo.row "abc123" "https://example.com/page" 2 (Some 4000))
     <= Pg.total_clicks
          (Demo.row "abc123" "https://example.com/page" 3 (Some 5000)).
Proof.
  destruct (clicks_never_decrease Demo.BASE_URL Demo.new_URL 1000 "linux" 42
              Demo.newest_first Demo.decodeURIComponent Demo.zeros)
    as [Hall Hstep].
  split; [exact (proj2 (Hall _ (Demo.world [] 4000) eq_refl))|].
  destruct (Hstep {| method := GET; path := ["abc123"]; body := None |}
              (Demo.world [Demo.row "abc123" "https://example.com/page" 2
                             (Some 4000)] 5000)
              ltac:(concrete_table) ltac:(concrete_table))
    as (_ & Hn & Hmono & _).
  split; [exact Hn|].
  exact (proj1 (Hmono
           (Demo.row "abc123" "https://example.com/page" 2 (Some 4000))
           (Demo.row "abc123" "https://example.com/page" 3 (Some 5000))
           (or_introl eq_refl) (or_introl eq_refl) eq_refl)).
Defined.

Lemma only_redirect_mutates_witness :
  Pg.target_url (Demo.row "abc123" "https://example.com/page" 3 (Some 5000))
  = "https://example.com/page"
  /\ In (Demo.row "other12" "https://example.org/" 7 None)
        (links (snd (serve Demo.BASE_URL Demo.new_URL 1000 "linux" 42
                       Demo.newest_first Demo.decodeURIComponent Demo.zeros
                       {| method := GET; path := ["abc123"]; body := None |}
                       (Demo.world
                          [Demo.row "abc123" "https://example.com/page" 2
                             (Some 4000);
                           Demo.row "other12" "https://example.org/" 7 None]
                          5000)))).
Proof.
  destruct (only_redirect_mutates Demo.BASE_URL Demo.new_URL 1000 "linux" 42
              Demo.newest_first Demo.decodeURIComponent Demo.zeros
              {| method := GET; path := ["abc123"]; body := None |}
              (Demo.world
                 [Demo.row "abc123" "https://example.com/page" 2 (Some 4000);
                  Demo.row "other12" "https://example.org/" 7 None] 5000)
              ltac:(concrete_table))
    as (Hrow & _ & Hframe).
  split.
  - exact (proj1 (Hrow
             (Demo.row "abc123" "https://example.com/page" 2 (Some 4000))
             (Demo.row "abc123" "https://example.com/page" 3 (Some 5000))
             (or_introl eq_refl) (or_introl eq_refl) eq_refl)).
  - apply (Hframe "abc123").
    + split; [now left|]. exists "abc123". split; [now left | reflexivity].
    + right. left. reflexivity.
    + discriminate.
Defined.

Lemma empty_custom_code_is_none_witness :
  run Demo.zeros
    (createLink Demo.BASE_URL Demo.new_URL
       (create_body (Some "https://example.com/page") (Some "")))
    (Demo.world [] 5000)
  = run Demo.zeros
      (createLink Demo.BASE_URL Demo.new_URL
         (create_body (Some "https://example.com/page") None))
      (Demo.world [] 5000).
Proof.
  exact (proj1 (empty_custom_code_is_none Demo.BASE_URL Demo.new_URL
                  Demo.zeros (Some "https://example.com/page")
                  (Demo.world [] 5000))).
Defined.

(** ** The codes genCode can return *)

(** Every index below [n] is the floor of some value of [Math.random]
    times [n]. *)
Lemma floor_mul_onto (n i : Z) :
  0 <= i < n -> n <= 2 ^ 53 -> exists r, Js.floor_mul r n = i.
Proof.
  intros Hi Hn.
  set (m := (i * 2 ^ 53 + n - 1) / n).
  assert (Hm : i * 2 ^ 53 <= m * n < i * 2 ^ 53 + n).
  { subst m. pose proof (Z.div_mod (i * 2 ^ 53 + n - 1) n ltac:(lia)) as Hd.
    pose proof (Z.mod_pos_bound (i * 2 ^ 53 + n - 1) n ltac:(lia)) as Hb.
    nia. }
  assert (Hrange : (0 <=? m) && (m <? 2 ^ 53) = true).
  { apply andb_true_intro. split.
    - apply Z.leb_le. subst m. apply Z.div_pos; nia.
    - apply Z.ltb_lt. nia. }
  exists {| Js.mantissa := m; Js.mantissa_range := Hrange |}.
  apply floor_mul_share. cbn [Js.mantissa]. nia.
Qed.

(** Every character of the class of CODE_REGEX is a character of CHARS. *)
Lemma CHARS_complete (ch : ascii) :
  Js.in_class (Js.cls CODE_REGEX) ch = true ->
  exists i, 0 <= i < 62 /\ Js.char_at CHARS i = Some ch.
Proof.
  intros H.
  assert (Hex : existsb (fun n => match String.get n CHARS with
                                  | Some x => Ascii.eqb x ch
                                  | None => false
                                  end) (seq 0 62) = true).
  { revert H. destruct ch as [[] [] [] [] [] [] [] []]; vm_compute;
      intros H; first [reflexivity | discriminate H]. }
  apply existsb_exists in Hex. destruct Hex as [n [Hin Hn]].
  apply in_seq in Hin. exists (Z.of_nat n). split; [lia|].
  unfold Js.char_at.
  replace (Z.of_nat n <? 0) with false by (symmetry; apply Z.ltb_ge; lia).
  rewrite Nat2Z.id. destruct (String.get n CHARS) as [x|]; [|discriminate].
  apply Ascii.eqb_eq in Hn. now subst.
Qed.

Lemma append_char_assoc (s rest : string) (ch : ascii) :
  ((s ++ String ch "") ++ rest = s ++ String ch rest)%string.
Proof. induction s as [|a s IH]; cbn; [reflexivity | now rewrite IH]. Qed.

Lemma append_empty (s : string) : (s ++ "" = s)%string.
Proof. induction s as [|a s IH]; cbn; [reflexivity | now rewrite IH]. Qed.

(** Random numbers that make the loop of [genCode] write a given string of
    characters of the class. *)
Lemma genCode_chars_onto (code : string) :
  Js.all_chars (Js.in_class (Js.cls CODE_REGEX)) code = true ->
  forall p, exists f : nat -> Js.unit_double,
    forall (g : nat -> Js.unit_double) (s : string),
      (forall q, (p <= q)%nat -> g q = f q) ->
      genCode_chars g (String.length code) p s = (s ++ code)%string.
Proof.
  induction code as [|ch rest IH]; intros Hall p.
  - exists Demo.zeros. intros g s _. cbn. now rewrite append_empty.
  - cbn [Js.all_chars] in Hall. apply andb_prop in Hall.
    destruct Hall as [Hch Hrest].
    destruct (CHARS_complete ch Hch) as (i & Hi & Hget).
    destruct (floor_mul_onto 62 i Hi ltac:(lia)) as [r Hr].
    destruct (IH Hrest (S p)) as [f Hf].
    exists (fun q => if (q =? p)%nat then r else f q).
    intros g s Hg. cbn [String.length genCode_chars].
    change (Z.of_nat (String.length CHARS)) with 62.
    rewrite (Hg p (le_n p)), Nat.eqb_refl, Hr, Hget.
    cbn [Js.append_char]. rewrite (Hf g).
    + apply append_char_assoc.
    + intros q Hq. rewrite (Hg q) by lia.
      replace (q =? p)%nat with false
        by (symmetry; apply Nat.eqb_neq; lia).
      reflexivity.
Qed.

(** The strings [genCode] can return are exactly those that match
    CODE_REGEX: whatever [Math.random] returns the result matches, and
    every matching string is the result for some values of
    [Math.random]. *)
Theorem genCode_returns_exactly_the_pattern :
  forall (c : string) (w : World),
    Js.test CODE_REGEX c = true
    <-> exists Math_random, fst (run Math_random genCode w) = Returned c.
Proof.
  intros c w. split.
  - intros Ht. pose proof (test_length c Ht) as Hlen.
    unfold Js.test in Ht. apply andb_prop in Ht. destruct Ht as [_ Hall].
    destruct (floor_mul_onto 3 (Z.of_nat (String.length c) - 6)
                ltac:(lia) ltac:(lia)) as [r Hr].
    destruct (genCode_chars_onto c Hall (S (draws w))) as [f Hf].
    exists (fun q => if (q =? draws w)%nat then r else f q).
    rewrite run_genCode. cbn [fst]. f_equal.
    unfold genCode_at, genCode_length. rewrite Nat.eqb_refl, Hr.
    replace (Z.to_nat (6 + (Z.of_nat (String.length c) - 6)))
      with (String.length c) by lia.
    rewrite Hf; [reflexivity|].
    intros q Hq. replace (q =? draws w)%nat with false
      by (symmetry; apply Nat.eqb_neq; lia).
    reflexivity.
  - intros [Math_random H]. rewrite run_genCode in H. cbn [fst] in H.
    injection H as <-. apply genCode_at_valid.
Qed.

(** ** The further properties at concrete requests *)

Lemma formatUptime_parts_witness :
  exists d h m s,
    formatUptime 90064000
    = (Js.show d ++ "d " ++ Js.show h ++ "h "
         ++ Js.show m ++ "m " ++ Js.show s ++ "s")%string
    /\ 0 <= d /\ 0 <= h < 24 /\ 0 <= m < 60 /\ 0 <= s < 60
    /\ ((d * 24 + h) * 60 + m) * 60 + s = 90064000 / 1000.
Proof. exact (formatUptime_parts 90064000 ltac:(lia)). Defined.

Lemma create_then_get_and_list_witness :
  fst (run Demo.zeros (getLink "AAAAAA")
         {| links := [Demo.row "abc123" "https://example.org/" 4 (Some 100);
                      Demo.row "AAAAAA" "https://example.com/page" 0 None];
            clock := 5000; draws := 7; queries := 3 |})
  = Returned (json 200
                (JLink (Demo.row "AAAAAA" "https://example.com/page" 0 None)))
  /\ exists rows,
      fst (run Demo.zeros (listLinks Demo.newest_first)
             {| links := [Demo.row "abc123" "https://example.org/" 4
                            (Some 100);
                          Demo.row "AAAAAA" "https://example.com/page" 0
                            None];
                clock := 5000; draws := 7; queries := 3 |})
      = Returned (json 200 (JLinks rows))
      /\ Permutation rows
           [Demo.row "AAAAAA" "https://example.com/page" 0 None;
            Demo.row "abc123" "https://example.org/" 4 (Some 100)].
Proof.
  destruct (create_then_get_and_list Demo.BASE_URL Demo.new_URL
              Demo.newest_first Demo.zeros
              (create_body (Some "https://example.com/page") None)
              (Demo.world [Demo.row "abc123" "https://example.org/" 4
                             (Some 100)] 5000)
              _ _ _ eq_refl)
    as (Hget & Hlist & _).
  split; [exact Hget | exact Hlist].
Defined.

Lemma created_link_redirects_witness :
  exists w2,
    serve Demo.BASE_URL Demo.new_URL 1000 "linux" 42
      Demo.newest_first Demo.decodeURIComponent Demo.zeros
      {| method := GET; path := ["abc123"]; body := None |}
      {| links := [Demo.row "abc123" "https://example.com/page" 0 None];
         clock := 6000; draws := 0; queries := 2 |}
    = (Returned (redirect 302 "https://example.com/page"), w2)
    /\ fst (run Demo.zeros (getLink "abc123") w2)
       = Returned (json 200 (JLink (Demo.row "abc123"
                    "https://example.com/page" 1 (Some 6000)))).
Proof.
  destruct (created_link_redirects Demo.BASE_URL Demo.new_URL 1000 "linux" 42
              Demo.newest_first Demo.decodeURIComponent Demo.zeros
              (create_body (Some "https://example.com/page") (Some "abc123"))
              None (Demo.world [] 5000) _ _ _ 6000
              ltac:(concrete_table) eq_refl ltac:(discriminate))
    as (w2 & Hserve & Hget & _).
  exists w2. split; [exact Hserve | exact Hget].
Defined.

Lemma create_twice_conflicts_witness :
  exists w1 w2,
    run Demo.zeros
      (createLink Demo.BASE_URL Demo.new_URL
         (create_body (Some "https://a.example/") (Some "abc123")))
      (Demo.world [] 5000)
    = (Returned (json 201 (JCreated
         (Demo.row "abc123" "https://a.example/" 0 None)
         "http://localhost:3001/abc123")), w1)
    /\ run Demo.zeros
         (createLink Demo.BASE_URL Demo.new_URL
            (create_body (Some "https://b.example/") (Some "abc123")))
         w1
       = (Returned (json 409 (JError "Code already exists")), w2)
    /\ links w2 = [Demo.row "abc123" "https://a.example/" 0 None].
Proof.
  exact (create_twice_conflicts Demo.BASE_URL Demo.new_URL Demo.zeros
           (Some "https://a.example/") (Some "https://b.example/")
           (Some "abc123") "https://a.example/" "https://b.example/"
           (Demo.world [] 5000)
           eq_refl eq_refl eq_refl eq_refl eq_refl eq_refl eq_refl).
Defined.

Lemma delete_frees_the_code_witness :
  fst (run Demo.zeros (deleteLink "abc123")
         (snd (run Demo.zeros (deleteLink "abc123")
                 (Demo.world [Demo.row "abc123" "https://example.org/" 4
                                (Some 100)] 5000))))
  = Returned (json 404 (JError "Not found"))
  /\ exists w2,
      run Demo.zeros
        (createLink Demo.BASE_URL Demo.new_URL
           (create_body (Some "https://example.com/page") (Some "abc123")))
        (snd (run Demo.zeros (deleteLink "abc123")
                (Demo.world [Demo.row "abc123" "https://example.org/" 4
                               (Some 100)] 5000)))
      = (Returned (json 201 (JCreated
           (Demo.row "abc123" "https://example.com/page" 0 None)
           "http://localhost:3001/abc123")), w2)
      /\ lookup "abc123" (links w2)
         = Some (Demo.row "abc123" "https://example.com/page" 0 None).
Proof.
  exact (delete_frees_the_code Demo.BASE_URL Demo.new_URL Demo.zeros
           "abc123" (Some "https://example.com/page")
           "https://example.com/page"
           (Demo.world [Demo.row "abc123" "https://example.org/" 4
                          (Some 100)] 5000)
           eq_refl eq_refl eq_refl).
Defined.



Lemma concurrent_redirects_both_count_witness :
  map answered
      (fst (interleave Demo.zeros [0; 1; 0; 1]%nat
              [redirectLink "abc123"; redirectLink "abc123"]
              (Demo.world [Demo.row "abc123" "https://example.org/" 5
                             (Some 100)] 5000)))
  = [Some (redirect 302 "https://example.org/");
     Some (redirect 302 "https://example.org/")]
  /\ lookup "abc123"
       (links (snd (interleave Demo.zeros [0; 1; 0; 1]%nat
                      [redirectLink "abc123"; redirectLink "abc123"]
                      (Demo.world [Demo.row "abc123" "https://example.org/" 5
                                     (Some 100)] 5000))))
     = Some (Demo.row "abc123" "https://example.org/" 7 (Some 5000)).
Proof.
  exact (concurrent_redirects_both_count Demo.zeros [0; 1; 0; 1]%nat "abc123"
           (Demo.world [Demo.row "abc123" "https://example.org/" 5
                          (Some 100)] 5000)
           (Demo.row "abc123" "https://example.org/" 5 (Some 100))
           (or_intror (or_introl eq_refl)) ltac:(concrete_table) eq_refl
           ltac:(vm_compute; discriminate)).
Defined.

Lemma redirect_of_a_link_deleted_meanwhile_witness :
  map answered
      (fst (interleave Demo.zeros [0; 1; 0]%nat
              [redirectLink "abc123"; deleteLink "abc123"]
              (Demo.world [Demo.row "abc123" "https://example.org/" 5
                             (Some 100)] 5000)))
  = [Some (redirect 302 "https://example.org/"); Some (send 204 None)]
  /\ links (snd (interleave Demo.zeros [0; 1; 0]%nat
                   [redirectLink "abc123"; deleteLink "abc123"]
                   (Demo.world [Demo.row "abc123" "https://example.org/" 5
                                  (Some 100)] 5000)))
     = [].
Proof.
  destruct (redirect_of_a_link_deleted_meanwhile Demo.zeros "abc123"
              (Demo.world [Demo.row "abc123" "https://example.org/" 5
                             (Some 100)] 5000)
              (Demo.row "abc123" "https://example.org/" 5 (Some 100))
              eq_refl)
    as (Hans & Hl & _).
  split; [exact Hans | exact Hl].
Defined.

Lemma dashboard_and_server_agree_witness :
  (exists resp,
      fst (run Demo.zeros
             (createLink Demo.BASE_URL Demo.new_URL
                (create_body (Some "https://example.com/page") None))
             (Demo.world [] 5000))
      = Returned resp
      /\ (status_of resp = 201 \/ status_of resp = 409
          \/ status_of resp = 500))
  /\ (exists resp,
         fst (run Demo.zeros
                (createLink Demo.BASE_URL Demo.new_URL
                   (create_body (Some "https://example.com/page")
                      (Some "ab-12")))
                (Demo.world [] 5000))
         = Returned resp
         /\ status_of resp = 400).
Proof.
  split.
  - destruct (dashboard_and_server_agree Demo.BASE_URL Demo.new_URL
                Demo.zeros eq_refl "https://example.com/page" ""
                (Demo.world [] 5000))
      as (resp & Hrun & _ & Hs).
    exists resp. split; [exact Hrun | exact Hs].
  - destruct (dashboard_and_server_agree Demo.BASE_URL Demo.new_URL
                Demo.zeros eq_refl "https://example.com/page" "ab-12"
                (Demo.world [] 5000))
      as (resp & Hrun & Hs).
    exists resp. split; [exact Hrun | exact Hs].
Defined.

Lemma dashboard_delete_stays_in_step_witness :
  handleDelete "abc123"
    [Demo.row "abc123" "https://example.org/" 5 (Some 100);
     Demo.row "other12" "https://example.com/" 0 None]
    (send 204 None)
  = [Demo.row "other12" "https://example.com/" 0 None].
Proof.
  exact (dashboard_delete_stays_in_step Demo.zeros "abc123"
           (Demo.world [Demo.row "abc123" "https://example.org/" 5 (Some 100);
                        Demo.row "other12" "https://example.com/" 0 None]
              5000)
           _ _ eq_refl).
Defined.

Lemma create_stores_the_first_free_candidate_witness :
  exists k,
    (k < 11)%nat
    /\ nth_error (candidates Demo.zeros_then_halves 11 0) k = Some "fffffff"
    /\ Forall (fun c' =>
                 taken c' [Demo.row "AAAAAA" "https://example.com/" 0 None]
                 = true)
         (firstn k (candidates Demo.zeros_then_halves 11 0))
    /\ taken "fffffff" [Demo.row "AAAAAA" "https://example.com/" 0 None]
       = false.
Proof.
  exact (create_stores_the_first_free_candidate Demo.BASE_URL Demo.new_URL
           Demo.zeros_then_halves
           (Some "https://example.com/page") None "https://example.com/page"
           (Demo.world [Demo.row "AAAAAA" "https://example.com/" 0 None] 5000)
           _ _ _ eq_refl eq_refl eq_refl eq_refl).
Defined.

Lemma table_kept_under_any_interleaving_witness :
  legal (links (snd (interleave Demo.zeros [0; 1; 0; 1; 1]%nat
                       (map (app Demo.BASE_URL Demo.new_URL 1000 "linux" 42
                             Demo.newest_first Demo.decodeURIComponent)
                          [ {| method := POST; path := ["api"; "links"];
                               body := create_body
                                         (Some "https://example.com/page")
                                         (Some "abc123") |};
                            {| method := GET; path := ["abc123"];
                               body := None |} ])
                       (Demo.world [Demo.row "abc123" "https://example.org/"
                                      5 (Some 100)] 5000))))
  /\ counted (links (snd (interleave Demo.zeros [0; 1; 0; 1; 1]%nat
                       (map (app Demo.BASE_URL Demo.new_URL 1000 "linux" 42
                             Demo.newest_first Demo.decodeURIComponent)
                          [ {| method := POST; path := ["api"; "links"];
                               body := create_body
                                         (Some "https://example.com/page")
                                         (Some "abc123") |};
                            {| method := GET; path := ["abc123"];
                               body := None |} ])
                       (Demo.world [Demo.row "abc123" "https://example.org/"
                                      5 (Some 100)] 5000)))).
Proof.
  exact (table_kept_under_any_interleaving Demo.BASE_URL Demo.new_URL 1000
           "linux" 42 Demo.newest_first Demo.decodeURIComponent Demo.zeros
           _ [0; 1; 0; 1; 1]%nat
           (Demo.world [Demo.row "abc123" "https://example.org/" 5
                          (Some 100)] 5000)
           ltac:(concrete_table) ltac:(concrete_table)).
Defined.
